(** * ResearchAgent: result ingestion, deduplication and persistence

    A shallow embedding of the Python sources

      - [src/tools/search_tools.py]  ([generate_hash], [fuzzy_match],
        [is_duplicate], [search_google], [fetch_url_content],
        [search_recent_startups]),
      - [src/database/db.py]         (the SQLite entity store),
      - [src/crew_orchestration.py]  (extraction, merge, aggregation, [run],
        [generate_run_id]),
      - [src/utils/db_queries.py]    (the queries of [DatabaseQueries]),
      - [src/utils/agent_tracker.py] (the recording methods of the tracker),
      - [main.py]                    (the entry point),

    together with the parts of the Python runtime these functions lean on
    ([str.lower], [str.strip], [json], [difflib.SequenceMatcher],
    [hashlib.md5], the [sqlite3] value binding and column affinity rules).

    Conventions.  A Python [str] is a Rocq [string] whose characters are the
    code points U+0000..U+00FF.  Python exceptions are explicit results.
    Floating point numbers that come out of JSON are carried as their
    literal and are worth the binary64 number nearest to it; no
    arithmetic is performed on them.  The similarity ratio
    is an exact rational.  What [json.loads] answers depends on the
    interpreter and its limits, so the functions that call it take the
    decoder as a parameter; [PyJson.loads] is the decoder of CPython
    3.11 for given limits. *)

From Stdlib Require Import ZArith List String Ascii Bool Lia Arith.
From Stdlib Require Import DecimalString DecimalZ DecimalPos QArith.
From Stdlib Require Import Permutation Sorted.
Import ListNotations.

Set Warnings "-register-all".
Local Open Scope string_scope.
Local Open Scope list_scope.

(* ================================================================== *)
(** * Python values *)
(* ================================================================== *)

(** The values [json.loads] can produce, which are also the values the
    pipeline passes around in its dictionaries.  A [dict] keeps insertion
    order, so it is an association list. *)
Inductive pyval : Type :=
| PNone
| PBool (b : bool)
| PInt (n : Z)
| PFloat (lit : string)
| PStr (s : string)
| PList (l : list pyval)
| PDict (d : list (string * pyval)).

Definition pydict : Type := list (string * pyval).

Definition isinstance_dict (v : pyval) : bool :=
  match v with PDict _ => true | _ => false end.

Definition isinstance_list (v : pyval) : bool :=
  match v with PList _ => true | _ => false end.

Definition isinstance_str (v : pyval) : bool :=
  match v with PStr _ => true | _ => false end.

(** ** Dictionaries with string keys *)

Fixpoint dict_find (d : pydict) (k : string) : option pyval :=
  match d with
  | [] => None
  | (k', v) :: r => if k' =? k then Some v else dict_find r k
  end.

(** [k in d] *)
Definition dict_has (d : pydict) (k : string) : bool :=
  match dict_find d k with Some _ => true | None => false end.

(** [d.get(k)] *)
Definition dict_get (d : pydict) (k : string) : pyval :=
  match dict_find d k with Some v => v | None => PNone end.

(** [d.get(k, default)] *)
Definition dict_get_default (d : pydict) (k : string) (dflt : pyval) : pyval :=
  match dict_find d k with Some v => v | None => dflt end.

(** [d[k] = v]: an existing key keeps its position, a new key goes last. *)
Fixpoint dict_set (d : pydict) (k : string) (v : pyval) : pydict :=
  match d with
  | [] => [(k, v)]
  | (k', v') :: r =>
      if k' =? k then (k', v) :: r else (k', v') :: dict_set r k v
  end.

(* ================================================================== *)
(** * Strings *)
(* ================================================================== *)

Definition code (c : ascii) : N := N_of_ascii c.

(** [str.lower] on one character of the U+0000..U+00FF range: the ASCII
    capitals and the Latin-1 capitals U+00C0..U+00DE except the
    multiplication sign U+00D7 move up by 32. *)
Definition lower_char (c : ascii) : ascii :=
  let n := code c in
  if ((65 <=? n) && (n <=? 90))%N then ascii_of_N (n + 32)
  else if ((192 <=? n) && (n <=? 222) && negb (n =? 215))%N
       then ascii_of_N (n + 32)
       else c.

Fixpoint lower (s : string) : string :=
  match s with
  | EmptyString => EmptyString
  | String c r => String (lower_char c) (lower r)
  end.

(** Characters removed by [str.strip()] in that range. *)
Definition is_py_space (c : ascii) : bool :=
  let n := code c in
  (((9 <=? n) && (n <=? 13)) || ((28 <=? n) && (n <=? 32))
   || (n =? 133) || (n =? 160))%N.

Fixpoint lstrip (s : string) : string :=
  match s with
  | EmptyString => EmptyString
  | String c r => if is_py_space c then lstrip r else s
  end.

(** [s.startswith(c)] for a one-character prefix. *)
Definition startswith_char (s : string) (c : ascii) : bool :=
  match s with
  | String c' _ => Ascii.eqb c' c
  | EmptyString => false
  end.

(** [text.strip().startswith(c)]: only the left end of the stripped text
    is looked at, so stripping the right end does not matter unless the
    whole text is blank, in which case both are empty. *)
Definition strip_startswith (text : string) (c : ascii) : bool :=
  startswith_char (lstrip text) c.

(** The double quote character, and a text between double quotes. *)
Definition dquote : ascii := ascii_of_N 34.

Definition quoted (s : string) : string :=
  String dquote (s ++ String dquote EmptyString).

(** Decimal rendering of an integer, as [str(n)] and SQLite's integer to
    text conversion produce it. *)
Definition Z_to_string (n : Z) : string :=
  NilZero.string_of_int (Z.to_int n).

(* ================================================================== *)
(** * Exceptions and the environment of a run *)
(* ================================================================== *)

Inductive exn : Type :=
| JSONDecodeError
| StopIteration         (* the JSON scanner: no value starts here *)
| RecursionError        (* the interpreter's recursion limit is reached *)
| ValueError            (* here: an integer literal beyond the digit limit *)
| TypeError
| AttributeError
| OperationalError      (* sqlite3: cannot open, locked, no such table *)
| IntegrityError        (* sqlite3: NOT NULL or UNIQUE violated *)
| InterfaceError        (* sqlite3: parameter of an unsupported type *)
| OverflowError
| OtherError
| OutsideAlphabet.      (* no exception of Python: see [PyJson.loads] *)

Inductive outcome (A : Type) : Type :=
| Ok (a : A)
| Raise (e : exn).
Arguments Ok {A} a.
Arguments Raise {A} e.

(** Sequencing: an exception skips the rest. *)
Definition obind {A B : Type} (m : outcome A) (k : A -> outcome B) : outcome B :=
  match m with
  | Ok a => k a
  | Raise e => Raise e
  end.

Notation "x <- m ;; k" := (obind m (fun x => k))
  (at level 61, m at next level, right associativity).

(* ================================================================== *)
(** * The entity store: [src/database/db.py] *)
(* ================================================================== *)

(** ** SQLite values *)

Inductive sqlval : Type :=
| SqlNull
| SqlInt (n : Z)
| SqlReal (lit : string)
| SqlText (s : string).

Definition sqlval_eqb (x y : sqlval) : bool :=
  match x, y with
  | SqlNull, SqlNull => true
  | SqlInt a, SqlInt b => (a =? b)%Z
  | SqlReal a, SqlReal b => a =? b
  | SqlText a, SqlText b => a =? b
  | _, _ => false
  end.

(** How the [sqlite3] module binds a Python value to a [?] placeholder:
    [None], [int] (and [bool], a subclass of it), [float] and [str] are
    supported; an [int] outside 64 bits raises [OverflowError]; a [list]
    or a [dict] is an unsupported type.  SQLite stores a NaN as NULL. *)
Definition bind_param (v : pyval) : outcome sqlval :=
  match v with
  | PNone => Ok SqlNull
  | PBool b => Ok (SqlInt (if b then 1 else 0))
  | PInt n =>
      if ((- 2 ^ 63 <=? n) && (n <? 2 ^ 63))%Z then Ok (SqlInt n)
      else Raise OverflowError
  | PFloat lit => if lit =? "NaN" then Ok SqlNull else Ok (SqlReal lit)
  | PStr s => Ok (SqlText s)
  | PList _ => Raise InterfaceError
  | PDict _ => Raise InterfaceError
  end.

(** What a [sqlite3.Row] hands back through [dict(row)]. *)
Definition sql_to_py (v : sqlval) : pyval :=
  match v with
  | SqlNull => PNone
  | SqlInt n => PInt n
  | SqlReal lit => PFloat lit
  | SqlText s => PStr s
  end.

(** Column affinity TEXT: numbers are stored as their text.  For an
    integer that is its decimal writing.  For a REAL it is SQLite's
    rendering to fifteen significant digits, which comes out of the
    platform's extended arithmetic and is not computed here: the
    literal stands in its place, and what is stated below about stored
    text leaves floats out. *)
Definition affinity_text (v : sqlval) : sqlval :=
  match v with
  | SqlInt n => SqlText (Z_to_string n)
  | SqlReal lit => SqlText lit
  | _ => v
  end.

(** ** Tables *)

(** One row of [startups], columns in the order of [CREATE TABLE]. *)
Record startup_row : Type := mk_startup_row {
  col_id : Z;
  col_name : sqlval;
  col_website : sqlval;
  col_description : sqlval;
  col_category : sqlval;
  col_founded_date : sqlval;
  col_country : sqlval;
  col_india_fit_score : sqlval;
  col_india_fit_analysis : sqlval;
  col_primary_tier : sqlval;
  col_secondary_tiers : sqlval;
  col_source : sqlval;
  col_source_url : sqlval;
  col_created_at : Z;
  col_updated_at : Z;
  col_hash : sqlval
}.

(** One row of [run_metadata]. *)
Record run_row : Type := mk_run_row {
  run_col_id : Z;
  run_col_run_id : sqlval;
  run_col_run_date : Z;
  run_col_total_startups_found : sqlval;
  run_col_tier_1_count : sqlval;
  run_col_tier_2_count : sqlval;
  run_col_tier_3_count : sqlval;
  run_col_processing_time_seconds : sqlval;
  run_col_status : sqlval;
  run_col_report_path : sqlval;
  run_col_created_at : Z
}.

(** The database file.  Rows are kept in insertion (rowid) order. *)
Record database : Type := mk_database {
  startups : list startup_row;
  run_metadata : list run_row;
  next_startup_id : Z;
  next_run_id : Z
}.

Definition empty_database : database := mk_database [] [] 1 1.

(** The world a store operation runs in: the database, the wall clock in
    seconds ([CURRENT_TIMESTAMP]), and a fault schedule.  Every operation
    opens its own connection; the head of the schedule says whether that
    connection fails with a [sqlite3] error (file cannot be opened, is
    locked or corrupt, table missing).  An exhausted schedule means a
    healthy store. *)
Record world : Type := mk_world {
  db : database;
  now : Z;
  faults : list bool
}.

Definition healthy (d : database) (t : Z) : world := mk_world d t [].

(** [with get_db_connection() as conn]: consume one entry of the schedule. *)
Definition get_db_connection (w : world) : outcome unit * world :=
  match faults w with
  | true :: fs => (Raise OperationalError, mk_world (db w) (now w) fs)
  | false :: fs => (Ok tt, mk_world (db w) (now w) fs)
  | [] => (Ok tt, w)
  end.

Definition set_db (w : world) (d : database) : world :=
  mk_world d (now w) (faults w).

(* ================================================================== *)
(** * The [json] module *)
(* ================================================================== *)

Module PyJson.

Local Open Scope string_scope.

(** ** [json.dumps] with its defaults ([ensure_ascii], [", "], [": "]) *)

Definition hex_digit (n : N) : ascii :=
  if (n <? 10)%N then ascii_of_N (48 + n) else ascii_of_N (87 + n).

(** [\u00XX] for a character of the modelled range. *)
Definition escape_u (c : ascii) : string :=
  String "\" (String "u" (String "0" (String "0"
    (String (hex_digit (code c / 16)) (String (hex_digit (code c mod 16)) EmptyString))))).

(** One character as [py_encode_basestring_ascii] writes it: everything
    outside the range space..tilde is escaped. *)
Definition escape_char (c : ascii) : string :=
  let n := code c in
  if (n =? 34)%N then String "\" (String dquote EmptyString)
  else if (n =? 92)%N then String "\" (String "\" EmptyString)
  else if (n =? 10)%N then String "\" (String "n" EmptyString)
  else if (n =? 13)%N then String "\" (String "r" EmptyString)
  else if (n =? 9)%N then String "\" (String "t" EmptyString)
  else if (n =? 8)%N then String "\" (String "b" EmptyString)
  else if (n =? 12)%N then String "\" (String "f" EmptyString)
  else if ((n <? 32) || (126 <? n))%N then escape_u c
  else String c EmptyString.

Fixpoint escape_body (s : string) : string :=
  match s with
  | EmptyString => EmptyString
  | String c r => escape_char c ++ escape_body r
  end.

Definition dumps_str (s : string) : string :=
  String dquote (escape_body s ++ String dquote EmptyString).

Fixpoint dumps (v : pyval) : string :=
  match v with
  | PNone => "null"
  | PBool true => "true"
  | PBool false => "false"
  | PInt n => Z_to_string n
  | PFloat lit => lit
  | PStr s => dumps_str s
  | PList l =>
      "[" ++
      (fix items (l : list pyval) : string :=
         match l with
         | [] => ""
         | x :: r =>
             match r with
             | [] => dumps x
             | _ => dumps x ++ ", " ++ items r
             end
         end) l ++ "]"
  | PDict d =>
      "{" ++
      (fix members (d : list (string * pyval)) : string :=
         match d with
         | [] => ""
         | (k, x) :: r =>
             match r with
             | [] => dumps_str k ++ ": " ++ dumps x
             | _ => dumps_str k ++ ": " ++ dumps x ++ ", " ++ members r
             end
         end) d ++ "}"
  end.

(** ** [json.loads]

    The decoder of CPython 3.11's [json] (the C scanner, strict mode):
    JSON white space is space, tab, line feed and carriage return; a
    number is an optional minus sign, an integer part without leading
    zero, an optional fraction and an optional exponent; [NaN],
    [Infinity] and [-Infinity] are accepted; a string may not contain a
    raw control character.

    Besides [JSONDecodeError] the decoder raises what the interpreter
    raises when a limit is reached.  The scanner enters every array and
    every object through the interpreter's recursion check, so a text
    nested deeper than the interpreter has room for raises
    [RecursionError].  A [JSONDecodeError] is an object whose
    constructor is Python code: building it takes room as well, and
    where that room is not left the [RecursionError] comes in its
    place.  An integer literal is converted by [int], which raises
    [ValueError] when the literal has more digits than
    [sys.get_int_max_str_digits()] allows.  The limits are state of the
    interpreter at the call and are given to the decoder here. *)

Record limits : Type := mk_limits {
  (** how many arrays and objects the scanner may have open at once *)
  recursion_room : nat;
  (** how much of that room it takes to build a [JSONDecodeError]
      (three levels in CPython 3.11) *)
  error_room : nat;
  (** [sys.get_int_max_str_digits()]: [0] switches the limit off,
      CPython starts with 4300 *)
  int_max_str_digits : Z
}.

Definition is_ws (c : ascii) : bool :=
  let n := code c in ((n =? 32) || (n =? 9) || (n =? 10) || (n =? 13))%N.

Fixpoint skip_ws (s : string) : string :=
  match s with
  | EmptyString => EmptyString
  | String c r => if is_ws c then skip_ws r else s
  end.

Definition is_digit (c : ascii) : bool :=
  let n := code c in ((48 <=? n) && (n <=? 57))%N.

Definition hex_value (c : ascii) : option N :=
  let n := code c in
  if ((48 <=? n) && (n <=? 57))%N then Some (n - 48)%N
  else if ((97 <=? n) && (n <=? 102))%N then Some (n - 87)%N
  else if ((65 <=? n) && (n <=? 70))%N then Some (n - 55)%N
  else None.

Definition hex4 (a b c d : ascii) : option N :=
  match hex_value a, hex_value b, hex_value c, hex_value d with
  | Some x, Some y, Some z, Some t => Some (((x * 16 + y) * 16 + z) * 16 + t)%N
  | _, _, _, _ => None
  end.

Definition simple_escape (c : ascii) : option ascii :=
  let n := code c in
  if (n =? 34)%N then Some dquote
  else if (n =? 92)%N then Some "\"%char
  else if (n =? 47)%N then Some "/"%char
  else if (n =? 98)%N then Some (ascii_of_N 8)
  else if (n =? 102)%N then Some (ascii_of_N 12)
  else if (n =? 110)%N then Some (ascii_of_N 10)
  else if (n =? 114)%N then Some (ascii_of_N 13)
  else if (n =? 116)%N then Some (ascii_of_N 9)
  else None.

Definition cons_char (c : ascii) (r : option (string * string))
  : option (string * string) :=
  match r with
  | Some (s, rest) => Some (String c s, rest)
  | None => None
  end.

(** An escape [\uXXXX] above [ÿ] is well-formed JSON, but names a
    character that a [string] here cannot carry.  The scanner puts this
    mark in its place and goes on, so that what is wrong with the rest
    of the text is still found; [loads] never hands out a value with a
    mark in it. *)
Definition beyond_alphabet : ascii := "?"%char.

(** [scanstring]: the text after an opening quote, up to the closing one.
    Returns the decoded string and what follows the closing quote;
    [None] is a [JSONDecodeError]. *)
Fixpoint scanstring (s : string) : option (string * string) :=
  match s with
  | EmptyString => None
  | String c r =>
      if (code c =? 34)%N then Some (EmptyString, r)
      else if (code c =? 92)%N then
        match r with
        | EmptyString => None
        | String e r1 =>
            if (code e =? 117)%N then
              match r1 with
              | String h1 (String h2 (String h3 (String h4 r2))) =>
                  match hex4 h1 h2 h3 h4 with
                  | Some n =>
                      if (n <? 256)%N then cons_char (ascii_of_N n) (scanstring r2)
                      else cons_char beyond_alphabet (scanstring r2)
                  | None => None
                  end
              | _ => None
              end
            else
              match simple_escape e with
              | Some ch => cons_char ch (scanstring r1)
              | None => None
              end
        end
      else if (code c <? 32)%N then None
      else cons_char c (scanstring r)
  end.

(** Whether a text has an escape [\uXXXX] above [ÿ].  In a text the
    scanner accepts, a backslash occurs only inside a string, where it
    starts an escape. *)
Fixpoint escapes_beyond_alphabet (s : string) : bool :=
  match s with
  | EmptyString => false
  | String c r =>
      if (code c =? 92)%N then
        match r with
        | EmptyString => false
        | String e r1 =>
            if (code e =? 117)%N then
              match r1 with
              | String h1 (String h2 (String h3 (String h4 r2))) =>
                  match hex4 h1 h2 h3 h4 with
                  | Some n =>
                      if (n <? 256)%N then escapes_beyond_alphabet r2 else true
                  | None => false
                  end
              | _ => false
              end
            else escapes_beyond_alphabet r1
        end
      else escapes_beyond_alphabet r
  end.

(** The longest prefix of decimal digits, and the rest. *)
Fixpoint take_digits (s : string) : string * string :=
  match s with
  | EmptyString => (EmptyString, EmptyString)
  | String c r =>
      if is_digit c then let (d, rest) := take_digits r in (String c d, rest)
      else (EmptyString, s)
  end.

Fixpoint digits_value (acc : Z) (s : string) : Z :=
  match s with
  | EmptyString => acc
  | String c r => digits_value (acc * 10 + Z.of_N (code c - 48)) r
  end.

(** The integer part at the head of [s]: a lone zero, or a nonzero digit
    followed by digits. *)
Definition match_int_part (s : string) : option (string * string) :=
  match s with
  | String c r =>
      if (code c =? 48)%N then Some (String c EmptyString, r)
      else if is_digit c then let (d, rest) := take_digits r in Some (String c d, rest)
      else None
  | EmptyString => None
  end.

(** The optional fraction [.[0-9]+]. *)
Definition match_frac (s : string) : string * string :=
  match s with
  | String c (String d r) =>
      if ((code c =? 46)%N && is_digit d)%bool
      then let (ds, rest) := take_digits r in (String c (String d ds), rest)
      else (EmptyString, s)
  | _ => (EmptyString, s)
  end.

(** The optional exponent [[eE][-+]?[0-9]+]. *)
Definition match_exp (s : string) : string * string :=
  match s with
  | String c r =>
      if ((code c =? 101) || (code c =? 69))%N then
        match r with
        | String sg r1 =>
            if ((code sg =? 45) || (code sg =? 43))%N then
              match take_digits r1 with
              | (EmptyString, _) => (EmptyString, s)
              | (ds, rest) => (String c (String sg ds), rest)
              end
            else
              match take_digits r with
              | (EmptyString, _) => (EmptyString, s)
              | (ds, rest) => (String c ds, rest)
              end
        | EmptyString => (EmptyString, s)
        end
      else (EmptyString, s)
  | EmptyString => (EmptyString, s)
  end.

(** [int(literal)] refuses a literal of more than [max_digits] digits
    ([PyLong_FromString]: the check is made for more than 640 digits
    only, and [max_digits = 0] means no limit). *)
Definition too_many_digits (max_digits : Z) (digits : string) : bool :=
  let n := Z.of_nat (String.length digits) in
  ((640 <? n) && (0 <? max_digits) && (max_digits <? n))%Z.

(** [s.startswith(p)], returning the remainder. *)
Fixpoint strip_prefix (p s : string) : option string :=
  match p with
  | EmptyString => Some s
  | String c p' =>
      match s with
      | String c' s' => if Ascii.eqb c c' then strip_prefix p' s' else None
      | EmptyString => None
      end
  end.

Section Scanner.

Variable error_frames : nat.
Variable max_digits : Z.

(** The exception that comes out where the decoder finds the text
    malformed with [room] left. *)
Definition decode_error (room : nat) : exn :=
  if (error_frames <=? room)%nat then JSONDecodeError else RecursionError.

(** A number at the head of [s], sign included. *)
Definition match_number (s : string) : outcome (pyval * string) :=
  let (neg, body) :=
    match s with
    | String c r => if (code c =? 45)%N then (true, r) else (false, s)
    | EmptyString => (false, s)
    end in
  match match_int_part body with
  | None => Raise StopIteration
  | Some (ip, r1) =>
      let (fp, r2) := match_frac r1 in
      let (ep, r3) := match_exp r2 in
      match fp, ep with
      | EmptyString, EmptyString =>
          if too_many_digits max_digits ip then Raise ValueError
          else
            let n := digits_value 0 ip in
            Ok (PInt (if neg then (- n)%Z else n), r3)
      | _, _ =>
          Ok (PFloat ((if neg then "-" else "") ++ ip ++ fp ++ ep), r3)
      end
  end.

Definition match_literal (s : string) : outcome (pyval * string) :=
  match strip_prefix "null" s with
  | Some r => Ok (PNone, r)
  | None =>
  match strip_prefix "true" s with
  | Some r => Ok (PBool true, r)
  | None =>
  match strip_prefix "false" s with
  | Some r => Ok (PBool false, r)
  | None =>
  match strip_prefix "NaN" s with
  | Some r => Ok (PFloat "NaN", r)
  | None =>
  match strip_prefix "Infinity" s with
  | Some r => Ok (PFloat "Infinity", r)
  | None =>
  match strip_prefix "-Infinity" s with
  | Some r => Ok (PFloat "-Infinity", r)
  | None => match_number s
  end end end end end end.

(** [scan_once] and the array and object loops.  [room] is what is left
    of the recursion limit; it is checked on the opening bracket, before
    anything inside is looked at.  Where a value is expected and none
    starts, the scanner raises [StopIteration], which goes up to
    [raw_decode]; every other complaint is a [JSONDecodeError] built on
    the spot.  The fuel bounds the number of nested calls; every second
    call consumes a character, so twice the length of the text is
    always enough. *)
Fixpoint parse_value (fuel : nat) (room : nat) (s : string) {struct fuel}
  : outcome (pyval * string) :=
  match fuel with
  | O => Raise JSONDecodeError
  | S f =>
      match s with
      | EmptyString => Raise StopIteration
      | String c r =>
          if (code c =? 34)%N then
            match scanstring r with
            | Some (str, rest) => Ok (PStr str, rest)
            | None => Raise (decode_error room)
            end
          else if (code c =? 91)%N then
            match room with
            | O => Raise RecursionError
            | S room' =>
                match skip_ws r with
                | String c1 r1 =>
                    if (code c1 =? 93)%N then Ok (PList [], r1)
                    else
                      match parse_elems f room' (skip_ws r) with
                      | Ok (l, rest) => Ok (PList l, rest)
                      | Raise e => Raise e
                      end
                | EmptyString => Raise StopIteration
                end
            end
          else if (code c =? 123)%N then
            match room with
            | O => Raise RecursionError
            | S room' =>
                match skip_ws r with
                | String c1 r1 =>
                    if (code c1 =? 125)%N then Ok (PDict [], r1)
                    else
                      match parse_members f room' (skip_ws r) [] with
                      | Ok (d, rest) => Ok (PDict d, rest)
                      | Raise e => Raise e
                      end
                | EmptyString => Raise (decode_error room')
                end
            end
          else match_literal s
      end
  end

with parse_elems (fuel : nat) (room : nat) (s : string) {struct fuel}
  : outcome (list pyval * string) :=
  match fuel with
  | O => Raise JSONDecodeError
  | S f =>
      match parse_value f room s with
      | Raise e => Raise e
      | Ok (v, r) =>
          match skip_ws r with
          | String c r1 =>
              if (code c =? 93)%N then Ok ([v], r1)
              else if (code c =? 44)%N then
                match parse_elems f room (skip_ws r1) with
                | Ok (l, rest) => Ok (v :: l, rest)
                | Raise e => Raise e
                end
              else Raise (decode_error room)
          | EmptyString => Raise (decode_error room)
          end
      end
  end

with parse_members (fuel : nat) (room : nat) (s : string) (acc : pydict)
       {struct fuel} : outcome (pydict * string) :=
  match fuel with
  | O => Raise JSONDecodeError
  | S f =>
      match s with
      | String q r =>
          if (code q =? 34)%N then
            match scanstring r with
            | None => Raise (decode_error room)
            | Some (k, r1) =>
                match skip_ws r1 with
                | String c r2 =>
                    if (code c =? 58)%N then
                      match parse_value f room (skip_ws r2) with
                      | Raise e => Raise e
                      | Ok (v, r3) =>
                          let acc' := dict_set acc k v in
                          match skip_ws r3 with
                          | String c3 r4 =>
                              if (code c3 =? 125)%N then Ok (acc', r4)
                              else if (code c3 =? 44)%N
                                   then parse_members f room (skip_ws r4) acc'
                                   else Raise (decode_error room)
                          | EmptyString => Raise (decode_error room)
                          end
                      end
                    else Raise (decode_error room)
                | EmptyString => Raise (decode_error room)
                end
            end
          else Raise (decode_error room)
      | EmptyString => Raise (decode_error room)
      end
  end.

End Scanner.

(** [json.loads(s)]: one value, surrounded by white space only.
    [raw_decode] runs the scanner and turns its [StopIteration] into a
    [JSONDecodeError]; [decode], one level above, complains about what
    follows the value.

    Where CPython returns a value that holds a character above U+00FF,
    which can only come from an escape, there is no [pyval] to return;
    the result here is then [Raise OutsideAlphabet], which is no
    exception of Python and says that the model has no answer. *)
Definition loads (lim : limits) (s : string) : outcome pyval :=
  match parse_value (error_room lim) (int_max_str_digits lim)
          (2 * String.length s + 2) (recursion_room lim) (skip_ws s) with
  | Ok (v, rest) =>
      match skip_ws rest with
      | EmptyString =>
          if escapes_beyond_alphabet s then Raise OutsideAlphabet else Ok v
      | _ => Raise (decode_error (error_room lim) (S (recursion_room lim)))
      end
  | Raise StopIteration =>
      Raise (decode_error (error_room lim) (recursion_room lim))
  | Raise e => Raise e
  end.

End PyJson.

(* ================================================================== *)
(** * Floating point numbers *)
(* ================================================================== *)

(** A [float] is carried as the literal it was read from; what it is
    worth is the binary64 number nearest to the literal, as Python's
    [float] reads it (ties go to the even mantissa, what is too large
    becomes an infinity, what is too small becomes zero). *)

(** The signed mantissa [m] and the decimal exponent [k] of a number
    literal: its value is [m * 10 ^ k]. *)
Definition real_parts (lit : string) : Z * Z :=
  let (neg, body) :=
    match lit with
    | String c r => if (code c =? 45)%N then (true, r) else (false, lit)
    | EmptyString => (false, lit)
    end in
  let (ip, r1) := PyJson.take_digits body in
  let (fp, r2) :=
    match r1 with
    | String c r => if (code c =? 46)%N then PyJson.take_digits r else (EmptyString, r1)
    | EmptyString => (EmptyString, r1)
    end in
  let e :=
    match r2 with
    | String _ (String sg r) =>
        if (code sg =? 45)%N then (- PyJson.digits_value 0 r)%Z
        else if (code sg =? 43)%N then PyJson.digits_value 0 r
        else PyJson.digits_value 0 (String sg r)
    | _ => 0%Z
    end in
  let m := PyJson.digits_value 0 (ip ++ fp)%string in
  ((if neg then (- m)%Z else m), (e - Z.of_nat (String.length fp))%Z).

Definition real_value (lit : string) : Q :=
  let (m, k) := real_parts lit in
  if (0 <=? k)%Z then (m * 10 ^ k)%Z # 1 else m # Z.to_pos (10 ^ (- k)).

(** The integer nearest to [a / b], ties to the even one. *)
Definition round_half_even (a b : Z) : Z :=
  let fl := (a / b)%Z in
  match (2 * (a mod b) ?= b)%Z with
  | Lt => fl
  | Gt => (fl + 1)%Z
  | Eq => if Z.even fl then fl else (fl + 1)%Z
  end.

(** The binary64 number nearest to [n / d], for positive [n] and [d]:
    [Some (m, u)] stands for [m * 2 ^ u], with [m] of at most 53 bits
    and [u] no less than -1074; [None] is infinity. *)
Definition binary64_nearest (n d : Z) : option (Z * Z) :=
  let e0 := (Z.log2 n - Z.log2 d)%Z in
  let below :=
    if (0 <=? e0)%Z then (n <? d * 2 ^ e0)%Z else (n * 2 ^ (- e0) <? d)%Z in
  let e := if below then (e0 - 1)%Z else e0 in
  let u := Z.max (e - 52) (- 1074) in
  let m :=
    if (0 <=? u)%Z then round_half_even n (d * 2 ^ u)
    else round_half_even (n * 2 ^ (- u)) d in
  if (971 <? u)%Z then None
  else if ((u =? 971) && (2 ^ 53 <=? m))%Z then None
  else Some (m, u).

(** What a float literal other than [NaN] is worth: [-1], [0] or [1]
    for minus infinity, a finite number, plus infinity, and the finite
    number itself.  A literal beyond [10 ^ 400], or below [10 ^ -400],
    is settled without computing the power. *)
Definition float_key (lit : string) : Z * Q :=
  if lit =? "Infinity" then (1%Z, 0%Q)
  else if lit =? "-Infinity" then ((-1)%Z, 0%Q)
  else
    let (m, k) := real_parts lit in
    if (m =? 0)%Z then (0%Z, 0%Q)
    else if (400 <? k)%Z then (Z.sgn m, 0%Q)
    else if (k <? - 400 - (Z.log2 (Z.abs m) + 1))%Z then (0%Z, 0%Q)
    else
      let q := real_value lit in
      match binary64_nearest (Z.abs (Qnum q)) (Zpos (Qden q)) with
      | None => (Z.sgn m, 0%Q)
      | Some (v, u) =>
          (0%Z,
           if (0 <=? u)%Z then (Z.sgn m * v * 2 ^ u)%Z # 1
           else (Z.sgn m * v)%Z # Z.to_pos (2 ^ (- u)))
      end.

(** [x == 0.0] for a float: a NaN is not, an infinity is not. *)
Definition float_is_zero (lit : string) : bool :=
  if lit =? "NaN" then false
  else let (c, q) := float_key lit in ((c =? 0)%Z && Qeq_bool q 0)%bool.

(** Python truth value, as used by [x or y] and [if not x]. *)
Definition truthy (v : pyval) : bool :=
  match v with
  | PNone => false
  | PBool b => b
  | PInt n => negb (n =? 0)%Z
  | PFloat lit => negb (float_is_zero lit)
  | PStr s => negb (s =? "")
  | PList l => match l with [] => false | _ => true end
  | PDict d => match d with [] => false | _ => true end
  end.

(** [x or y] *)
Definition py_or (x y : pyval) : pyval := if truthy x then x else y.

(* ================================================================== *)
(** * Store operations *)
(* ================================================================== *)

(** ** Ordering of SQLite values ([ORDER BY])

    NULL sorts before numbers, numbers before text; numbers compare by
    value, text byte-wise. *)

(** -1, 0, 1 for minus infinity, a finite number, plus infinity. *)
Definition num_key (v : sqlval) : Z * Q :=
  match v with
  | SqlInt n => (0%Z, n # 1)
  | SqlReal lit => float_key lit
  | _ => (0%Z, 0%Q)
  end.

Fixpoint string_compare (a b : string) : comparison :=
  match a, b with
  | EmptyString, EmptyString => Eq
  | EmptyString, String _ _ => Lt
  | String _ _, EmptyString => Gt
  | String x a', String y b' =>
      match N.compare (code x) (code y) with
      | Eq => string_compare a' b'
      | c => c
      end
  end.

Definition sql_class (v : sqlval) : Z :=
  match v with
  | SqlNull => 0
  | SqlInt _ => 1
  | SqlReal _ => 1
  | SqlText _ => 2
  end.

Definition sql_compare (x y : sqlval) : comparison :=
  match Z.compare (sql_class x) (sql_class y) with
  | Eq =>
      match x, y with
      | SqlText a, SqlText b => string_compare a b
      | SqlNull, _ => Eq
      | _, _ =>
          let (cx, qx) := num_key x in
          let (cy, qy) := num_key y in
          match Z.compare cx cy with
          | Eq => Qcompare qx qy
          | c => c
          end
      end
  | c => c
  end.

(** [ORDER BY key DESC]: rows with equal keys stay in rowid order. *)
Section OrderBy.
Context {R K : Type} (key : R -> K) (cmp : K -> K -> comparison).

Fixpoint insert_desc (x : R) (l : list R) : list R :=
  match l with
  | [] => [x]
  | y :: r =>
      match cmp (key y) (key x) with
      | Gt => y :: insert_desc x r
      | _ => x :: l
      end
  end.

Definition order_by_desc (l : list R) : list R :=
  fold_right insert_desc [] l.
End OrderBy.

(** ** [dict(row)] *)

Definition row_to_dict (r : startup_row) : pydict :=
  [ ("id", PInt (col_id r));
    ("name", sql_to_py (col_name r));
    ("website", sql_to_py (col_website r));
    ("description", sql_to_py (col_description r));
    ("category", sql_to_py (col_category r));
    ("founded_date", sql_to_py (col_founded_date r));
    ("country", sql_to_py (col_country r));
    ("india_fit_score", sql_to_py (col_india_fit_score r));
    ("india_fit_analysis", sql_to_py (col_india_fit_analysis r));
    ("primary_tier", sql_to_py (col_primary_tier r));
    ("secondary_tiers", sql_to_py (col_secondary_tiers r));
    ("source", sql_to_py (col_source r));
    ("source_url", sql_to_py (col_source_url r));
    ("created_at", PInt (col_created_at r));
    ("updated_at", PInt (col_updated_at r));
    ("hash", sql_to_py (col_hash r)) ].

Definition run_to_dict (r : run_row) : pydict :=
  [ ("id", PInt (run_col_id r));
    ("run_id", sql_to_py (run_col_run_id r));
    ("run_date", PInt (run_col_run_date r));
    ("total_startups_found", sql_to_py (run_col_total_startups_found r));
    ("tier_1_count", sql_to_py (run_col_tier_1_count r));
    ("tier_2_count", sql_to_py (run_col_tier_2_count r));
    ("tier_3_count", sql_to_py (run_col_tier_3_count r));
    ("processing_time_seconds", sql_to_py (run_col_processing_time_seconds r));
    ("status", sql_to_py (run_col_status r));
    ("report_path", sql_to_py (run_col_report_path r));
    ("created_at", PInt (run_col_created_at r)) ].

(** ** Constraints *)

(** [UNIQUE]: a NULL never collides; other values collide when equal. *)
Definition unique_conflict (v existing : sqlval) : bool :=
  match v with
  | SqlNull => false
  | _ => sqlval_eqb v existing
  end.

Definition startups_conflict (name hash : sqlval) (rows : list startup_row) : bool :=
  existsb (fun r => unique_conflict name (col_name r)
                    || unique_conflict hash (col_hash r))%bool rows.

Definition is_null (v : sqlval) : bool :=
  match v with SqlNull => true | _ => false end.

(** ** [init_database]

    [CREATE TABLE IF NOT EXISTS] leaves existing tables and rows alone; a
    [database] value always has its tables.  An error is logged and
    raised again. *)
Definition init_database (w : world) : outcome unit * world :=
  match get_db_connection w with
  | (Raise e, w1) => (Raise e, w1)
  | (Ok _, w1) => (Ok tt, w1)
  end.

(** ** [insert_startup] *)

(** The [INSERT] statement on an open connection: the thirteen bound
    parameters, column affinity, then NOT NULL and UNIQUE.  The score
    column has INTEGER affinity, under which SQLite turns
    numeric-looking text and integral floats into integers by a
    conversion of its own; that conversion is not computed here and the
    score is kept as bound, so nothing is stated below about the score
    of an inserted record. *)
Definition insert_startup_row (startup_data : pydict) (w : world)
  : outcome database :=
  let secondary_tiers := dict_get startup_data "secondary_tiers" in
  let secondary_tiers :=
    if isinstance_list secondary_tiers
    then PStr (PyJson.dumps secondary_tiers)
    else secondary_tiers in
  name <- bind_param (dict_get startup_data "name") ;;
  website <- bind_param (dict_get startup_data "website") ;;
  description <- bind_param (dict_get startup_data "description") ;;
  category <- bind_param (dict_get startup_data "category") ;;
  founded_date <- bind_param (dict_get startup_data "founded_date") ;;
  country <- bind_param (dict_get startup_data "country") ;;
  score <- bind_param (dict_get_default startup_data "india_fit_score" (PInt 0)) ;;
  analysis <- bind_param (dict_get startup_data "india_fit_analysis") ;;
  primary_tier <- bind_param (dict_get startup_data "primary_tier") ;;
  sec <- bind_param secondary_tiers ;;
  source <- bind_param (dict_get startup_data "source") ;;
  source_url <- bind_param (dict_get startup_data "source_url") ;;
  hash <- bind_param (dict_get startup_data "hash") ;;
  let name := affinity_text name in
  let hash := affinity_text hash in
  if is_null name then Raise IntegrityError
  else if startups_conflict name hash (startups (db w))
  then Raise IntegrityError
  else
    let row :=
      mk_startup_row (next_startup_id (db w)) name
        (affinity_text website) (affinity_text description)
        (affinity_text category) (affinity_text founded_date)
        (affinity_text country) score (affinity_text analysis)
        (affinity_text primary_tier) (affinity_text sec)
        (affinity_text source) (affinity_text source_url)
        (now w) (now w) hash in
    Ok (mk_database (startups (db w) ++ [row]) (run_metadata (db w))
          (next_startup_id (db w) + 1) (next_run_id (db w))).

(** The function itself: every exception, [IntegrityError] or other,
    ends in [return False]; nothing is committed in that case. *)
Definition insert_startup (startup_data : pydict) (w : world) : bool * world :=
  match get_db_connection w with
  | (Raise _, w1) => (false, w1)
  | (Ok _, w1) =>
      match insert_startup_row startup_data w1 with
      | Ok d => (true, set_db w1 d)
      | Raise IntegrityError => (false, w1)
      | Raise _ => (false, w1)
      end
  end.

(** ** [get_all_startups], [get_startups_by_tier] *)

Definition get_all_startups (w : world) : list pydict * world :=
  match get_db_connection w with
  | (Raise _, w1) => ([], w1)
  | (Ok _, w1) =>
      (map row_to_dict
         (order_by_desc col_created_at Z.compare (startups (db w1))), w1)
  end.

Definition get_startups_by_tier (tier : string) (w : world)
  : list pydict * world :=
  match get_db_connection w with
  | (Raise _, w1) => ([], w1)
  | (Ok _, w1) =>
      (map row_to_dict
         (order_by_desc col_india_fit_score sql_compare
            (filter (fun r => sqlval_eqb (col_primary_tier r) (SqlText tier))
               (startups (db w1)))), w1)
  end.

(** The same two queries in [src/utils/db_queries.py]
    ([DatabaseQueries]): the connection is opened inside the [try]. *)
Definition DatabaseQueries_get_all_startups (w : world) : list pydict * world :=
  match get_db_connection w with
  | (Raise _, w1) => ([], w1)
  | (Ok _, w1) =>
      (map row_to_dict
         (order_by_desc col_created_at Z.compare (startups (db w1))), w1)
  end.

Definition DatabaseQueries_get_startups_by_tier (tier : string) (w : world)
  : list pydict * world :=
  match get_db_connection w with
  | (Raise _, w1) => ([], w1)
  | (Ok _, w1) =>
      (map row_to_dict
         (order_by_desc col_india_fit_score sql_compare
            (filter (fun r => sqlval_eqb (col_primary_tier r) (SqlText tier))
               (startups (db w1)))), w1)
  end.

(** ** [insert_run_metadata], [get_latest_run] *)

Definition run_conflict (run_id : sqlval) (rows : list run_row) : bool :=
  existsb (fun r => unique_conflict run_id (run_col_run_id r)) rows.

Definition insert_run_row (run_data : pydict) (w : world) : outcome database :=
  run_id <- bind_param (dict_get run_data "run_id") ;;
  total <- bind_param (dict_get_default run_data "total_startups_found" (PInt 0)) ;;
  t1 <- bind_param (dict_get_default run_data "tier_1_count" (PInt 0)) ;;
  t2 <- bind_param (dict_get_default run_data "tier_2_count" (PInt 0)) ;;
  t3 <- bind_param (dict_get_default run_data "tier_3_count" (PInt 0)) ;;
  secs <- bind_param (dict_get run_data "processing_time_seconds") ;;
  status <- bind_param (dict_get_default run_data "status" (PStr "completed")) ;;
  path <- bind_param (dict_get run_data "report_path") ;;
  let run_id := affinity_text run_id in
  if is_null run_id then Raise IntegrityError
  else if run_conflict run_id (run_metadata (db w))
  then Raise IntegrityError
  else
    let row :=
      mk_run_row (next_run_id (db w)) run_id (now w) total t1 t2 t3 secs
        (affinity_text status) (affinity_text path) (now w) in
    Ok (mk_database (startups (db w)) (run_metadata (db w) ++ [row])
          (next_startup_id (db w)) (next_run_id (db w) + 1)).

Definition insert_run_metadata (run_data : pydict) (w : world) : bool * world :=
  match get_db_connection w with
  | (Raise _, w1) => (false, w1)
  | (Ok _, w1) =>
      match insert_run_row run_data w1 with
      | Ok d => (true, set_db w1 d)
      | Raise _ => (false, w1)
      end
  end.

(** [ORDER BY run_date DESC LIMIT 1] *)
Definition get_latest_run (w : world) : option pydict * world :=
  match get_db_connection w with
  | (Raise _, w1) => (None, w1)
  | (Ok _, w1) =>
      match order_by_desc run_col_run_date Z.compare (run_metadata (db w1)) with
      | r :: _ => (Some (run_to_dict r), w1)
      | [] => (None, w1)
      end
  end.

(* ================================================================== *)
(** * Extraction, merge and aggregation: [src/crew_orchestration.py] *)
(* ================================================================== *)

(** ** [re.search(r'\[.*\]|\{.*\}', text, re.DOTALL)]

    The leftmost position where one of the two alternatives matches; the
    greedy [.*] runs to the last closing bracket of the text. *)

(** The longest prefix of [s] that ends with [c]. *)
Fixpoint upto_last (c : ascii) (s : string) : option string :=
  match s with
  | EmptyString => None
  | String x r =>
      match upto_last c r with
      | Some p => Some (String x p)
      | None => if Ascii.eqb x c then Some (String x EmptyString) else None
      end
  end.

Fixpoint re_search_json (text : string) : option string :=
  match text with
  | EmptyString => None
  | String x r =>
      if Ascii.eqb x "[" then
        match upto_last "]" r with
        | Some p => Some (String x p)
        | None => re_search_json r
        end
      else if Ascii.eqb x "{" then
        match upto_last "}" r with
        | Some p => Some (String x p)
        | None => re_search_json r
        end
      else re_search_json r
  end.

(** ** [json.loads], as the extractors call it

    The three extractors hand a text to [json.loads] and catch
    [json.JSONDecodeError], nothing else.  What the decoder answers is up
    to the interpreter that runs the program (its version, its recursion
    and digit limits), so the extractors are given the decoder:
    [json_loads text] is the value returned, or the exception raised.
    [PyJson.loads] is such a decoder for each setting of the limits. *)

Section Extraction.

Variable json_loads : string -> outcome pyval.

(** ** [parse_startup_data]

    The local variable [startups] starts as the empty list and is
    reassigned along the way; [json.loads] is the only call that can
    raise, and it does so before any reassignment.  Its
    [JSONDecodeError] is caught, which leaves [startups] empty; any
    other exception leaves the function.  The last line keeps
    [startups] only if it is a list. *)
Definition parse_startup_data (text : string) : outcome (list pyval) :=
  startups <-
    (if (strip_startswith text "[" || strip_startswith text "{")%bool then
       match json_loads text with
       | Raise JSONDecodeError => Ok (PList [])
       | Raise e => Raise e
       | Ok data =>
           Ok match data with
              | PList _ => data
              | PDict d =>
                  if dict_has d "startups" then dict_get d "startups"
                  else if dict_has d "top_opportunities" then dict_get d "top_opportunities"
                  else if dict_has d "opportunities" then dict_get d "opportunities"
                  else if dict_has d "name" then PList [data]
                  else PList []
              | _ => PList []
              end
       end
     else
       match re_search_json text with
       | None => Ok (PList [])
       | Some m =>
           match json_loads m with
           | Raise JSONDecodeError => Ok (PList [])
           | Raise e => Raise e
           | Ok startups =>
               Ok match startups with
                  | PDict d =>
                      if dict_has d "startups" then dict_get d "startups"
                      else if dict_has d "top_opportunities" then dict_get d "top_opportunities"
                      else PList [startups]
                  | _ => startups
                  end
           end
       end) ;;
  Ok match startups with
     | PList l => l
     | _ => []
     end.

End Extraction.

(** ** Annotation maps

    [tier_info] and [fit_info] are dictionaries whose keys are whatever
    [item.get('name') or item.get('startup_name')] gave: any hashable
    value.  Keys compare as Python compares them: numbers by value
    ([True == 1], a float by the binary64 number it is), strings by
    content.  A NaN equals no number, itself included; but a dictionary
    tries identity before equality, and [json] hands out one and the
    same object for every [NaN] it reads, so that as a key NaN is found
    again: it gets a class of its own. *)

Definition annot : Type := list (pyval * pydict).

Definition key_number (v : pyval) : option (Z * Q) :=
  match v with
  | PBool b => Some (0%Z, (if b then 1 else 0)%Z # 1)
  | PInt n => Some (0%Z, n # 1)
  | PFloat lit =>
      if lit =? "NaN" then Some (2%Z, 0%Q)
      else Some (num_key (SqlReal lit))
  | _ => None
  end.

Definition py_key_eqb (x y : pyval) : bool :=
  match x, y with
  | PNone, PNone => true
  | PStr a, PStr b => a =? b
  | _, _ =>
      match key_number x, key_number y with
      | Some (cx, qx), Some (cy, qy) => ((cx =? cy)%Z && Qeq_bool qx qy)%bool
      | _, _ => false
      end
  end.

Definition hashable (v : pyval) : bool :=
  match v with
  | PList _ => false
  | PDict _ => false
  | _ => true
  end.

Fixpoint annot_find (m : annot) (k : pyval) : option pydict :=
  match m with
  | [] => None
  | (k', v) :: r => if py_key_eqb k' k then Some v else annot_find r k
  end.

(** [k in m] *)
Definition annot_has (m : annot) (k : pyval) : bool :=
  match annot_find m k with Some _ => true | None => false end.

Fixpoint annot_set (m : annot) (k : pyval) (v : pydict) : annot :=
  match m with
  | [] => [(k, v)]
  | (k', v') :: r =>
      if py_key_eqb k' k then (k', v) :: r else (k', v') :: annot_set r k v
  end.

(** ** [extract_tier_info], [extract_market_fit]

    Only [JSONDecodeError] is caught: any other exception of the
    decoder leaves the function, and so does the [TypeError] of an
    unhashable name used as a key. *)

Fixpoint tier_items (data : list pyval) (tier_info : annot) : outcome annot :=
  match data with
  | [] => Ok tier_info
  | PDict item :: rest =>
      let name := py_or (dict_get item "name") (dict_get item "startup_name") in
      if hashable name then
        tier_items rest
          (annot_set tier_info name
             [ ("primary_tier",
                py_or (dict_get item "primary_tier") (dict_get item "tier"));
               ("secondary_tiers",
                py_or (dict_get item "secondary_tiers") (dict_get item "secondary_tier"));
               ("reasoning",
                py_or (dict_get item "reasoning") (dict_get item "reason")) ])
      else Raise TypeError
  | _ :: rest => tier_items rest tier_info
  end.

Fixpoint dict_values_that_are_dicts (d : pydict) (acc : annot) : annot :=
  match d with
  | [] => acc
  | (key, PDict value) :: rest =>
      dict_values_that_are_dicts rest (annot_set acc (PStr key) value)
  | _ :: rest => dict_values_that_are_dicts rest acc
  end.

Definition extract_tier_info (json_loads : string -> outcome pyval)
           (text : string) : outcome annot :=
  if (strip_startswith text "[" || strip_startswith text "{")%bool then
    match json_loads text with
    | Raise JSONDecodeError => Ok []
    | Raise e => Raise e
    | Ok (PList data) => tier_items data []
    | Ok (PDict data) => Ok (dict_values_that_are_dicts data [])
    | Ok _ => Ok []
    end
  else Ok [].

Fixpoint fit_items (data : list pyval) (fit_info : annot) : outcome annot :=
  match data with
  | [] => Ok fit_info
  | PDict item :: rest =>
      let name := py_or (dict_get item "name") (dict_get item "startup_name") in
      if hashable name then
        fit_items rest
          (annot_set fit_info name
             [ ("score",
                py_or (dict_get item "india_fit_score") (dict_get item "score"));
               ("analysis",
                py_or (dict_get item "india_fit_analysis") (dict_get item "analysis")) ])
      else Raise TypeError
  | _ :: rest => fit_items rest fit_info
  end.

Definition extract_market_fit (json_loads : string -> outcome pyval)
           (text : string) : outcome annot :=
  if (strip_startswith text "[" || strip_startswith text "{")%bool then
    match json_loads text with
    | Raise JSONDecodeError => Ok []
    | Raise e => Raise e
    | Ok (PList data) => fit_items data []
    | Ok (PDict data) => Ok (dict_values_that_are_dicts data [])
    | Ok _ => Ok []
    end
  else Ok [].

Section Orchestration.

(** The interpreter's built-in [hash] on hashable values.  For a [str]
    it is keyed by a per-process seed, so nothing is assumed about it
    beyond being a function. *)
Variable builtin_hash : pyval -> Z.

(** [json.loads], as in the extractors. *)
Variable json_loads : string -> outcome pyval.

(** [json.dumps(startups[:2], indent=2)], which is evaluated for a log
    line when the parsed list is not empty.  The text goes to the log
    and nowhere else; what matters is whether the call returns, which
    is again up to the interpreter and its limits. *)
Variable dumps_for_log : list pyval -> outcome unit.

Definition py_hash (v : pyval) : outcome Z :=
  if hashable v then Ok (builtin_hash v) else Raise TypeError.

(** ** The body of the loop in [_process_and_save_results] *)

(** The dictionary literal [startup_data = {...}] followed by the two
    merge blocks.  [name] is the truthy value found under ['name'] or
    ['startup_name']. *)
Definition merge_startup (tier_info fit_info : annot)
           (startup : pydict) (name : pyval) : outcome pydict :=
  match py_hash name with
  | Raise e => Raise e
  | Ok h =>
      let startup_data : pydict :=
        [ ("name", name);
          ("website", py_or (dict_get startup "website") (dict_get startup "url"));
          ("description", dict_get startup "description");
          ("category", dict_get startup "category");
          ("founded_date",
           py_or (dict_get startup "founded_date") (dict_get startup "date"));
          ("country", dict_get startup "country");
          ("source", dict_get startup "source");
          ("source_url", dict_get startup "source_url");
          ("hash", PInt h) ] in
      let startup_data :=
        match annot_find tier_info name with
        | Some entry =>
            dict_set
              (dict_set startup_data "primary_tier" (dict_get entry "primary_tier"))
              "secondary_tiers" (dict_get entry "secondary_tiers")
        | None =>
            if dict_has startup "primary_tier" then
              dict_set
                (dict_set startup_data "primary_tier" (dict_get startup "primary_tier"))
                "secondary_tiers" (dict_get startup "secondary_tiers")
            else startup_data
        end in
      let startup_data :=
        match annot_find fit_info name with
        | Some entry =>
            dict_set
              (dict_set startup_data "india_fit_score"
                 (dict_get_default entry "score" (PInt 0)))
              "india_fit_analysis" (dict_get entry "analysis")
        | None =>
            if dict_has startup "india_fit_score" then
              dict_set
                (dict_set startup_data "india_fit_score"
                   (dict_get_default startup "india_fit_score" (PInt 0)))
                "india_fit_analysis" (dict_get startup "india_fit_analysis")
            else startup_data
        end in
      Ok startup_data
  end.

(** What one iteration decides before the insert: skip the element
    ([continue]), or hand a merged record to the store. *)
Definition candidate (tier_info fit_info : annot) (startup : pyval)
  : outcome (option pydict) :=
  match startup with
  | PDict d =>
      let name := py_or (dict_get d "name") (dict_get d "startup_name") in
      if truthy name then
        match merge_startup tier_info fit_info d name with
        | Ok sd => Ok (Some sd)
        | Raise e => Raise e
        end
      else Ok None
  | _ => Ok None
  end.

(** The [for startup in startups] loop; the result is [inserted_count]. *)
Fixpoint insert_loop (tier_info fit_info : annot) (startups : list pyval)
         (inserted_count : nat) (w : world) : outcome nat * world :=
  match startups with
  | [] => (Ok inserted_count, w)
  | startup :: rest =>
      match candidate tier_info fit_info startup with
      | Raise e => (Raise e, w)
      | Ok None => insert_loop tier_info fit_info rest inserted_count w
      | Ok (Some startup_data) =>
          let (inserted, w1) := insert_startup startup_data w in
          insert_loop tier_info fit_info rest
            (if inserted then S inserted_count else inserted_count) w1
      end
  end.

(** ** Final counts and run metadata *)

(** [len([s for s in all_startups if s.get('primary_tier') == tier])] *)
Definition tier_count (tier : string) (all_startups : list pydict) : Z :=
  Z.of_nat
    (List.length
       (filter (fun s =>
                  match dict_get s "primary_tier" with
                  | PStr t => t =? tier
                  | _ => false
                  end) all_startups)).

(** The collaborators' contribution to a run: the identifier from
    [generate_run_id], the elapsed seconds measured on the caller's
    clock (a float), and the tracker's output directory. *)
Record run_context : Type := mk_run_context {
  run_id : string;
  processing_time : string;
  output_dir : string
}.

Definition run_data_of (ctx : run_context) (all_startups : list pydict) : pydict :=
  [ ("run_id", PStr (run_id ctx));
    ("total_startups_found", PInt (Z.of_nat (List.length all_startups)));
    ("tier_1_count", PInt (tier_count "Tier 1" all_startups));
    ("tier_2_count", PInt (tier_count "Tier 2" all_startups));
    ("tier_3_count", PInt (tier_count "Tier 3" all_startups));
    ("processing_time_seconds", PFloat (processing_time ctx));
    ("status", PStr "completed");
    ("report_path", PStr (output_dir ctx)) ].

(** Lines "Get final counts" to [insert_run_metadata(run_data)]; the
    result tells whether the summary row was written. *)
Definition aggregate (ctx : run_context) (w : world) : bool * world :=
  let (all_startups, w1) := get_all_startups w in
  insert_run_metadata (run_data_of ctx all_startups) w1.

(** The log line [if startups: logger.info(... json.dumps(startups[:2],
    indent=2) ...)]. *)
Definition log_parsed (startups : list pyval) : outcome unit :=
  match startups with
  | [] => Ok tt
  | _ :: _ => dumps_for_log (firstn 2 startups)
  end.

(** ** [_process_and_save_results]

    The whole body sits in [try ... except Exception], which logs and
    returns.  [Raise] in the first component records that the body was
    left through that handler. *)
Definition process_and_save_results_body (ctx : run_context)
           (result_str : string) (w : world) : outcome bool * world :=
  match parse_startup_data json_loads result_str with
  | Raise e => (Raise e, w)
  | Ok startups =>
      match log_parsed startups with
      | Raise e => (Raise e, w)
      | Ok _ =>
          match extract_tier_info json_loads result_str with
          | Raise e => (Raise e, w)
          | Ok tier_info =>
              match extract_market_fit json_loads result_str with
              | Raise e => (Raise e, w)
              | Ok fit_info =>
                  match insert_loop tier_info fit_info startups 0 w with
                  | (Raise e, w1) => (Raise e, w1)
                  | (Ok _, w1) =>
                      let (written, w2) := aggregate ctx w1 in (Ok written, w2)
                  end
              end
          end
      end
  end.

Definition process_and_save_results (ctx : run_context)
           (result_str : string) (w : world) : world :=
  snd (process_and_save_results_body ctx result_str w).

(** ** [run] *)

(** The collaborators of [run]: what [crew.kickoff()] returns (as text)
    or raises, whether writing the tracker's reports raises, and
    whether e-mail notification is configured. *)
Record collaborators : Type := mk_collaborators {
  setup_crew : outcome unit;
  kickoff : outcome string;
  save_all_reports : outcome unit;
  email_enabled : bool
}.

(** [_send_email_notification]: reads the store once when enabled;
    every exception is caught. *)
Definition send_email_notification (env : collaborators) (w : world) : world :=
  if email_enabled env then snd (get_all_startups w) else w.

(** The dictionary [run] returns, reduced to its ['success'] entry. *)
Definition run (ctx : run_context) (env : collaborators) (w : world)
  : bool * world :=
  match init_database w with
  | (Raise _, w1) => (false, w1)
  | (Ok _, w1) =>
      match setup_crew env with
      | Raise _ => (false, w1)
      | Ok _ =>
          match kickoff env with
          | Raise _ => (false, w1)
          | Ok result =>
              let w2 := process_and_save_results ctx result w1 in
              match save_all_reports env with
              | Raise _ => (false, w2)
              | Ok _ => (true, send_email_notification env w2)
              end
          end
      end
  end.

End Orchestration.

(* ================================================================== *)
(** * [difflib.SequenceMatcher(None, a, b).ratio()] *)
(* ================================================================== *)

Module Difflib.

Local Open Scope nat_scope.

Section Matcher.

Context {A : Type} (eqb : A -> A -> bool).

(** A match [(i, j, k)]: [a[i:i+k] == b[j:j+k]]. *)
Definition block : Type := (nat * nat * nat)%type.

Variables a b : list A.

(** ** [__chain_b]

    [b2j] maps an element of [b] to the ascending list of its indices.
    With [isjunk=None] there is no junk; with [autojunk] on and
    [len(b) >= 200], an element that occurs more than
    [len(b) // 100 + 1] times is popular and loses its entry. *)
Fixpoint indices_from (x : A) (l : list A) (i : nat) : list nat :=
  match l with
  | [] => []
  | y :: r =>
      if eqb y x then i :: indices_from x r (S i) else indices_from x r (S i)
  end.

Definition popular (x : A) : bool :=
  ((200 <=? List.length b)
   && (List.length b / 100 + 1 <? List.length (indices_from x b 0)))%bool.

Definition b2j (x : A) : list nat :=
  if popular x then [] else indices_from x b 0.

(** [bjunk] is the empty set. *)
Definition isbjunk (x : A) : bool := false.

(** ** [find_longest_match] *)

(** [j2len.get(j - 1, 0)]; the key [-1] is never present. *)
Fixpoint j2len_find (j2len : list (nat * nat)) (j : nat) : nat :=
  match j2len with
  | [] => 0
  | (j', k) :: r => if j' =? j then k else j2len_find r j
  end.

Definition j2len_get_pred (j2len : list (nat * nat)) (j : nat) : nat :=
  match j with
  | O => 0
  | S j' => j2len_find j2len j'
  end.

Section Window.
Variables alo ahi blo bhi : nat.

(** [for j in b2j.get(a[i], nothing)], with its [continue] and
    [break]. *)
Fixpoint inner_loop (js : list nat) (i : nat) (j2len newj2len : list (nat * nat))
         (best : block) : list (nat * nat) * block :=
  match js with
  | [] => (newj2len, best)
  | j :: js' =>
      if j <? blo then inner_loop js' i j2len newj2len best
      else if bhi <=? j then (newj2len, best)
      else
        let k := j2len_get_pred j2len j + 1 in
        let '(besti, bestj, bestsize) := best in
        inner_loop js' i j2len ((j, k) :: newj2len)
          (if bestsize <? k then (i + 1 - k, j + 1 - k, k) else best)
  end.

(** [for i in range(alo, ahi)], [n] iterations from [i] on. *)
Fixpoint outer_loop (n : nat) (i : nat) (j2len : list (nat * nat))
         (best : block) : block :=
  match n with
  | O => best
  | S n' =>
      let js := match nth_error a i with Some x => b2j x | None => [] end in
      let '(newj2len, best') := inner_loop js i j2len [] best in
      outer_loop n' (S i) newj2len best'
  end.

(** [a[i] == b[j]] for indices in range. *)
Definition same_at (i j : nat) : bool :=
  match nth_error a i, nth_error b j with
  | Some x, Some y => eqb x y
  | _, _ => false
  end.

Definition junk_at (j : nat) : bool :=
  match nth_error b j with
  | Some y => isbjunk y
  | None => false
  end.

(** The two [while] loops that grow the match at its low end: first
    over elements that are not junk ([junk = false]), later over junk.
    [fuel] bounds the number of iterations by [besti]. *)
Fixpoint extend_down (junk : bool) (fuel : nat) (best : block) : block :=
  match fuel with
  | O => best
  | S f =>
      let '(besti, bestj, bestsize) := best in
      if ((alo <? besti) && (blo <? bestj)
          && Bool.eqb (junk_at (bestj - 1)) junk
          && same_at (besti - 1) (bestj - 1))%bool
      then extend_down junk f (besti - 1, bestj - 1, bestsize + 1)
      else best
  end.

(** The two [while] loops that grow it at its high end. *)
Fixpoint extend_up (junk : bool) (fuel : nat) (best : block) : block :=
  match fuel with
  | O => best
  | S f =>
      let '(besti, bestj, bestsize) := best in
      if ((besti + bestsize <? ahi) && (bestj + bestsize <? bhi)
          && Bool.eqb (junk_at (bestj + bestsize)) junk
          && same_at (besti + bestsize) (bestj + bestsize))%bool
      then extend_up junk f (besti, bestj, bestsize + 1)
      else best
  end.

Definition find_longest_match : block :=
  let best := outer_loop (ahi - alo) alo [] (alo, blo, 0) in
  let best := extend_down false (fst (fst best)) best in
  let best := extend_up false ahi best in
  let best := extend_down true (fst (fst best)) best in
  let best := extend_up true ahi best in
  best.
End Window.

(** ** [get_matching_blocks] *)

Definition window : Type := (nat * nat * nat * nat)%type.

(** The [while queue] loop.  The queue is used as a stack: the head of
    the list is its last element.  Every iteration removes a window and
    adds windows that are strictly narrower in total, so
    [2 * len(a) + 1] iterations always suffice; [None] would mean the
    fuel ran out. *)
Fixpoint queue_loop (fuel : nat) (queue : list window)
         (matching_blocks : list block) : option (list block) :=
  match queue with
  | [] => Some matching_blocks
  | (alo, ahi, blo, bhi) :: queue' =>
      match fuel with
      | O => None
      | S f =>
          let '(i, j, k) := find_longest_match alo ahi blo bhi in
          if k =? 0 then queue_loop f queue' matching_blocks
          else
            let queue1 :=
              if ((alo <? i) && (blo <? j))%bool
              then (alo, i, blo, j) :: queue' else queue' in
            let queue2 :=
              if ((i + k <? ahi) && (j + k <? bhi))%bool
              then (i + k, ahi, j + k, bhi) :: queue1 else queue1 in
            queue_loop f queue2 (matching_blocks ++ [(i, j, k)])
      end
  end.

(** [matching_blocks.sort()]: tuples compare lexicographically. *)
Definition block_leb (x y : block) : bool :=
  let '(i1, j1, k1) := x in
  let '(i2, j2, k2) := y in
  if i1 <? i2 then true
  else if i2 <? i1 then false
  else if j1 <? j2 then true
  else if j2 <? j1 then false
  else k1 <=? k2.

Fixpoint block_insert (x : block) (l : list block) : list block :=
  match l with
  | [] => [x]
  | y :: r => if block_leb x y then x :: l else y :: block_insert x r
  end.

Definition block_sort (l : list block) : list block :=
  fold_right block_insert [] l.

(** The loop that collapses adjacent equal blocks. *)
Fixpoint collapse (blocks : list block) (cur : block) (non_adjacent : list block)
  : list block :=
  let '(i1, j1, k1) := cur in
  match blocks with
  | [] => if k1 =? 0 then non_adjacent else non_adjacent ++ [cur]
  | (i2, j2, k2) :: rest =>
      if ((i1 + k1 =? i2) && (j1 + k1 =? j2))%bool
      then collapse rest (i1, j1, k1 + k2) non_adjacent
      else collapse rest (i2, j2, k2)
             (if k1 =? 0 then non_adjacent else non_adjacent ++ [cur])
  end.

Definition get_matching_blocks : option (list block) :=
  let la := List.length a in
  let lb := List.length b in
  match queue_loop (2 * la + 1) [(0, la, 0, lb)] [] with
  | None => None
  | Some matching_blocks =>
      Some (collapse (block_sort matching_blocks) (0, 0, 0) [] ++ [(la, lb, 0)])
  end.

(** ** [ratio]

    [matches] is the sum of the sizes; the result is
    [2.0 * matches / length], or [1.0] when both sequences are empty.
    It is kept as the exact quotient.  Python rounds the quotient to a
    binary64 number; on sequences of any realistic length that changes
    neither the comparison with 0.85 nor the test for 1.0
    ([binary64_threshold_agrees], [binary64_one_agrees]). *)
Definition sum_sizes (l : list block) : nat :=
  fold_right (fun x acc => snd x + acc) 0 l.

Definition calculate_ratio (matches length : nat) : Q :=
  if length =? 0 then 1%Q
  else (2 * Z.of_nat matches)%Z # Pos.of_nat length.

Definition ratio : option Q :=
  match get_matching_blocks with
  | None => None
  | Some blocks =>
      Some (calculate_ratio (sum_sizes blocks) (List.length a + List.length b))
  end.

End Matcher.

End Difflib.

(* ================================================================== *)
(** * Deduplication helpers: [src/tools/search_tools.py] *)
(* ================================================================== *)

(** [DEDUPLICATION_THRESHOLD = 0.85] in [src/config/settings.py]. *)
Definition DEDUPLICATION_THRESHOLD : Q := 85 # 100.

(** [SequenceMatcher(None, str1.lower(), str2.lower()).ratio()] *)
Definition similarity (str1 str2 : string) : option Q :=
  Difflib.ratio Ascii.eqb
    (list_ascii_of_string (lower str1)) (list_ascii_of_string (lower str2)).

(** [fuzzy_match(str1, str2, threshold)]; [None] only if the matcher ran
    out of fuel, which does not happen. *)
Definition fuzzy_match (str1 str2 : string) (threshold : Q) : option bool :=
  match similarity str1 str2 with
  | Some r => Some (Qle_bool threshold r)
  | None => None
  end.

(** [is_duplicate]: [existing.get('name', '')] must be a [str], since
    [fuzzy_match] calls [lower] on it.  Running out of matcher fuel,
    which does not happen, is reported as [OtherError]. *)
Fixpoint is_duplicate (startup_name : string) (existing_startups : list pydict)
  : outcome bool :=
  match existing_startups with
  | [] => Ok false
  | existing :: rest =>
      match dict_get_default existing "name" (PStr "") with
      | PStr existing_name =>
          match fuzzy_match startup_name existing_name DEDUPLICATION_THRESHOLD with
          | Some true => Ok true
          | Some false => is_duplicate startup_name rest
          | None => Raise OtherError
          end
      | _ => Raise AttributeError
      end
  end.

(* ================================================================== *)
(** * [hashlib.md5] and [generate_hash] *)
(* ================================================================== *)

Module MD5.

Local Open Scope Z_scope.

Definition word (x : Z) : Z := x mod 2 ^ 32.

Definition rotl (x : Z) (c : Z) : Z :=
  word (Z.lor (Z.shiftl x c) (Z.shiftr x (32 - c))).

Definition not32 (x : Z) : Z := 2 ^ 32 - 1 - x.

(** Per-round shift amounts. *)
Definition S_table : list Z :=
  [ 7; 12; 17; 22; 7; 12; 17; 22; 7; 12; 17; 22; 7; 12; 17; 22;
    5; 9; 14; 20; 5; 9; 14; 20; 5; 9; 14; 20; 5; 9; 14; 20;
    4; 11; 16; 23; 4; 11; 16; 23; 4; 11; 16; 23; 4; 11; 16; 23;
    6; 10; 15; 21; 6; 10; 15; 21; 6; 10; 15; 21; 6; 10; 15; 21 ].

(** [floor(2^32 * abs(sin(i + 1)))] *)
Definition K_table : list Z :=
    [ 3614090360; 3905402710; 606105819; 3250441966;
      4118548399; 1200080426; 2821735955; 4249261313;
      1770035416; 2336552879; 4294925233; 2304563134;
      1804603682; 4254626195; 2792965006; 1236535329;
      4129170786; 3225465664; 643717713; 3921069994;
      3593408605; 38016083; 3634488961; 3889429448;
      568446438; 3275163606; 4107603335; 1163531501;
      2850285829; 4243563512; 1735328473; 2368359562;
      4294588738; 2272392833; 1839030562; 4259657740;
      2763975236; 1272893353; 4139469664; 3200236656;
      681279174; 3936430074; 3572445317; 76029189;
      3654602809; 3873151461; 530742520; 3299628645;
      4096336452; 1126891415; 2878612391; 4237533241;
      1700485571; 2399980690; 4293915773; 2240044497;
      1873313359; 4264355552; 2734768916; 1309151649;
      4149444226; 3174756917; 718787259; 3951481745 ].

Definition state : Type := (Z * Z * Z * Z)%type.

Definition init_state : state :=
  (1732584193, 4023233417, 2562383102, 271733878).

(** One of the 64 steps on a block of sixteen words. *)
Definition step (M : list Z) (st : state) (i : nat) : state :=
  let '(A, B, C, D) := st in
  let iz := Z.of_nat i in
  let '(F, g) :=
    if iz <? 16 then (Z.lor (Z.land B C) (Z.land (not32 B) D), iz)
    else if iz <? 32 then
      (Z.lor (Z.land D B) (Z.land (not32 D) C), (5 * iz + 1) mod 16)
    else if iz <? 48 then (Z.lxor (Z.lxor B C) D, (3 * iz + 5) mod 16)
    else (Z.lxor C (Z.lor B (not32 D)), (7 * iz) mod 16) in
  let F := word (F + A + nth i K_table 0 + nth (Z.to_nat g) M 0) in
  (D, word (B + rotl F (nth i S_table 0)), B, C).

Definition process_block (st : state) (M : list Z) : state :=
  let '(A0, B0, C0, D0) := st in
  let '(A, B, C, D) := fold_left (step M) (seq 0 64) st in
  (word (A0 + A), word (B0 + B), word (C0 + C), word (D0 + D)).

(** Little-endian words from bytes, four at a time. *)
Fixpoint words_of_bytes (bytes : list Z) : list Z :=
  match bytes with
  | b0 :: b1 :: b2 :: b3 :: r =>
      (b0 + 256 * (b1 + 256 * (b2 + 256 * b3))) :: words_of_bytes r
  | _ => []
  end.

Fixpoint blocks_of_words (n : nat) (ws : list Z) : list (list Z) :=
  match n with
  | O => []
  | S n' => firstn 16 ws :: blocks_of_words n' (skipn 16 ws)
  end.

Definition le_bytes (n : nat) (x : Z) : list Z :=
  map (fun i => (x / 256 ^ Z.of_nat i) mod 256) (seq 0 n).

(** The message, a one bit, zeros up to 56 modulo 64, then the bit length
    on eight bytes. *)
Definition pad (msg : list Z) : list Z :=
  let len := Z.of_nat (List.length msg) in
  let zeros := Z.to_nat ((55 - len) mod 64) in
  msg ++ [128] ++ repeat 0 zeros ++ le_bytes 8 ((8 * len) mod 2 ^ 64).

Definition digest (msg : list Z) : list Z :=
  let padded := pad msg in
  let ws := words_of_bytes padded in
  let blocks := blocks_of_words (List.length padded / 64) ws in
  let '(A, B, C, D) := fold_left process_block blocks init_state in
  le_bytes 4 A ++ le_bytes 4 B ++ le_bytes 4 C ++ le_bytes 4 D.

Definition hex_char (n : Z) : ascii :=
  if n <? 10 then ascii_of_N (Z.to_N (48 + n)) else ascii_of_N (Z.to_N (87 + n)).

Fixpoint hex_of_bytes (bytes : list Z) : string :=
  match bytes with
  | [] => EmptyString
  | x :: r => String (hex_char (x / 16)) (String (hex_char (x mod 16)) (hex_of_bytes r))
  end.

(** [hashlib.md5(data).hexdigest()] *)
Definition hexdigest (msg : list Z) : string := hex_of_bytes (digest msg).

End MD5.

(** [str.encode()]: UTF-8.  A code point below U+0080 is one byte, the
    others of the modelled range are two. *)
Fixpoint encode (s : string) : list Z :=
  match s with
  | EmptyString => []
  | String c r =>
      let n := Z.of_N (code c) in
      if (n <? 128)%Z then n :: encode r
      else (192 + n / 64)%Z :: (128 + n mod 64)%Z :: encode r
  end.

(** [generate_hash]: only [name] and [website] are lower-cased. *)
Definition generate_hash (name website founded_date : string) : string :=
  let data := encode (lower name ++ lower website ++ founded_date)%string in
  MD5.hexdigest data.

(* ================================================================== *)
(** * More queries: [src/utils/db_queries.py] *)
(* ================================================================== *)

(** ** [DatabaseQueries.get_top_startups]

    [ORDER BY india_fit_score DESC LIMIT ?]: a negative limit means no
    limit.  The limit is bound like any other parameter, so an [int]
    outside 64 bits raises, and the handler returns the empty list. *)
Definition sql_limit {X : Type} (limit : Z) (rows : list X) : list X :=
  if (limit <? 0)%Z then rows else firstn (Z.to_nat limit) rows.

Definition DatabaseQueries_get_top_startups (limit : Z) (w : world)
  : list pydict * world :=
  match get_db_connection w with
  | (Raise _, w1) => ([], w1)
  | (Ok _, w1) =>
      match bind_param (PInt limit) with
      | Raise _ => ([], w1)
      | Ok _ =>
          (map row_to_dict
             (sql_limit limit
                (order_by_desc col_india_fit_score sql_compare
                   (startups (db w1)))), w1)
      end
  end.

(** ** [DatabaseQueries.get_startups_by_category]

    SQLite's [LIKE]: [%] matches any run of characters, [_] any one
    character, every other character itself, the ASCII letters without
    regard to case.  Pattern and text are read as C strings, up to their
    first NUL.  A pattern of more than 50000 bytes is an error, which
    the handler turns into the empty list. *)

Definition like_fold (c : ascii) : ascii :=
  let n := code c in
  if ((65 <=? n) && (n <=? 90))%N then ascii_of_N (n + 32) else c.

Fixpoint like_match (p s : string) : bool :=
  match p with
  | EmptyString =>
      match s with EmptyString => true | String _ _ => false end
  | String c p' =>
      if Ascii.eqb c "%" then
        (fix any (s : string) : bool :=
           (like_match p' s
            || match s with
               | EmptyString => false
               | String _ s' => any s'
               end)%bool) s
      else
        match s with
        | EmptyString => false
        | String d s' =>
            ((Ascii.eqb c "_" || Ascii.eqb (like_fold c) (like_fold d))
             && like_match p' s')%bool
        end
  end.

Fixpoint c_string (s : string) : string :=
  match s with
  | EmptyString => EmptyString
  | String c r => if (code c =? 0)%N then EmptyString else String c (c_string r)
  end.

Definition SQLITE_MAX_LIKE_PATTERN_LENGTH : Z := 50000.

(** [category LIKE pattern] on a stored value; the column has TEXT
    affinity, and NULL matches nothing. *)
Definition like_row (pattern : string) (v : sqlval) : bool :=
  match affinity_text v with
  | SqlText t => like_match (c_string pattern) (c_string t)
  | _ => false
  end.

Definition DatabaseQueries_get_startups_by_category (category : string)
           (w : world) : list pydict * world :=
  match get_db_connection w with
  | (Raise _, w1) => ([], w1)
  | (Ok _, w1) =>
      let pattern := ("%" ++ category ++ "%")%string in
      if (SQLITE_MAX_LIKE_PATTERN_LENGTH <? Z.of_nat (List.length (encode pattern)))%Z
      then ([], w1)
      else
        (map row_to_dict
           (order_by_desc col_india_fit_score sql_compare
              (filter (fun r => like_row pattern (col_category r))
                 (startups (db w1)))), w1)
  end.

(* ================================================================== *)
(** * Searching and fetching: [src/tools/search_tools.py] *)
(* ================================================================== *)

(** [sub in s] for two strings. *)
Fixpoint occurs (sub s : string) : bool :=
  (String.prefix sub s
   || match s with
      | EmptyString => false
      | String _ r => occurs sub r
      end)%bool.

(** [s[:n]] *)
Definition first_chars (n : nat) (s : string) : string := substring 0 n s.

(** ** [search_google] *)

(** [MAX_RETRIES = 3] in [src/config/settings.py]. *)
Definition MAX_RETRIES : nat := 3.

(** What one pass through the [try] block meets: [requests.get],
    [raise_for_status] or [response.json()] raise a
    [requests.RequestException], or something else is raised, or the
    decoded response arrives. *)
Inductive attempt : Type :=
| RequestException
| UnexpectedException
| Response (data : pyval).

(** The dictionary built for one item. *)
Definition google_result (item : pydict) : pydict :=
  [ ("title", dict_get_default item "title" (PStr ""));
    ("link", dict_get_default item "link" (PStr ""));
    ("snippet", dict_get_default item "snippet" (PStr "")) ].

(** [for item in items: results.append({... item.get ...})] over a list:
    an item that is not a dictionary has no [get]. *)
Fixpoint collect_items (items : list pyval) (results : list pydict)
  : outcome (list pydict) :=
  match items with
  | [] => Ok results
  | PDict item :: rest => collect_items rest (results ++ [google_result item])
  | _ :: _ => Raise AttributeError
  end.

(** Lines 37 to 46 on the decoded response.  ["items" in data] is a key
    test on a dictionary, a membership test on a list, a substring test
    on a string, and a [TypeError] otherwise; [data["items"]] needs a
    dictionary; iterating the value needs something iterable, whose
    elements must be dictionaries. *)
Definition read_response (data : pyval) : outcome (list pydict) :=
  match data with
  | PDict d =>
      match dict_find d "items" with
      | None => Ok []
      | Some (PList items) => collect_items items []
      | Some (PDict []) => Ok []
      | Some (PDict (_ :: _)) => Raise AttributeError
      | Some (PStr EmptyString) => Ok []
      | Some (PStr (String _ _)) => Raise AttributeError
      | Some _ => Raise TypeError
      end
  | PList l =>
      if existsb (fun x => match x with PStr s => s =? "items" | _ => false end) l
      then Raise TypeError else Ok []
  | PStr s => if occurs "items" s then Raise TypeError else Ok []
  | _ => Raise TypeError
  end.

(** The retry loop [for attempt in range(MAX_RETRIES)], from attempt
    number [attempt] with [remaining] attempts left.  Only a
    [RequestException] leads to another attempt.  The result is the list
    returned and the number of requests made. *)
Fixpoint retry_loop (responses : nat -> attempt) (remaining attempt : nat)
  : list pydict * nat :=
  match remaining with
  | O => ([], attempt)
  | S remaining' =>
      match responses attempt with
      | Response data =>
          match read_response data with
          | Ok results => (results, S attempt)
          | Raise _ => ([], S attempt)
          end
      | RequestException => retry_loop responses remaining' (S attempt)
      | UnexpectedException => ([], S attempt)
      end
  end.

(** [configured] says whether both [GOOGLE_API_KEY] and
    [GOOGLE_SEARCH_ENGINE_ID] are non-empty; [responses] is what the
    attempt of each number meets. *)
Definition search_google (configured : bool) (responses : nat -> attempt)
  : list pydict * nat :=
  if configured then retry_loop responses MAX_RETRIES 0 else ([], 0%nat).

(** ** [fetch_url_content] *)

(** The line boundaries of [str.splitlines] in the range
    U+0000..U+00FF: LF, VT, FF, CR, FS, GS, RS and NEL. *)
Definition is_line_boundary (c : ascii) : bool :=
  let n := code c in
  (((10 <=? n) && (n <=? 13)) || ((28 <=? n) && (n <=? 30)) || (n =? 133))%N.

(** [s.splitlines()]: CR LF is one boundary; no empty line is added
    after a final boundary. *)
Fixpoint splitlines (s : string) : list string :=
  match s with
  | EmptyString => []
  | String c r =>
      if is_line_boundary c then
        EmptyString ::
        splitlines
          (match r with
           | String d r2 =>
               if ((code c =? 13) && (code d =? 10))%N then r2 else r
           | EmptyString => r
           end)
      else
        match splitlines r with
        | [] => [String c EmptyString]
        | line :: lines => String c line :: lines
        end
  end.

Definition is_space (c : ascii) : bool := (code c =? 32)%N.

(** [line.split("  ")]: cut at every occurrence of two spaces, found
    from the left and not overlapping. *)
Fixpoint split_double_space (s : string) : list string :=
  match s with
  | EmptyString => [EmptyString]
  | String c r =>
      match r with
      | String d r2 =>
          if (is_space c && is_space d)%bool
          then EmptyString :: split_double_space r2
          else
            match split_double_space r with
            | [] => [String c EmptyString]
            | piece :: pieces => String c piece :: pieces
            end
      | EmptyString => [String c EmptyString]
      end
  end.

Fixpoint rstrip (s : string) : string :=
  match s with
  | EmptyString => EmptyString
  | String c r =>
      match rstrip r with
      | EmptyString => if is_py_space c then EmptyString else String c EmptyString
      | r' => String c r'
      end
  end.

(** [s.strip()] *)
Definition strip (s : string) : string := rstrip (lstrip s).

(** [' '.join(l)] *)
Fixpoint join_space (l : list string) : string :=
  match l with
  | [] => EmptyString
  | [x] => x
  | x :: r => (x ++ String " " (join_space r))%string
  end.

(** Lines 114 to 116: the whitespace clean-up. *)
Definition clean_whitespace (text : string) : string :=
  let lines := map strip (splitlines text) in
  let chunks := flat_map (fun line => map strip (split_double_space line)) lines in
  join_space (filter (fun chunk => negb (chunk =? "")) chunks).

(** [page_text] is what the lines up to [soup.get_text()] give: the text
    of the page, or an exception from the request or the parser, which
    the handler turns into the empty string. *)
Definition fetch_url_content (page_text : outcome string) : string :=
  match page_text with
  | Ok text => first_chars 1000 (clean_whitespace text)
  | Raise _ => EmptyString
  end.

(** ** [search_recent_startups] *)

(** What the function takes from the clock: [end_date.year], the month
    names [strftime('%B')] gives for this month and the one before, and
    the two dates of the range as [strftime('%Y-%m-%d')] writes them. *)
Record search_clock : Type := mk_search_clock {
  current_year : Z;
  current_month : string;
  previous_month : string;
  start_date_str : string;
  end_date_str : string
}.

Definition search_queries (c : search_clock) : list string :=
  let year := Z_to_string (current_year c) in
  [ "startup founded after:" ++ start_date_str c ++ " before:" ++ end_date_str c;
    "new startup launch after:" ++ start_date_str c ++ " before:" ++ end_date_str c;
    "startup announcement after:" ++ start_date_str c ++ " before:" ++ end_date_str c;
    "startup founded " ++ current_month c ++ " " ++ year;
    "startup founded " ++ previous_month c ++ " " ++ year;
    "AI startup founded " ++ year;
    "FinTech startup founded " ++ year;
    "SaaS startup founded " ++ year;
    "tech startup founded " ++ year;
    "startup news " ++ current_month c ++ " " ++ year;
    "new company founded " ++ current_month c ++ " " ++ year ]%string.

(** The test on the lower-cased snippet. *)
Definition mentions_recent (c : search_clock) (snippet : string) : bool :=
  (occurs (Z_to_string (current_year c)) snippet
   || occurs (lower (current_month c)) snippet
   || occurs (lower (previous_month c)) snippet)%bool.

(** [result.get('title', '')] *)
Definition title_of (result : pydict) : pyval :=
  dict_get_default result "title" (PStr "").

(** The inner loop [for result in results].  [seen_titles] is a set:
    membership hashes the title, which raises [TypeError] on a list or a
    dictionary, and compares as Python compares keys.  [.lower()] needs
    the snippet to be a string. *)
Fixpoint filter_results (c : search_clock) (results : list pydict)
         (all_results : list pydict) (seen_titles : list pyval)
  : outcome (list pydict * list pyval) :=
  match results with
  | [] => Ok (all_results, seen_titles)
  | result :: rest =>
      let title := title_of result in
      if hashable title then
        if existsb (fun t => py_key_eqb t title) seen_titles
        then filter_results c rest all_results seen_titles
        else
          match dict_get_default result "snippet" (PStr "") with
          | PStr snippet =>
              if mentions_recent c (lower snippet)
              then filter_results c rest (all_results ++ [result])
                     (seen_titles ++ [title])
              else filter_results c rest all_results seen_titles
          | _ => Raise AttributeError
          end
      else Raise TypeError
  end.

Section RecentStartups.

(** The two back ends, as what they answer to a query during the call:
    [search_google(query, num_results=10)] and
    [search_web_fallback(query)].  Neither raises. *)
Variables google_search fallback_search : string -> list pydict.

(** [results = search_google(...)], then the fallback [if not results]. *)
Definition results_for (query : string) : list pydict :=
  match google_search query with
  | [] => fallback_search query
  | results => results
  end.

(** The outer loop [for query in queries]. *)
Fixpoint query_loop (c : search_clock) (queries : list string)
         (all_results : list pydict) (seen_titles : list pyval)
  : outcome (list pydict * list pyval) :=
  match queries with
  | [] => Ok (all_results, seen_titles)
  | query :: rest =>
      st <- filter_results c (results_for query) all_results seen_titles ;;
      query_loop c rest (fst st) (snd st)
  end.

Definition search_recent_startups (c : search_clock) : outcome (list pydict) :=
  st <- query_loop c (search_queries c) [] [] ;; Ok (fst st).

End RecentStartups.

(* ================================================================== *)
(** * The agent tracker: [src/utils/agent_tracker.py] *)
(* ================================================================== *)

(** One entry of ['tools_used']. *)
Record tool_record : Type := mk_tool_record {
  tr_tool_name : string;
  tr_input : pyval;
  tr_output : string;
  tr_timestamp : string
}.

(** The dictionary [start_agent] builds for an agent. *)
Record agent_record : Type := mk_agent_record {
  ar_name : string;
  ar_task : string;
  ar_input : pyval;
  ar_tools_used : list tool_record;
  ar_output : pyval;
  ar_start_time : string;
  ar_end_time : option string;
  ar_status : string
}.

(** [self.agents_data]: a dictionary keyed by agent name, in insertion
    order. *)
Definition agents_data : Type := list (string * agent_record).

Fixpoint agent_find (t : agents_data) (name : string) : option agent_record :=
  match t with
  | [] => None
  | (k, r) :: rest => if k =? name then Some r else agent_find rest name
  end.

(** [self.agents_data[name] = r]: an existing key keeps its place. *)
Fixpoint agent_set (t : agents_data) (name : string) (r : agent_record)
  : agents_data :=
  match t with
  | [] => [(name, r)]
  | (k, r') :: rest =>
      if k =? name then (k, r) :: rest else (k, r') :: agent_set rest name r
  end.

(** The three recording methods.  [timestamp] is
    [datetime.now().isoformat()] at the call; [tool_output] is the text
    [str(tool_output)]. *)
Definition start_agent (t : agents_data) (timestamp : string)
           (agent_name task_description : string) (input_data : pyval)
  : agents_data :=
  agent_set t agent_name
    (mk_agent_record agent_name task_description
       (py_or input_data (PDict [])) [] PNone timestamp None "running").

Definition log_tool_usage (t : agents_data) (timestamp : string)
           (agent_name tool_name : string) (tool_input : pyval)
           (tool_output : string) : agents_data :=
  match agent_find t agent_name with
  | None => t
  | Some r =>
      let tool_record :=
        mk_tool_record tool_name tool_input (first_chars 500 tool_output)
          timestamp in
      agent_set t agent_name
        (mk_agent_record (ar_name r) (ar_task r) (ar_input r)
           (ar_tools_used r ++ [tool_record]) (ar_output r)
           (ar_start_time r) (ar_end_time r) (ar_status r))
  end.

Definition end_agent (t : agents_data) (timestamp : string)
           (agent_name : string) (output : pyval) (status : string)
  : agents_data :=
  match agent_find t agent_name with
  | None => t
  | Some r =>
      agent_set t agent_name
        (mk_agent_record (ar_name r) (ar_task r) (ar_input r)
           (ar_tools_used r) output (ar_start_time r) (Some timestamp) status)
  end.

(** What [save_all_reports] writes into the summary as ['agents'] and
    ['total_agents']. *)
Definition summary_agents (t : agents_data) : list string := map fst t.

Definition summary_total_agents (t : agents_data) : nat := List.length t.

(** A call of one of the three methods, and a sequence of calls on a
    tracker. *)
Inductive tracker_call : Type :=
| StartAgent (timestamp agent_name task_description : string) (input_data : pyval)
| LogToolUsage (timestamp agent_name tool_name : string) (tool_input : pyval)
    (tool_output : string)
| EndAgent (timestamp agent_name : string) (output : pyval) (status : string).

Definition tracker_step (t : agents_data) (call : tracker_call) : agents_data :=
  match call with
  | StartAgent ts a task input => start_agent t ts a task input
  | LogToolUsage ts a tool input output => log_tool_usage t ts a tool input output
  | EndAgent ts a output status => end_agent t ts a output status
  end.

Definition tracker_calls (t : agents_data) (calls : list tracker_call)
  : agents_data :=
  fold_left tracker_step calls t.

(** ** The tracker in [run] *)

(** One agent of the crew, with the clock readings of its two calls. *)
Record crew_agent : Type := mk_crew_agent {
  role : string;
  goal : pyval;
  started_at : string;
  ended_at : string
}.

(** The two loops of [run] around [crew.kickoff()], on the tracker
    [AgentTracker(self.run_id)] creates; [result] is [str(result)]. *)
Definition start_agents (agents : list crew_agent) (t : agents_data)
  : agents_data :=
  fold_left
    (fun t agent =>
       start_agent t (started_at agent) (role agent)
         ("Executing " ++ role agent)
         (PDict [("role", PStr (role agent)); ("goal", goal agent)]))
    agents t.

Definition end_agents (result : string) (agents : list crew_agent)
           (t : agents_data) : agents_data :=
  fold_left
    (fun t agent =>
       end_agent t (ended_at agent) (role agent)
         (PStr (first_chars 500 result)) "completed")
    agents t.

Definition run_tracking (agents : list crew_agent) (result : string)
  : agents_data :=
  end_agents result agents (start_agents agents []).

(* ================================================================== *)
(** * Run identifiers: [generate_run_id] in [src/crew_orchestration.py] *)
(* ================================================================== *)

(** [datetime.now()], to the second. *)
Record datetime : Type := mk_datetime {
  dt_year : Z;
  dt_month : Z;
  dt_day : Z;
  dt_hour : Z;
  dt_minute : Z;
  dt_second : Z
}.

Definition digit (n : Z) : ascii := ascii_of_N (48 + Z.to_N n).

(** Two digits, zero-padded: [%m], [%d], [%H], [%M], [%S]. *)
Definition two_digits (n : Z) : string :=
  String (digit (n / 10)) (String (digit (n mod 10)) EmptyString).

(** [strftime('%Y%m%d_%H%M%S')]; the C library writes [%Y] without
    padding. *)
Definition strftime_run (t : datetime) : string :=
  (Z_to_string (dt_year t) ++ two_digits (dt_month t) ++ two_digits (dt_day t)
   ++ "_" ++ two_digits (dt_hour t) ++ two_digits (dt_minute t)
   ++ two_digits (dt_second t))%string.

Definition generate_run_id (t : datetime) : string :=
  ("run_" ++ strftime_run t)%string.

(* ================================================================== *)
(** * The entry point: [src/main.py] *)
(* ================================================================== *)

Section Main.
Variable builtin_hash : pyval -> Z.
Variable json_loads : string -> outcome pyval.
Variable dumps_for_log : list pyval -> outcome unit.

(** What [main] prints of the store after a successful run: the total
    and the three tier counts. *)
Definition printed_counts : Type := (Z * (Z * Z * Z))%type.

(** [main]: the database is initialised, the crew is made
    ([StartupResearchCrew()], which may raise), [run] is called, and on
    success the store is read four times.  Nothing is caught here. *)
Definition main (ctx : run_context) (env : collaborators)
           (create_crew : outcome unit) (w : world)
  : outcome (option printed_counts) * world :=
  match init_database w with
  | (Raise e, w1) => (Raise e, w1)
  | (Ok _, w1) =>
      match create_crew with
      | Raise e => (Raise e, w1)
      | Ok _ =>
          let (success, w2) := run builtin_hash json_loads dumps_for_log ctx env w1 in
          if success then
            let (all_startups, w3) := get_all_startups w2 in
            let (tier_1, w4) := get_startups_by_tier "Tier 1" w3 in
            let (tier_2, w5) := get_startups_by_tier "Tier 2" w4 in
            let (tier_3, w6) := get_startups_by_tier "Tier 3" w5 in
            (Ok (Some (Z.of_nat (List.length all_startups),
                       (Z.of_nat (List.length tier_1),
                        Z.of_nat (List.length tier_2),
                        Z.of_nat (List.length tier_3)))), w6)
          else (Ok None, w2)
      end
  end.

End Main.

(* ================================================================== *)
(** * Vocabulary of the properties, and the scenarios they are tried on *)
(* ================================================================== *)

(** ** The store *)

(** A connection that opens: the schedule is empty or starts with [false]. *)
Definition connects (w : world) : Prop :=
  match faults w with
  | true :: _ => False
  | _ => True
  end.

(** The number of stored rows whose [primary_tier] is exactly [tier]. *)
Definition rows_in_tier (tier : string) (rows : list startup_row) : Z :=
  Z.of_nat
    (List.length
       (filter (fun r => sqlval_eqb (col_primary_tier r) (SqlText tier)) rows)).

(** The value a record would be stored under in a TEXT column. *)
Definition stored_key (sd : pydict) (k : string) : outcome sqlval :=
  v <- bind_param (dict_get sd k) ;; Ok (affinity_text v).

(** SQLite writes a float that is bound to a TEXT column in a decimal
    rendering of its own, which [affinity_text] does not compute: the
    text a value is stored under is known for every value but a float. *)
Definition not_a_float (v : pyval) : Prop :=
  match v with
  | PFloat _ => False
  | _ => True
  end.

(** What [get_latest_run()] shows of the counts. *)
Definition latest_counts (w : world) : option (pyval * pyval * pyval * pyval) :=
  match fst (get_latest_run w) with
  | Some r =>
      Some (dict_get r "tier_1_count", dict_get r "tier_2_count",
            dict_get r "tier_3_count", dict_get r "total_startups_found")
  | None => None
  end.

(** Three admitted entities with tiers "Tier 1", "Tier 1" and "Tier 2". *)
Definition tiered_startup (name tier : string) : pydict :=
  [ ("name", PStr name); ("primary_tier", PStr tier); ("hash", PStr name) ].

Definition three_tier_store : world :=
  let w0 := healthy empty_database 0 in
  let w1 := snd (insert_startup (tiered_startup "Alpha" "Tier 1") w0) in
  let w2 := snd (insert_startup (tiered_startup "Beta" "Tier 1") w1) in
  snd (insert_startup (tiered_startup "Gamma" "Tier 2") w2).

(** The three-tier store at a moment when the next connection fails
    and the one after it opens. *)
Definition read_fails : world :=
  mk_world (db three_tier_store) (now three_tier_store) [true; false].

(** A record as [_process_and_save_results] builds it: the hash is an
    [int]. *)
Definition hashed_record (name : string) (h : Z) : pydict :=
  [ ("name", PStr name); ("hash", PInt h) ].

Definition acme_record : pydict :=
  [ ("name", PStr "Acme"); ("website", PStr "https://acme.com");
    ("hash", PStr "c68b1eb0461a0e643df1548aa38723ac") ].

Definition two_secondary_tiers : pydict :=
  [ ("name", PStr "Acme");
    ("secondary_tiers", PList [PStr "Tier 2"; PStr "Tier 3"]) ].

(** ** The merge *)

(** The example of the specification: the base record embeds "Tier 2",
    the tier map says "Tier 1". *)
Definition embedded_tier2 : pydict :=
  [ ("name", PStr "Acme"); ("primary_tier", PStr "Tier 2") ].

Definition tier_map_tier1 : annot :=
  [ (PStr "Acme", [ ("primary_tier", PStr "Tier 1"); ("secondary_tiers", PNone) ]) ].

(** ** A run *)

(** The text [[{"name": "Acme"}]] as the crew's result. *)
Definition acme_result : string :=
  ("[{" ++ quoted "name" ++ ": " ++ quoted "Acme" ++ "}]")%string.

Definition acme_env : collaborators :=
  mk_collaborators (Ok tt) (Ok acme_result) (Ok tt) false.

Definition acme_ctx : run_context :=
  mk_run_context "run_20240101_000000" "1.5" "output/run_20240101_000000".

(** Initialisation connects, the insert does not, the rest does. *)
Definition insert_fails : world := mk_world empty_database 0 [false; true].

(** ** The decoder *)

(** CPython 3.11 as it starts, where [main.py] has the extractors call
    [json.loads]: of the recursion limit of 1000 the scanner is left
    with room for 991 nested arrays and objects, and [int] takes 4300
    digits. *)
Definition cpython_limits : PyJson.limits := PyJson.mk_limits 991 3 4300.

Definition cpython_loads : string -> outcome pyval := PyJson.loads cpython_limits.

(** On the short records of the scenarios [json.dumps] returns. *)
Definition dumps_returns (l : list pyval) : outcome unit := Ok tt.

(** The text the extractor hands to the decoder, if any: the whole
    text when it starts with a bracket, else the span the regular
    expression finds. *)
Definition decoded_text (text : string) : option string :=
  if (strip_startswith text "[" || strip_startswith text "{")%bool then Some text
  else re_search_json text.

(** What a text yields to the loop of [_process_and_save_results]:
    the list [parse_startup_data] returns, and nothing when it raises. *)
Definition parsed_records (json_loads : string -> outcome pyval)
           (text : string) : list pyval :=
  match parse_startup_data json_loads text with
  | Ok l => l
  | Raise _ => []
  end.

(** [n] times the character [c]. *)
Fixpoint replicate (n : nat) (c : ascii) : string :=
  match n with
  | O => EmptyString
  | S k => String c (replicate k c)
  end.

(** A list of one integer of 4301 digits, and a thousand opening
    brackets. *)
Definition long_integer_text : string :=
  String "[" (replicate 4301 "9" ++ "]").

Definition deep_text : string := replicate 1000 "[".

(** ** JSON text *)

(** The text [json.dumps] writes between the brackets of a list of
    strings. *)
Fixpoint dumps_items (l : list string) : string :=
  match l with
  | [] => ""
  | [s] => PyJson.dumps_str s
  | s :: r => (PyJson.dumps_str s ++ ", " ++ dumps_items r)%string
  end.

(** ** The content hash *)

(** Two founded dates of 72 characters each with the same MD5 digest. *)
Definition colliding_date_1 : string :=
  "TEXTCOLLBYfGiJUETHQ4hAcKSMd5zYpgqf1YRDhkmxHkhPWptrkoyz28wnI9V0aHeAuaKnak".

Definition colliding_date_2 : string :=
  "TEXTCOLLBYfGiJUETHQ4hEcKSMd5zYpgqf1YRDhkmxHkhPWptrkoyz28wnI9V0aHeAuaKnak".

(** ** The duplicate check *)

(** A reference record matches when its name, or the empty string if it
    has none, is similar enough to the candidate. *)
Definition matches_reference (startup_name : string) (existing : pydict) : Prop :=
  exists (existing_name : string) (r : Q),
    dict_get_default existing "name" (PStr "") = PStr existing_name
    /\ similarity startup_name existing_name = Some r
    /\ (DEDUPLICATION_THRESHOLD <= r)%Q.

Definition two_references : list pydict :=
  [ [("name", PStr "TechStartup"); ("website", PStr "https://tech.com")];
    [("name", PStr "OtherStartup"); ("website", PStr "https://other.com")] ].

(** ** The sequence matcher *)

Module MatcherSpec.

Import Difflib.
Local Open Scope nat_scope.

Section Vocabulary.

Context {A : Type} (eqb : A -> A -> bool).
Variables a b : list A.

(** [a[i:i+k] == b[j:j+k]] *)
Definition matches (i j k : nat) : Prop :=
forall t, t < k -> same_at eqb a b (i + t) (j + t) = true.

Section InWindow.
Variables alo ahi blo bhi : nat.

(** The contract of [find_longest_match] on bounds and content. *)
Definition good_block (x : block) : Prop :=
let '(i, j, k) := x in
alo <= i /\ i + k <= ahi /\ blo <= j /\ j + k <= bhi /\ matches i j k.

(** An entry of [j2len] left by the row before row [i]. *)
Definition entry_ok (i : nat) (e : nat * nat) : Prop :=
let '(j, k) := e in
1 <= k /\ alo + k <= i /\ blo + k <= j + 1 /\ j < bhi
/\ matches (i - k) (j + 1 - k) k.

End InWindow.

Definition window_ok (w : window) : Prop :=
let '(alo, ahi, blo, bhi) := w in alo <= ahi /\ blo <= bhi.

(** What a window can still contribute to the number of matches. *)
Definition window_room (w : window) : nat :=
let '(alo, ahi, blo, bhi) := w in Nat.min (ahi - alo) (bhi - blo).

Definition window_cost (w : window) : nat :=
let '(alo, ahi, blo, bhi) := w in 2 * (ahi - alo) + 1.

Definition total (f : window -> nat) (q : list window) : nat :=
fold_right (fun w acc => f w + acc) 0 q.

Definition diagonal (w : window) : Prop :=
let '(alo, ahi, blo, bhi) := w in alo = blo /\ ahi = bhi.

Definition covers (w : window) (p : nat) : Prop :=
let '(alo, ahi, blo, bhi) := w in alo <= p < ahi.

(** Every position below [n] is already known to agree, or still lies
  in a window of the queue. *)
Definition settled (n : nat) (q : list window) : Prop :=
forall p, p < n -> same_at eqb a b p p = true \/ exists w, In w q /\ covers w p.

End Vocabulary.

Section SelfVocabulary.

Context {A : Type} (eqb : A -> A -> bool).
Variable s : list A.

(** The length of the run of elements that are not popular and ends at
  position [p]. *)
Fixpoint run (p : nat) : nat :=
match nth_error s p with
| Some x =>
    if popular eqb s x then 0
    else match p with
         | O => 1
         | S p' => S (run p')
         end
| None => 0
end.

(** The same, for the position before [p]. *)
Definition run_before (p : nat) : nat :=
match p with
| O => 0
| S p' => run p'
end.

Definition on_diagonal (x : block) : Prop := fst (fst x) = snd (fst x).

Definition size_of (x : block) : nat := snd x.

(** What the row before row [i] left in [j2len]. *)
Definition row_ok (i : nat) (j2len : list (nat * nat)) : Prop :=
(forall j, j2len_get_pred j2len j <= run_before j)
/\ (forall j, j2len_get_pred j2len j <= run_before i)
/\ j2len_get_pred j2len i = run_before i.

Definition best_ok (i : nat) (best : block) : Prop :=
on_diagonal best /\ forall p, p < i -> run p <= size_of best.

End SelfVocabulary.

End MatcherSpec.

(** ** A pipeline input *)

(** A stand-in for the interpreter's [hash] in examples: it tells the
    names of the examples apart. *)
Definition toy_hash (v : pyval) : Z :=
  match v with
  | PStr s => fold_right (fun c acc => (Z.of_N (code c) + 31 * acc)%Z) 7%Z
                (list_ascii_of_string s)
  | PInt n => n
  | _ => 0%Z
  end.

Definition three_startups : pyval :=
  PList
    [ PDict [ ("name", PStr "Alpha"); ("website", PStr "https://alpha.io");
              ("primary_tier", PStr "Tier 1");
              ("secondary_tiers", PList [PStr "Tier 2"]) ];
      PDict [ ("name", PStr "Beta"); ("url", PStr "https://beta.io");
              ("tier", PStr "Tier 1"); ("india_fit_score", PInt 80) ];
      PDict [ ("startup_name", PStr "Gamma"); ("primary_tier", PStr "Tier 2") ];
      PStr "not a record";
      PDict [ ("description", PStr "nameless") ] ].

(** The crew's result: that list as JSON text. *)
Definition three_startups_json : string := PyJson.dumps three_startups.

(** ** The constraints of the schema *)

Definition is_text (v : sqlval) : bool :=
  match v with SqlText _ => true | _ => false end.

(** [name TEXT UNIQUE NOT NULL], [hash TEXT UNIQUE] and
    [id INTEGER PRIMARY KEY AUTOINCREMENT] of [startups], and the same
    for [run_id] and [id] of [run_metadata], as a property of the stored
    rows. *)
Definition store_ok (d : database) : Prop :=
  Forall (fun r => is_text (col_name r) = true) (startups d)
  /\ NoDup (map col_name (startups d))
  /\ Forall (fun r => is_null (col_hash r) = true \/ is_text (col_hash r) = true)
       (startups d)
  /\ NoDup (filter (fun h => negb (is_null h)) (map col_hash (startups d)))
  /\ Forall (fun r => (col_id r < next_startup_id d)%Z) (startups d)
  /\ NoDup (map col_id (startups d))
  /\ Forall (fun r => is_text (run_col_run_id r) = true) (run_metadata d)
  /\ NoDup (map run_col_run_id (run_metadata d))
  /\ Forall (fun r => (run_col_id r < next_run_id d)%Z) (run_metadata d)
  /\ NoDup (map run_col_id (run_metadata d)).

(** [d'] holds the rows of [d], unchanged and in place, followed by
    [new] startups and [runs] run summaries. *)
Definition extends (d d' : database) (new : list startup_row)
           (runs : list run_row) : Prop :=
  startups d' = startups d ++ new
  /\ run_metadata d' = run_metadata d ++ runs.

(** The elements of a result list that are dictionaries. *)
Definition count_dicts (l : list pyval) : nat :=
  List.length (filter isinstance_dict l).

(** The columns of [startups] with TEXT affinity that [insert_startup]
    fills from the key of the same name. *)
Definition text_columns : list string :=
  [ "name"; "website"; "description"; "category"; "founded_date"; "country";
    "india_fit_analysis"; "primary_tier"; "source"; "source_url"; "hash" ].

(** A record without a name. *)
Definition nameless_record : pydict := [ ("description", PStr "nameless") ].

(** ** Ordered results *)

(** Comparison of the numeric keys of [num_key]. *)
Definition num_key_compare (p q : Z * Q) : comparison :=
  let (cx, qx) := p in
  let (cy, qy) := q in
  match Z.compare cx cy with
  | Eq => Qcompare qx qy
  | c => c
  end.

(** [r2] may follow [r1] in a result ordered by [key], descending. *)
Definition may_follow {R K : Type} (key : R -> K) (cmp : K -> K -> comparison)
           (r1 r2 : R) : Prop :=
  cmp (key r2) (key r1) <> Gt.

(** ** Substring search *)

(** A text occurs in another, ASCII letters compared without regard to
    case. *)
Fixpoint prefix_nocase (p s : string) : bool :=
  match p, s with
  | EmptyString, _ => true
  | String _ _, EmptyString => false
  | String c p', String d s' =>
      (Ascii.eqb (like_fold c) (like_fold d) && prefix_nocase p' s')%bool
  end.

Fixpoint occurs_nocase (p s : string) : bool :=
  (prefix_nocase p s
   || match s with
      | EmptyString => false
      | String _ s' => occurs_nocase p s'
      end)%bool.

(** No wildcard and no NUL. *)
Fixpoint plain_text (s : string) : bool :=
  match s with
  | EmptyString => true
  | String c r =>
      (negb (Ascii.eqb c "%") && negb (Ascii.eqb c "_")
       && negb (code c =? 0)%N && plain_text r)%bool
  end.

(** The stored category mentions the text asked for. *)
Definition category_mentions (category : string) (v : sqlval) : bool :=
  match affinity_text v with
  | SqlText t => occurs_nocase category (c_string t)
  | _ => false
  end.

(** ** Annotation maps *)

(** [item.get('name') or item.get('startup_name')] *)
Definition item_name (item : pydict) : pyval :=
  py_or (dict_get item "name") (dict_get item "startup_name").

(** The entries the two extractors make for an item. *)
Definition tier_entry (item : pydict) : pydict :=
  [ ("primary_tier", py_or (dict_get item "primary_tier") (dict_get item "tier"));
    ("secondary_tiers",
     py_or (dict_get item "secondary_tiers") (dict_get item "secondary_tier"));
    ("reasoning", py_or (dict_get item "reasoning") (dict_get item "reason")) ].

Definition fit_entry (item : pydict) : pydict :=
  [ ("score", py_or (dict_get item "india_fit_score") (dict_get item "score"));
    ("analysis",
     py_or (dict_get item "india_fit_analysis") (dict_get item "analysis")) ].

(** No later item of the list goes by the same name. *)
Definition last_of_its_name (name : pyval) (after : list pyval) : Prop :=
  forall other, In (PDict other) after -> py_key_eqb (item_name other) name = false.

(** Two entries for one name, as JSON text. *)
Definition acme_first : pydict := [ ("name", PStr "Acme"); ("tier", PStr "Tier 2") ].

Definition acme_second : pydict := [ ("name", PStr "Acme"); ("tier", PStr "Tier 1") ].

Definition acme_twice_json : string :=
  PyJson.dumps (PList [PDict acme_first; PDict acme_second]).

(** ** Search results *)

(** What the loops of [search_recent_startups] keep true of their two
    variables. *)
Definition recent_result (c : search_clock) (r : pydict) : Prop :=
  exists snippet,
    dict_get_default r "snippet" (PStr "") = PStr snippet
    /\ mentions_recent c (lower snippet) = true.

Definition distinct_titles (l : list pydict) : Prop :=
  ForallOrdPairs (fun r1 r2 => py_key_eqb (title_of r1) (title_of r2) = false) l.

Definition search_inv (c : search_clock) (origin : pydict -> Prop)
           (all_results : list pydict) (seen_titles : list pyval) : Prop :=
  seen_titles = map title_of all_results
  /\ distinct_titles all_results
  /\ Forall (recent_result c) all_results
  /\ Forall origin all_results.

(** [r] is represented in [out]: it is there, or a result with an equal
    title is. *)
Definition represented (r : pydict) (out : list pydict) : Prop :=
  In r out
  \/ exists r', In r' out /\ py_key_eqb (title_of r') (title_of r) = true.

(** A clock reading and two back ends that answer every query alike. *)
Definition november_2024 : search_clock :=
  mk_search_clock 2024 "November" "October" "2024-10-04" "2024-11-03".

Definition acme_hit : pydict :=
  [ ("title", PStr "Acme launches"); ("link", PStr "https://acme.com");
    ("snippet", PStr "Founded in October 2024") ].

Definition stale_hit : pydict :=
  [ ("title", PStr "Old news"); ("link", PStr "https://old.example");
    ("snippet", PStr "Founded in 2019") ].

Definition one_hit (query : string) : list pydict := [ acme_hit; stale_hit ].

Definition no_hit (query : string) : list pydict := [].

(** A request that fails once and then answers with one item. *)
Definition second_attempt_answers (n : nat) : attempt :=
  match n with
  | O => RequestException
  | S _ => Response (PDict [ ("items", PList [PDict acme_hit]) ])
  end.

(** ** Cleaned text *)

Fixpoint all_chars (P : ascii -> bool) (s : string) : bool :=
  match s with
  | EmptyString => true
  | String c r => (P c && all_chars P r)%bool
  end.

Definition starts_with (P : ascii -> bool) (s : string) : bool :=
  match s with
  | String c _ => P c
  | EmptyString => false
  end.

Fixpoint ends_with (P : ascii -> bool) (s : string) : bool :=
  match s with
  | EmptyString => false
  | String c EmptyString => P c
  | String _ r => ends_with P r
  end.

(** No two spaces in a row. *)
Fixpoint no_double_space (s : string) : bool :=
  match s with
  | EmptyString => true
  | String c r =>
      (negb (is_space c && starts_with is_space r) && no_double_space r)%bool
  end.

Definition not_line_boundary (c : ascii) : bool := negb (is_line_boundary c).

(** No line boundary, no two spaces in a row, no white space at either
    end. *)
Definition clean_text (s : string) : Prop :=
  all_chars not_line_boundary s = true
  /\ no_double_space s = true
  /\ starts_with is_py_space s = false
  /\ ends_with is_py_space s = false.

(** One of [0123456789abcdef]. *)
Definition is_lower_hex (c : ascii) : bool :=
  let n := code c in
  (((48 <=? n) && (n <=? 57)) || ((97 <=? n) && (n <=? 102)))%N.

(** ** The tracker *)

(** The tool records a sequence of calls logs for one agent. *)
Fixpoint logged_for (a : string) (calls : list tracker_call) : list tool_record :=
  match calls with
  | [] => []
  | LogToolUsage ts a' tool input output :: rest =>
      if a' =? a
      then mk_tool_record tool input (first_chars 500 output) ts :: logged_for a rest
      else logged_for a rest
  | _ :: rest => logged_for a rest
  end.

(** The call starts agent [a]. *)
Definition starts (a : string) (call : tracker_call) : bool :=
  match call with
  | StartAgent _ a' _ _ => a' =? a
  | _ => false
  end.

(** A record as the first loop of [run] makes it, and as the second
    leaves it: started under its role, never given a tool record, and
    closed with the crew's result. *)
Definition started_by_run (a : string) (r : agent_record) : Prop :=
  ar_name r = a
  /\ ar_task r = ("Executing " ++ a)%string
  /\ ar_tools_used r = [].

Definition closed_with_result (result : string) (a : string) (r : agent_record)
  : Prop :=
  ar_name r = a
  /\ ar_task r = ("Executing " ++ a)%string
  /\ ar_tools_used r = []
  /\ ar_output r = PStr (first_chars 500 result)
  /\ ar_status r = "completed"
  /\ ar_end_time r <> None.

(** A crew of two, and a sequence of calls that logs two tools for the
    analyst. *)
Definition two_agents : list crew_agent :=
  [ mk_crew_agent "Scout" (PStr "find startups") "10:00:00" "10:05:00";
    mk_crew_agent "Analyst" (PStr "rate startups") "10:00:01" "10:05:01" ].

Definition analyst_calls : list tracker_call :=
  [ LogToolUsage "10:01:00" "Analyst" "search_google" (PDict []) "[]";
    LogToolUsage "10:02:00" "Scout" "fetch_url_content" (PDict []) "text";
    LogToolUsage "10:03:00" "Analyst" "fetch_url_content" (PDict []) "text";
    EndAgent "10:04:00" "Analyst" (PStr "done") "completed" ].

(** ** Run identifiers *)

Definition valid_datetime (t : datetime) : Prop :=
  (1 <= dt_year t <= 9999 /\ 1 <= dt_month t <= 12 /\ 1 <= dt_day t <= 31
   /\ 0 <= dt_hour t <= 23 /\ 0 <= dt_minute t <= 59 /\ 0 <= dt_second t <= 59)%Z.

Definition ten_o_clock : datetime := mk_datetime 2024 11 2 10 0 0.

(** ** Summaries *)

(** The counts a summary row records are those of the stored rows. *)
Definition summary_matches (row : run_row) (rows : list startup_row) : Prop :=
  run_col_total_startups_found row = SqlInt (Z.of_nat (List.length rows))
  /\ run_col_tier_1_count row = SqlInt (rows_in_tier "Tier 1" rows)
  /\ run_col_tier_2_count row = SqlInt (rows_in_tier "Tier 2" rows)
  /\ run_col_tier_3_count row = SqlInt (rows_in_tier "Tier 3" rows).

(** From [d] to [d'] no summary was written, or one that matches the
    rows of [d']. *)
Definition at_most_one_matching_summary (d d' : database) : Prop :=
  run_metadata d' = run_metadata d
  \/ exists row,
       run_metadata d' = run_metadata d ++ [row]
       /\ summary_matches row (startups d').

(* ================================================================== *)
(** * Properties *)
(* ================================================================== *)

(** ** Dictionaries *)

Lemma dict_find_set_same (d : pydict) (k : string) (v : pyval) :
  dict_find (dict_set d k v) k = Some v.
Proof.
  induction d as [|[k' v'] r IH]; simpl.
  - now rewrite String.eqb_refl.
  - destruct (k' =? k) eqn:E; simpl; rewrite E; auto.
Qed.

Lemma dict_find_set_other (d : pydict) (k k0 : string) (v : pyval) :
  k <> k0 -> dict_find (dict_set d k v) k0 = dict_find d k0.
Proof.
  intros Hne. induction d as [|[k' v'] r IH]; simpl.
  - destruct (k =? k0) eqn:E; [apply String.eqb_eq in E; contradiction | reflexivity].
  - destruct (k' =? k) eqn:E; simpl.
    + apply String.eqb_eq in E. subst k'.
      destruct (k =? k0) eqn:E0; [apply String.eqb_eq in E0; contradiction | reflexivity].
    + destruct (k' =? k0); auto.
Qed.

Lemma dict_get_set_same (d : pydict) (k : string) (v : pyval) :
  dict_get (dict_set d k v) k = v.
Proof. unfold dict_get. now rewrite dict_find_set_same. Qed.

Lemma dict_get_set_other (d : pydict) (k k0 : string) (v : pyval) :
  k <> k0 -> dict_get (dict_set d k v) k0 = dict_get d k0.
Proof. intros. unfold dict_get. now rewrite dict_find_set_other. Qed.

Lemma dict_has_set_other (d : pydict) (k k0 : string) (v : pyval) :
  k <> k0 -> dict_has (dict_set d k v) k0 = dict_has d k0.
Proof. intros. unfold dict_has. now rewrite dict_find_set_other. Qed.

(** ** [ORDER BY] returns the same rows *)

Section OrderByFacts.
Context {R K : Type} (key : R -> K) (cmp : K -> K -> comparison).

Lemma insert_desc_perm (x : R) (l : list R) :
  Permutation (insert_desc key cmp x l) (x :: l).
Proof.
  induction l as [|y r IH]; simpl; auto.
  destruct (cmp (key y) (key x)); auto.
  eapply perm_trans; [apply perm_skip, IH | apply perm_swap].
Qed.

Lemma order_by_desc_perm (l : list R) :
  Permutation (order_by_desc key cmp l) l.
Proof.
  induction l as [|x r IH]; simpl; auto.
  eapply perm_trans; [apply insert_desc_perm | now apply perm_skip].
Qed.
End OrderByFacts.

Lemma filter_length_perm {X : Type} (f : X -> bool) (l l' : list X) :
  Permutation l l' -> List.length (filter f l) = List.length (filter f l').
Proof.
  induction 1; simpl; auto.
  - destruct (f x); simpl; auto.
  - destruct (f x), (f y); simpl; auto.
  - congruence.
Qed.

(** ** The connection *)

Lemma get_db_connection_fault (d : database) (t : Z) (fs : list bool) :
  get_db_connection (mk_world d t (true :: fs))
  = (Raise OperationalError, mk_world d t fs).
Proof. reflexivity. Qed.

Lemma get_db_connection_db (w : world) :
  db (snd (get_db_connection w)) = db w
  /\ now (snd (get_db_connection w)) = now w.
Proof.
  unfold get_db_connection. destruct (faults w) as [|[] fs]; simpl; auto.
Qed.

Lemma get_db_connection_ok (w : world) :
  connects w -> fst (get_db_connection w) = Ok tt.
Proof.
  unfold connects, get_db_connection.
  destruct (faults w) as [|[] fs]; simpl; tauto.
Qed.

(** ** Queries under a storage error *)

(** C10.  When the store cannot be opened, [get_all_startups] and
    [get_startups_by_tier] (and their twins in [DatabaseQueries]) return
    the empty list; they are total functions, so nothing is raised.  The
    answer is the one an empty, healthy store gives, and the store is
    left as it was. *)
Theorem queries_absorb_storage_errors :
  forall (d : database) (t : Z) (fs : list bool) (tier : string),
    let w := mk_world d t (true :: fs) in
    fst (get_all_startups w) = []
    /\ fst (get_startups_by_tier tier w) = []
    /\ fst (DatabaseQueries_get_all_startups w) = []
    /\ fst (DatabaseQueries_get_startups_by_tier tier w) = []
    /\ fst (get_all_startups w)
       = fst (get_all_startups (healthy empty_database t))
    /\ fst (get_startups_by_tier tier w)
       = fst (get_startups_by_tier tier (healthy empty_database t))
    /\ db (snd (get_all_startups w)) = d
    /\ db (snd (get_startups_by_tier tier w)) = d.
Proof.
  intros d t fs tier w. subst w.
  unfold get_all_startups, get_startups_by_tier,
    DatabaseQueries_get_all_startups, DatabaseQueries_get_startups_by_tier.
  rewrite get_db_connection_fault. simpl. repeat split; reflexivity.
Qed.

(** ** Aggregation *)

Lemma tier_count_rows (tier : string) (rows : list startup_row) :
  tier_count tier (map row_to_dict rows) = rows_in_tier tier rows.
Proof.
  unfold tier_count, rows_in_tier. f_equal.
  induction rows as [|r rows IH]; simpl; auto.
  replace (dict_get (row_to_dict r) "primary_tier")
    with (sql_to_py (col_primary_tier r)) by reflexivity.
  destruct (col_primary_tier r); simpl; auto.
  destruct (s =? tier); simpl; auto.
Qed.

Lemma get_all_startups_connects (w : world) :
  connects w ->
  exists rows,
    Permutation rows (startups (db w))
    /\ fst (get_all_startups w) = map row_to_dict rows
    /\ db (snd (get_all_startups w)) = db w
    /\ now (snd (get_all_startups w)) = now w.
Proof.
  intros Hc. unfold get_all_startups.
  pose proof (get_db_connection_ok w Hc) as Hok.
  pose proof (get_db_connection_db w) as [Hdb Hnow].
  destruct (get_db_connection w) as [[[]|e] w1]; simpl in *; try discriminate.
  exists (order_by_desc col_created_at Z.compare (startups (db w1))).
  rewrite Hdb. repeat split; auto.
  rewrite <- Hdb. apply order_by_desc_perm.
Qed.

Lemma rows_in_tier_perm (tier : string) (l l' : list startup_row) :
  Permutation l l' -> rows_in_tier tier l = rows_in_tier tier l'.
Proof.
  intros H. unfold rows_in_tier. f_equal. now apply filter_length_perm.
Qed.

Lemma bind_param_int (n : Z) (v : sqlval) :
  bind_param (PInt n) = Ok v -> v = SqlInt n.
Proof.
  unfold bind_param. destruct (andb _ _); congruence.
Qed.

Lemma obind_ok {A B : Type} (m : outcome A) (k : A -> outcome B) (r : B) :
  obind m k = Ok r -> exists x, m = Ok x /\ k x = Ok r.
Proof. destruct m; simpl; intros H; [eauto | discriminate]. Qed.

Ltac bind_inv H :=
  let x := fresh "x" in
  let Hx := fresh "Hx" in
  apply obind_ok in H; destruct H as [x [Hx H]].

Lemma insert_run_metadata_written (ctx : run_context) (l : list pydict)
      (w w' : world) :
  insert_run_metadata (run_data_of ctx l) w = (true, w') ->
  exists row,
    db w' = mk_database (startups (db w)) (run_metadata (db w) ++ [row])
              (next_startup_id (db w)) (next_run_id (db w) + 1)
    /\ run_col_run_id row = SqlText (run_id ctx)
    /\ run_col_total_startups_found row = SqlInt (Z.of_nat (List.length l))
    /\ run_col_tier_1_count row = SqlInt (tier_count "Tier 1" l)
    /\ run_col_tier_2_count row = SqlInt (tier_count "Tier 2" l)
    /\ run_col_tier_3_count row = SqlInt (tier_count "Tier 3" l)
    /\ run_col_status row = SqlText "completed".
Proof.
  unfold insert_run_metadata.
  pose proof (get_db_connection_db w) as [Hdb Hnow].
  destruct (get_db_connection w) as [[[]|e] w1]; simpl in *; try discriminate.
  destruct (insert_run_row (run_data_of ctx l) w1) as [d|e] eqn:Hrow;
    [|discriminate].
  intros H. injection H as <-.
  unfold insert_run_row in Hrow.
  do 8 bind_inv Hrow.
  cbn in Hx, Hx0, Hx1, Hx2, Hx3, Hx5.
  apply bind_param_int in Hx0, Hx1, Hx2, Hx3.
  injection Hx as <-. injection Hx5 as <-. subst.
  cbn [affinity_text is_null] in Hrow.
  destruct (run_conflict _ _); [discriminate|].
  injection Hrow as <-.
  eexists. split; [simpl; rewrite Hdb; reflexivity|].
  simpl. repeat split; reflexivity.
Qed.

Lemma rows_in_tier_disjoint (rows : list startup_row) :
  (rows_in_tier "Tier 1" rows + rows_in_tier "Tier 2" rows
   + rows_in_tier "Tier 3" rows <= Z.of_nat (List.length rows))%Z.
Proof.
  unfold rows_in_tier.
  induction rows as [|r rows IH]; simpl List.length; simpl filter; [simpl; lia|].
  destruct (col_primary_tier r) as [| |?|t]; simpl sqlval_eqb; try lia.
  destruct (t =? "Tier 1") eqn:E1; destruct (t =? "Tier 2") eqn:E2;
    destruct (t =? "Tier 3") eqn:E3; simpl List.length;
    try (apply String.eqb_eq in E1); try (apply String.eqb_eq in E2);
    try (apply String.eqb_eq in E3); subst; try discriminate; lia.
Qed.

Lemma get_all_startups_fails (w : world) :
  ~ connects w ->
  fst (get_all_startups w) = [] /\ db (snd (get_all_startups w)) = db w.
Proof.
  unfold connects, get_all_startups, get_db_connection.
  destruct (faults w) as [|[] fs]; simpl; tauto.
Qed.

(** C7, as the code has it.  The aggregation counts what
    [get_all_startups] hands it.  When that read connects, the summary
    row written reports as [tier_1_count], [tier_2_count] and
    [tier_3_count] the number of stored records whose [primary_tier] is
    exactly "Tier 1", "Tier 2" and "Tier 3", and as
    [total_startups_found] the number of all stored records, so records
    with any other tier, or none, count only in the total.  When that
    read fails, the query answers with the empty list, and a summary
    row that is written all the same reports zero four times, whatever
    is stored.  For three records with tiers "Tier 1", "Tier 1" and
    "Tier 2" on a healthy store the latest run reads 2, 1, 0 and 3. *)
Theorem run_summary_counts :
  (forall (ctx : run_context) (w w' : world),
      connects w ->
      aggregate ctx w = (true, w') ->
      exists row,
        run_metadata (db w') = run_metadata (db w) ++ [row]
        /\ startups (db w') = startups (db w)
        /\ run_col_run_id row = SqlText (run_id ctx)
        /\ run_col_tier_1_count row = SqlInt (rows_in_tier "Tier 1" (startups (db w)))
        /\ run_col_tier_2_count row = SqlInt (rows_in_tier "Tier 2" (startups (db w)))
        /\ run_col_tier_3_count row = SqlInt (rows_in_tier "Tier 3" (startups (db w)))
        /\ run_col_total_startups_found row
           = SqlInt (Z.of_nat (List.length (startups (db w))))
        /\ (rows_in_tier "Tier 1" (startups (db w))
            + rows_in_tier "Tier 2" (startups (db w))
            + rows_in_tier "Tier 3" (startups (db w))
            <= Z.of_nat (List.length (startups (db w))))%Z)
  /\ (forall (ctx : run_context) (w w' : world),
         ~ connects w ->
         aggregate ctx w = (true, w') ->
         exists row,
           run_metadata (db w') = run_metadata (db w) ++ [row]
           /\ startups (db w') = startups (db w)
           /\ run_col_run_id row = SqlText (run_id ctx)
           /\ run_col_tier_1_count row = SqlInt 0
           /\ run_col_tier_2_count row = SqlInt 0
           /\ run_col_tier_3_count row = SqlInt 0
           /\ run_col_total_startups_found row = SqlInt 0)
  /\ (forall ctx : run_context,
        latest_counts (snd (aggregate ctx three_tier_store))
        = Some (PInt 2, PInt 1, PInt 0, PInt 3)).
Proof.
  split; [|split].
  - intros ctx w w' Hc Hagg. unfold aggregate in Hagg.
    destruct (get_all_startups_connects w Hc) as (rows & Hperm & Hall & Hdb & Hnow).
    destruct (get_all_startups w) as [all w1]. simpl in Hall, Hdb, Hnow. subst all.
    apply insert_run_metadata_written in Hagg.
    destruct Hagg as (row & Hdb' & Hid & Htot & H1 & H2 & H3 & _).
    exists row. rewrite Hdb', Hdb. simpl.
    rewrite tier_count_rows in H1, H2, H3.
    rewrite (rows_in_tier_perm "Tier 1" _ _ Hperm) in H1.
    rewrite (rows_in_tier_perm "Tier 2" _ _ Hperm) in H2.
    rewrite (rows_in_tier_perm "Tier 3" _ _ Hperm) in H3.
    rewrite length_map, (Permutation_length Hperm) in Htot.
    repeat split; auto. apply rows_in_tier_disjoint.
  - intros ctx w w' Hc Hagg. unfold aggregate in Hagg.
    destruct (get_all_startups_fails w Hc) as [Hall Hdb].
    destruct (get_all_startups w) as [all w1]. simpl in Hall, Hdb. subst all.
    apply insert_run_metadata_written in Hagg.
    destruct Hagg as (row & Hdb' & Hid & Htot & H1 & H2 & H3 & _).
    exists row. rewrite Hdb', Hdb. simpl.
    repeat split; auto.
  - intros [rid pt od].
    unfold latest_counts, aggregate, insert_run_metadata, insert_run_row.
    cbn. destruct (pt =? "NaN"); reflexivity.
Qed.

(** The summary row written over the three-tier store. *)
Lemma run_summary_counts_witness :
  exists row,
    run_metadata (db (snd (aggregate (mk_run_context "run_20240101_000000" "1.5" "out") three_tier_store)))
    = [row] /\ run_col_tier_1_count row = SqlInt 2.
Proof.
  destruct (proj1 run_summary_counts
              (mk_run_context "run_20240101_000000" "1.5" "out")
              three_tier_store
              (snd (aggregate (mk_run_context "run_20240101_000000" "1.5" "out") three_tier_store)))
    as (row & Hrun & _ & _ & H1 & _).
  - exact I.
  - reflexivity.
  - exists row. split; [exact Hrun | exact H1].
Defined.

(** The same three records, with a read that fails and a write that
    does not: the summary is written and reports no record at all. *)
Lemma run_summary_after_failed_read :
  fst (aggregate acme_ctx read_fails) = true
  /\ latest_counts (snd (aggregate acme_ctx read_fails))
     = Some (PInt 0, PInt 0, PInt 0, PInt 0)
  /\ List.length (startups (db (snd (aggregate acme_ctx read_fails)))) = 3%nat
  /\ rows_in_tier "Tier 1" (startups (db (snd (aggregate acme_ctx read_fails)))) = 2%Z
  /\ rows_in_tier "Tier 2" (startups (db (snd (aggregate acme_ctx read_fails)))) = 1%Z.
Proof. vm_compute. repeat split. Qed.


(** ** Inserts *)

Lemma insert_startup_db_cases (sd : pydict) (w : world) :
  (fst (insert_startup sd w) = false /\ db (snd (insert_startup sd w)) = db w)
  \/ (fst (insert_startup sd w) = true
      /\ exists d, insert_startup_row sd (snd (get_db_connection w)) = Ok d
                   /\ db (snd (insert_startup sd w)) = d).
Proof.
  unfold insert_startup.
  pose proof (get_db_connection_db w) as [Hdb Hnow].
  destruct (get_db_connection w) as [[[]|e] w1]; simpl in *; auto.
  destruct (insert_startup_row sd w1) as [d|[]] eqn:E; simpl; auto.
  right. split; auto. exists d. auto.
Qed.

Lemma insert_startup_row_ok (sd : pydict) (w : world) (d : database) :
  insert_startup_row sd w = Ok d ->
  exists row,
    d = mk_database (startups (db w) ++ [row]) (run_metadata (db w))
          (next_startup_id (db w) + 1) (next_run_id (db w))
    /\ stored_key sd "name" = Ok (col_name row)
    /\ stored_key sd "hash" = Ok (col_hash row)
    /\ is_null (col_name row) = false
    /\ startups_conflict (col_name row) (col_hash row) (startups (db w)) = false
    /\ col_id row = next_startup_id (db w)
    /\ (forall l, dict_get sd "secondary_tiers" = PList l ->
               col_secondary_tiers row = SqlText (PyJson.dumps (PList l))).
Proof.
  unfold insert_startup_row. intros H.
  do 13 bind_inv H.
  destruct (is_null (affinity_text x)) eqn:Hnull; [discriminate|].
  destruct (startups_conflict _ _ _) eqn:Hc; [discriminate|].
  injection H as <-. eexists. split; [reflexivity|]. simpl.
  unfold stored_key. rewrite Hx, Hx11. simpl. repeat split; auto.
  intros l Hl. rewrite Hl in Hx8. cbn [isinstance_list bind_param] in Hx8.
  now injection Hx8 as <-.
Qed.

Lemma insert_startup_row_conflict (sd : pydict) (w : world) (name hash : sqlval) :
  stored_key sd "name" = Ok name ->
  stored_key sd "hash" = Ok hash ->
  startups_conflict name hash (startups (db w)) = true ->
  insert_startup_row sd w = Raise IntegrityError
  \/ exists e, insert_startup_row sd w = Raise e.
Proof.
  intros Hn Hh Hc.
  destruct (insert_startup_row sd w) as [d|e] eqn:E; [|right; eauto].
  apply insert_startup_row_ok in E.
  destruct E as (row & _ & Hn' & Hh' & _ & Hc' & _).
  rewrite Hn in Hn'. rewrite Hh in Hh'.
  injection Hn' as ->. injection Hh' as ->. congruence.
Qed.

Lemma insert_startup_conflict (sd : pydict) (w : world) (name hash : sqlval) :
  stored_key sd "name" = Ok name ->
  stored_key sd "hash" = Ok hash ->
  startups_conflict name hash (startups (db w)) = true ->
  fst (insert_startup sd w) = false /\ db (snd (insert_startup sd w)) = db w.
Proof.
  intros Hn Hh Hc.
  destruct (insert_startup_db_cases sd w) as [H|[_ (d & Hrow & _)]]; auto.
  pose proof (get_db_connection_db w) as [Hdb _].
  assert (Hc' : startups_conflict name hash
                  (startups (db (snd (get_db_connection w)))) = true)
    by now rewrite Hdb.
  destruct (insert_startup_row_conflict sd _ name hash Hn Hh Hc') as [E|[e E]];
    congruence.
Qed.

Lemma startups_conflict_app (name hash : sqlval) (l1 l2 : list startup_row) :
  startups_conflict name hash (l1 ++ l2)
  = (startups_conflict name hash l1 || startups_conflict name hash l2)%bool.
Proof. unfold startups_conflict. apply existsb_app. Qed.

Lemma sqlval_eqb_refl (v : sqlval) : sqlval_eqb v v = true.
Proof.
  destruct v; simpl; auto using Z.eqb_refl, String.eqb_refl.
Qed.

Lemma unique_conflict_self (v : sqlval) :
  is_null v = false -> unique_conflict v v = true.
Proof. destruct v; simpl; intros; try discriminate; auto using Z.eqb_refl, String.eqb_refl. Qed.

(** C2.  A record whose name or content hash is already stored is not
    inserted: [insert_startup] returns [False] (it is a total function,
    nothing is raised) and the database is exactly what it was, so no row
    is added and no row is changed.  The name and the hash are compared
    as the store holds them, as text: the [int] that
    [_process_and_save_results] passes as hash collides with the stored
    text of the same number.  Inserting the same record twice therefore
    grows the table by one row, not two. *)
Theorem duplicate_insert_rejected :
  (forall (sd : pydict) (w : world) (r : startup_row),
      In r (startups (db w)) ->
      (not_a_float (dict_get sd "name")
       /\ stored_key sd "name" = Ok (col_name r))
      \/ (not_a_float (dict_get sd "hash")
          /\ stored_key sd "hash" = Ok (col_hash r)
          /\ is_null (col_hash r) = false) ->
      fst (insert_startup sd w) = false
      /\ db (snd (insert_startup sd w)) = db w)
  /\ (forall (sd : pydict) (w w1 : world),
         insert_startup sd w = (true, w1) ->
         List.length (startups (db w1)) = S (List.length (startups (db w)))
         /\ fst (insert_startup sd w1) = false
         /\ db (snd (insert_startup sd w1)) = db w1).
Proof.
  split.
  - intros sd w r Hin Hdup.
    destruct (insert_startup_db_cases sd w) as [H|[_ (d & Hrow & _)]]; auto.
    exfalso.
    apply insert_startup_row_ok in Hrow.
    destruct Hrow as (row & _ & Hn & Hh & Hnull & Hc & _).
    pose proof (get_db_connection_db w) as [Hdb _]. rewrite Hdb in Hc.
    unfold startups_conflict in Hc.
    assert (Hex : existsb (fun r0 => unique_conflict (col_name row) (col_name r0)
                                     || unique_conflict (col_hash row) (col_hash r0))%bool
                    (startups (db w)) = true).
    { apply existsb_exists. exists r. split; auto.
      destruct Hdup as [(_ & Hr)|(_ & Hr & Hrn)].
      - rewrite Hn in Hr. injection Hr as <-.
        now rewrite (unique_conflict_self _ Hnull).
      - rewrite Hh in Hr. injection Hr as Hr. rewrite Hr.
        rewrite (unique_conflict_self _ Hrn). apply orb_true_r. }
    congruence.
  - intros sd w w1 Hins.
    destruct (insert_startup_db_cases sd w) as [[H _]|[_ (d & Hrow & Hd)]];
      rewrite Hins in *; simpl in *; [discriminate|].
    apply insert_startup_row_ok in Hrow.
    destruct Hrow as (row & Hdeq & Hn & Hh & Hnull & _).
    pose proof (get_db_connection_db w) as [Hdb _]. rewrite Hdb in Hdeq.
    subst d. rewrite Hd. simpl. split.
    + rewrite length_app. simpl. lia.
    + assert (Hdb1 : startups (db w1) = startups (db w) ++ [row])
        by now rewrite Hd.
      rewrite <- Hd.
      apply (insert_startup_conflict sd w1 (col_name row) (col_hash row)); auto.
      rewrite Hdb1, startups_conflict_app. apply orb_true_iff. right.
      simpl. now rewrite (unique_conflict_self _ Hnull).
Qed.

(** The same record twice, another record under the same name, and
    another name under the same [int] hash. *)
Lemma duplicate_insert_rejected_witness :
  let w1 := snd (insert_startup acme_record (healthy empty_database 0)) in
  let w7 := snd (insert_startup (hashed_record "Acme" 7) (healthy empty_database 0)) in
  List.length (startups (db w1)) = 1%nat
  /\ fst (insert_startup acme_record w1) = false
  /\ db (snd (insert_startup acme_record w1)) = db w1
  /\ fst (insert_startup [("name", PStr "Acme")] w1) = false
  /\ fst (insert_startup (hashed_record "Other" 7) w7) = false.
Proof.
  intros w1 w7.
  destruct (proj2 duplicate_insert_rejected acme_record
              (healthy empty_database 0) w1 eq_refl) as (Hlen & Hf & Hdb).
  split; [exact Hlen|]. split; [exact Hf|]. split; [exact Hdb|]. split.
  - refine (proj1 (proj1 duplicate_insert_rejected [("name", PStr "Acme")] w1
              (mk_startup_row 1 (SqlText "Acme") (SqlText "https://acme.com")
                 SqlNull SqlNull SqlNull SqlNull (SqlInt 0) SqlNull SqlNull SqlNull
                 SqlNull SqlNull 0 0 (SqlText "c68b1eb0461a0e643df1548aa38723ac"))
              _ _)).
    + left. reflexivity.
    + left. split; [exact I | reflexivity].
  - refine (proj1 (proj1 duplicate_insert_rejected (hashed_record "Other" 7) w7
              (mk_startup_row 1 (SqlText "Acme") SqlNull
                 SqlNull SqlNull SqlNull SqlNull (SqlInt 0) SqlNull SqlNull SqlNull
                 SqlNull SqlNull 0 0 (SqlText "7"))
              _ _)).
    + left. reflexivity.
    + right. split; [exact I|]. split; reflexivity.
Defined.

(** ** Merge *)

Lemma string_neq (a b : string) : (a =? b) = false -> a <> b.
Proof. intros H E. apply String.eqb_eq in E. congruence. Qed.

Ltac dict_simp :=
  repeat first
    [ rewrite dict_get_set_same
    | rewrite dict_get_set_other by (apply string_neq; reflexivity)
    | rewrite dict_has_set_other by (apply string_neq; reflexivity) ].

(** C5.  A base record with a truthy, hashable name is always merged into
    a record handed to the store, whatever the annotation maps contain.
    When the name has an entry in the tier map, [primary_tier] and
    [secondary_tiers] come from that entry even if the base record embeds
    a [primary_tier]; the embedded value is used only when the name has
    no entry; with neither, the field stays unset. *)
Theorem merge_precedence :
  forall (builtin_hash : pyval -> Z) (tier_info fit_info : annot)
         (startup : pydict),
    let name := py_or (dict_get startup "name") (dict_get startup "startup_name") in
    truthy name = true ->
    hashable name = true ->
    exists sd,
      candidate builtin_hash tier_info fit_info (PDict startup) = Ok (Some sd)
      /\ dict_get sd "name" = name
      /\ (forall entry,
             annot_find tier_info name = Some entry ->
             dict_get sd "primary_tier" = dict_get entry "primary_tier"
             /\ dict_get sd "secondary_tiers" = dict_get entry "secondary_tiers")
      /\ (annot_find tier_info name = None ->
          dict_has startup "primary_tier" = true ->
          dict_get sd "primary_tier" = dict_get startup "primary_tier"
          /\ dict_get sd "secondary_tiers" = dict_get startup "secondary_tiers")
      /\ (annot_find tier_info name = None ->
          dict_has startup "primary_tier" = false ->
          dict_has sd "primary_tier" = false).
Proof.
  intros bh ti fi startup name Ht Hh.
  unfold candidate. fold name. rewrite Ht.
  unfold merge_startup, py_hash. rewrite Hh.
  eexists. split; [reflexivity|].
  destruct (annot_find ti name) as [te|] eqn:Et;
    destruct (annot_find fi name) as [fe|] eqn:Ef;
    destruct (dict_has startup "primary_tier") eqn:Ep;
    destruct (dict_has startup "india_fit_score") eqn:Es;
    dict_simp;
    (split; [reflexivity|]);
    (split; [intros entry He; try discriminate; injection He as <-; auto|]);
    (split; intros; try discriminate; auto).
Qed.

(** The tier map wins over the embedded tier. *)
Lemma merge_precedence_witness :
  exists sd,
    candidate (fun _ => 0%Z) tier_map_tier1 [] (PDict embedded_tier2) = Ok (Some sd)
    /\ dict_get sd "primary_tier" = PStr "Tier 1".
Proof.
  destruct (merge_precedence (fun _ => 0%Z) tier_map_tier1 [] embedded_tier2
              eq_refl eq_refl) as (sd & Hc & _ & Hmap & _).
  exists sd. split; [exact Hc|].
  exact (proj1 (Hmap _ eq_refl)).
Defined.

(** ** Extraction *)

Lemma candidate_non_dict (bh : pyval -> Z) (ti fi : annot) (v : pyval) :
  isinstance_dict v = false -> candidate bh ti fi v = Ok None.
Proof. destruct v; simpl; intros; congruence. Qed.

Lemma insert_loop_skips_non_dicts (bh : pyval -> Z) (ti fi : annot)
      (startups : list pyval) :
  forall (n : nat) (w : world),
    insert_loop bh ti fi startups n w
    = insert_loop bh ti fi (filter isinstance_dict startups) n w.
Proof.
  induction startups as [|v rest IH]; intros n w; [reflexivity|].
  simpl filter. destruct (isinstance_dict v) eqn:E.
  - simpl. destruct (candidate bh ti fi v) as [[sd|]|e]; auto.
    destruct (insert_startup sd w) as [ins w1]. apply IH.
  - simpl. rewrite (candidate_non_dict bh ti fi v E). apply IH.
Qed.

Lemma parse_startup_data_cases (jl : string -> outcome pyval) (text : string) :
  match decoded_text text with
  | None => parse_startup_data jl text = Ok []
  | Some t =>
      match jl t with
      | Raise JSONDecodeError => parse_startup_data jl text = Ok []
      | Raise e => parse_startup_data jl text = Raise e
      | Ok (PList l) => parse_startup_data jl text = Ok l
      | Ok _ => exists l, parse_startup_data jl text = Ok l
      end
  end.
Proof.
  unfold decoded_text, parse_startup_data.
  destruct (strip_startswith text "[" || strip_startswith text "{")%bool.
  - destruct (jl text) as [[| | | | | |d]|[]]; simpl; eauto.
  - destruct (re_search_json text) as [m|]; [|reflexivity].
    destruct (jl m) as [[| | | | | |d]|[]]; simpl; eauto.
Qed.

Lemma process_and_save_results_parse_raises (bh : pyval -> Z)
      (jl : string -> outcome pyval) (dl : list pyval -> outcome unit)
      (ctx : run_context) (text : string) (w : world) (e : exn) :
  parse_startup_data jl text = Raise e ->
  process_and_save_results bh jl dl ctx text w = w.
Proof.
  intros H. unfold process_and_save_results, process_and_save_results_body.
  now rewrite H.
Qed.

(** C6, as the code has it.  [parse_startup_data] catches the decode
    error of [json.loads] and nothing else.  Whenever there is no text
    to decode, or the decoder answers with its decode error, the result
    is the empty list.  Any other exception of the decoder leaves the
    function as it is, these are the only exceptions that do, and the
    handler of [_process_and_save_results] catches them, with nothing
    stored.  A list the decoder returns is returned as parsed, so it
    may hold elements that are not mappings; those are passed over by
    the loop that consumes the list, which behaves exactly as on the
    list of its mappings. *)
Theorem extraction_outcome_consumer_filters :
  forall json_loads : string -> outcome pyval,
    (forall text : string,
        decoded_text text = None ->
        parse_startup_data json_loads text = Ok [])
    /\ (forall text t : string,
           decoded_text text = Some t ->
           json_loads t = Raise JSONDecodeError ->
           parse_startup_data json_loads text = Ok [])
    /\ (forall (text t : string) (e : exn),
           decoded_text text = Some t ->
           json_loads t = Raise e ->
           e <> JSONDecodeError ->
           parse_startup_data json_loads text = Raise e)
    /\ (forall (text : string) (e : exn),
           parse_startup_data json_loads text = Raise e ->
           e <> JSONDecodeError
           /\ exists t, decoded_text text = Some t /\ json_loads t = Raise e)
    /\ (forall (bh : pyval -> Z) (dl : list pyval -> outcome unit)
               (ctx : run_context) (text : string) (w : world) (e : exn),
           parse_startup_data json_loads text = Raise e ->
           process_and_save_results bh json_loads dl ctx text w = w)
    /\ (forall (text t : string) (l : list pyval),
           decoded_text text = Some t ->
           json_loads t = Ok (PList l) ->
           parse_startup_data json_loads text = Ok l)
    /\ (forall (bh : pyval -> Z) (ti fi : annot) (v : pyval),
           isinstance_dict v = false -> candidate bh ti fi v = Ok None)
    /\ (forall (bh : pyval -> Z) (ti fi : annot) (l : list pyval)
               (n : nat) (w : world),
           insert_loop bh ti fi l n w
           = insert_loop bh ti fi (filter isinstance_dict l) n w).
Proof.
  intros jl.
  split; [|split; [|split; [|split; [|split; [|split; [|split]]]]]].
  - intros text H. pose proof (parse_startup_data_cases jl text) as C.
    now rewrite H in C.
  - intros text t H E. pose proof (parse_startup_data_cases jl text) as C.
    now rewrite H, E in C.
  - intros text t e H E Hne. pose proof (parse_startup_data_cases jl text) as C.
    rewrite H, E in C. destruct e; congruence.
  - intros text e H. pose proof (parse_startup_data_cases jl text) as C.
    destruct (decoded_text text) as [t|]; [|congruence].
    destruct (jl t) as [v|e'] eqn:E.
    + assert (exists l, parse_startup_data jl text = Ok l) as [l Hl]
        by (destruct v; eauto).
      congruence.
    + destruct e'; try congruence;
        (rewrite H in C; injection C as ->);
        (split; [discriminate | exists t; split; [reflexivity | exact E]]).
  - intros bh dl ctx text w e. apply process_and_save_results_parse_raises.
  - intros text t l H E. pose proof (parse_startup_data_cases jl text) as C.
    now rewrite H, E in C.
  - apply candidate_non_dict.
  - intros. apply insert_loop_skips_non_dicts.
Qed.

(** Truncated JSON, plain text, an unbalanced fragment, and a number in
    place of a record, with the decoder of CPython. *)
Lemma extraction_outcome_consumer_filters_witness :
  parse_startup_data cpython_loads "[1, 2" = Ok []
  /\ parse_startup_data cpython_loads "no json here" = Ok []
  /\ parse_startup_data cpython_loads "see {broken] and more}" = Ok []
  /\ candidate (fun _ => 0%Z) [] [] (PInt 1) = Ok None.
Proof.
  destruct (extraction_outcome_consumer_filters cpython_loads)
    as (H1 & H2 & _ & _ & _ & _ & H3 & _).
  split; [apply (H2 _ "[1, 2"); reflexivity|].
  split; [apply H1; reflexivity|].
  split; [apply (H2 _ "{broken] and more}"); reflexivity|].
  apply H3. reflexivity.
Defined.

(** The extractor does not filter, and it does not always return: a
    JSON list of numbers comes back as it is, an integer of 4301 digits
    makes the decoder raise [ValueError], a thousand nested arrays make
    it raise [RecursionError], and both leave the extractor. *)
Lemma extraction_raises_and_keeps_non_mappings :
  parse_startup_data cpython_loads "[1, 2]" = Ok [PInt 1; PInt 2]
  /\ parse_startup_data cpython_loads long_integer_text = Raise ValueError
  /\ parse_startup_data cpython_loads deep_text = Raise RecursionError
  /\ ~ (forall text : string,
          exists l, parse_startup_data cpython_loads text = Ok l
                    /\ forallb isinstance_dict l = true).
Proof.
  split; [reflexivity|].
  split; [vm_compute; reflexivity|].
  split; [vm_compute; reflexivity|].
  intros H. destruct (H "[1, 2]") as (l & Hl & Hd).
  vm_compute in Hl. injection Hl as <-. discriminate Hd.
Qed.

(** ** Storage failures during a run *)

Lemma insert_startup_fault (sd : pydict) (d : database) (t : Z) (fs : list bool) :
  insert_startup sd (mk_world d t (true :: fs)) = (false, mk_world d t fs).
Proof. reflexivity. Qed.

Lemma insert_run_metadata_fault (rd : pydict) (d : database) (t : Z) (fs : list bool) :
  insert_run_metadata rd (mk_world d t (true :: fs)) = (false, mk_world d t fs).
Proof. reflexivity. Qed.

(** C9, as the code has it.  Only [init_database] lets a storage failure
    out: [run] then reports failure and the database, its run summaries
    included, is what it was.  After a successful initialisation every
    storage failure is absorbed where it happens ([insert_startup] and
    [insert_run_metadata] return [False] and change nothing), so [run]
    reports success whenever its collaborators do not fail, whatever the
    store does. *)
Theorem storage_failure_handling :
  (forall (bh : pyval -> Z) (jl : string -> outcome pyval)
          (dl : list pyval -> outcome unit)
          (ctx : run_context) (env : collaborators)
          (d : database) (t : Z) (fs : list bool),
      run bh jl dl ctx env (mk_world d t (true :: fs)) = (false, mk_world d t fs))
  /\ (forall (sd : pydict) (d : database) (t : Z) (fs : list bool),
         insert_startup sd (mk_world d t (true :: fs)) = (false, mk_world d t fs)
         /\ insert_run_metadata sd (mk_world d t (true :: fs))
            = (false, mk_world d t fs))
  /\ (forall (bh : pyval -> Z) (jl : string -> outcome pyval)
             (dl : list pyval -> outcome unit)
             (ctx : run_context) (env : collaborators)
             (w : world) (result : string),
         connects w ->
         setup_crew env = Ok tt ->
         kickoff env = Ok result ->
         save_all_reports env = Ok tt ->
         fst (run bh jl dl ctx env w) = true).
Proof.
  repeat split.
  - intros bh jl dl ctx env w result Hc Hs Hk Hr.
    unfold run, init_database.
    pose proof (get_db_connection_ok w Hc) as Hok.
    destruct (get_db_connection w) as [[[]|e] w1]; simpl in Hok; try discriminate.
    now rewrite Hs, Hk, Hr.
Qed.

(** The run of [acme_env] on a store that fails at the insert. *)
Lemma storage_failure_handling_witness :
  fst (run (fun _ => 0%Z) cpython_loads dumps_returns acme_ctx acme_env insert_fails) = true.
Proof.
  apply (proj2 (proj2 storage_failure_handling)) with (result := acme_result);
    [exact I | reflexivity | reflexivity | reflexivity].
Defined.

(** A run whose only insert hits an unavailable store: the failure is not
    reported, and a summary row is written all the same. *)
Lemma storage_failure_not_propagated :
  let (success, w) := run (fun _ => 0%Z) cpython_loads dumps_returns acme_ctx acme_env insert_fails in
  success = true
  /\ startups (db w) = []
  /\ List.length (run_metadata (db w)) = 1%nat.
Proof. vm_compute. repeat split. Qed.

(** ** [json.dumps] then [json.loads] on a list of strings *)

Lemma scanstring_escape_char (c : ascii) (r : string) :
  PyJson.scanstring (PyJson.escape_char c ++ r)%string
  = PyJson.cons_char c (PyJson.scanstring r).
Proof.
  destruct c as [b0 b1 b2 b3 b4 b5 b6 b7].
  destruct b0, b1, b2, b3, b4, b5, b6, b7; reflexivity.
Qed.

Lemma string_app_assoc (x y z : string) :
  ((x ++ y) ++ z = x ++ (y ++ z))%string.
Proof. induction x; simpl; congruence. Qed.

Lemma scanstring_escape_body (s rest : string) :
  PyJson.scanstring (PyJson.escape_body s ++ String dquote rest)%string
  = Some (s, rest).
Proof.
  induction s as [|c s IH]; [reflexivity|].
  simpl PyJson.escape_body.
  rewrite string_app_assoc, scanstring_escape_char, IH. reflexivity.
Qed.

Lemma dumps_list_of_str (l : list string) :
  PyJson.dumps (PList (map PStr l)) = ("[" ++ dumps_items l ++ "]")%string.
Proof.
  simpl. f_equal. f_equal.
  induction l as [|s [|s' r] IH]; simpl; auto.
  simpl in IH. now rewrite IH.
Qed.

Lemma dumps_str_shape (s rest : string) :
  (PyJson.dumps_str s ++ rest)%string
  = String dquote (PyJson.escape_body s ++ String dquote rest)%string.
Proof.
  unfold PyJson.dumps_str. simpl. f_equal.
  now rewrite string_app_assoc.
Qed.

Lemma parse_value_dumps_str (ef : nat) (md : Z) (f room : nat) (s rest : string) :
  PyJson.parse_value ef md (S f) room (PyJson.dumps_str s ++ rest)%string
  = Ok (PStr s, rest).
Proof.
  rewrite dumps_str_shape. simpl. now rewrite scanstring_escape_body.
Qed.

Lemma dumps_items_quote (s : string) (r : list string) (z : string) :
  exists t, (dumps_items (s :: r) ++ z)%string = String dquote t.
Proof.
  destruct r; simpl; eexists; reflexivity.
Qed.

Lemma parse_elems_unfold (ef : nat) (md : Z) (f room : nat) (s : string) :
  PyJson.parse_elems ef md (S f) room s
  = match PyJson.parse_value ef md f room s with
    | Raise e => Raise e
    | Ok (v, r) =>
        match PyJson.skip_ws r with
        | String c r1 =>
            if (code c =? 93)%N then Ok ([v], r1)
            else if (code c =? 44)%N then
              match PyJson.parse_elems ef md f room (PyJson.skip_ws r1) with
              | Ok (l, rest) => Ok (v :: l, rest)
              | Raise e => Raise e
              end
            else Raise (PyJson.decode_error ef room)
        | EmptyString => Raise (PyJson.decode_error ef room)
        end
    end.
Proof. reflexivity. Qed.

Lemma parse_elems_dumps_items (ef : nat) (md : Z) (room : nat) (l : list string) :
  l <> [] ->
  forall (fuel : nat) (rest : string),
    (List.length l < fuel)%nat ->
    PyJson.parse_elems ef md fuel room (dumps_items l ++ String "]" rest)%string
    = Ok (map PStr l, rest).
Proof.
  induction l as [|s r IH]; [congruence|]. intros _ fuel rest Hf.
  destruct fuel as [|[|f]]; simpl in Hf; try lia.
  rewrite parse_elems_unfold.
  destruct r as [|s' r'].
  - cbn [dumps_items]. rewrite parse_value_dumps_str. reflexivity.
  - change (dumps_items (s :: s' :: r'))
      with (PyJson.dumps_str s ++ ", " ++ dumps_items (s' :: r'))%string.
    rewrite string_app_assoc, parse_value_dumps_str.
    rewrite string_app_assoc.
    destruct (dumps_items_quote s' r' (String "]" rest)) as [t Ht].
    rewrite Ht.
    change (PyJson.skip_ws (", " ++ String dquote t)%string)
      with (String "," (String " " (String dquote t))).
    cbv iota beta.
    change (code "," =? 93)%N with false.
    change (code "," =? 44)%N with true.
    cbv iota.
    change (PyJson.skip_ws (String " " (String dquote t))) with (String dquote t).
    rewrite <- Ht, IH; [reflexivity | congruence | simpl in *; lia].
Qed.

Lemma string_length_app (x y : string) :
  String.length (x ++ y)%string = (String.length x + String.length y)%nat.
Proof. induction x; simpl; auto. Qed.

Lemma dumps_items_length (l : list string) :
  (List.length l <= String.length (dumps_items l))%nat.
Proof.
  induction l as [|s r IH]; [simpl; lia|].
  destruct r as [|s' r'].
  - unfold dumps_items, PyJson.dumps_str. simpl. lia.
  - change (dumps_items (s :: s' :: r'))
      with (PyJson.dumps_str s ++ ", " ++ dumps_items (s' :: r'))%string.
    remember (dumps_items (s' :: r')) as X.
    rewrite !string_length_app. simpl List.length in *.
    change (String.length ", ") with 2%nat. lia.
Qed.

(** [json.dumps] writes no escape above [ÿ]. *)
Lemma escapes_beyond_alphabet_escape_char (c : ascii) (r : string) :
  PyJson.escapes_beyond_alphabet (PyJson.escape_char c ++ r)%string
  = PyJson.escapes_beyond_alphabet r.
Proof.
  destruct c as [b0 b1 b2 b3 b4 b5 b6 b7].
  destruct b0, b1, b2, b3, b4, b5, b6, b7; reflexivity.
Qed.

Lemma escapes_beyond_alphabet_dumps_str (s rest : string) :
  PyJson.escapes_beyond_alphabet (PyJson.dumps_str s ++ rest)%string
  = PyJson.escapes_beyond_alphabet rest.
Proof.
  rewrite dumps_str_shape.
  change (PyJson.escapes_beyond_alphabet
            (String dquote (PyJson.escape_body s ++ String dquote rest)))
    with (PyJson.escapes_beyond_alphabet
            (PyJson.escape_body s ++ String dquote rest)).
  induction s as [|c s IH]; [reflexivity|].
  simpl PyJson.escape_body.
  now rewrite string_app_assoc, escapes_beyond_alphabet_escape_char.
Qed.

Lemma escapes_beyond_alphabet_dumps_items (l : list string) (rest : string) :
  PyJson.escapes_beyond_alphabet (dumps_items l ++ rest)%string
  = PyJson.escapes_beyond_alphabet rest.
Proof.
  induction l as [|s r IH]; [reflexivity|].
  destruct r as [|s' r'].
  - cbn [dumps_items]. apply escapes_beyond_alphabet_dumps_str.
  - change (dumps_items (s :: s' :: r'))
      with (PyJson.dumps_str s ++ ", " ++ dumps_items (s' :: r'))%string.
    rewrite string_app_assoc, escapes_beyond_alphabet_dumps_str.
    rewrite string_app_assoc.
    change (PyJson.escapes_beyond_alphabet
              (", " ++ dumps_items (s' :: r') ++ rest)%string)
      with (PyJson.escapes_beyond_alphabet (dumps_items (s' :: r') ++ rest)%string).
    exact IH.
Qed.

Lemma parse_value_open_array (ef : nat) (md : Z) (f room : nat) (t : string) :
  PyJson.parse_value ef md (S f) (S room) (String "[" (String dquote t))
  = match PyJson.parse_elems ef md f room (String dquote t) with
    | Ok (l, rest) => Ok (PList l, rest)
    | Raise e => Raise e
    end.
Proof. reflexivity. Qed.

(** What was serialised on insert parses back to the same list, in the
    same order, wherever the interpreter has room for one array. *)
Lemma loads_dumps_list_of_str (lim : PyJson.limits) (l : list string) :
  (1 <= PyJson.recursion_room lim)%nat ->
  PyJson.loads lim (PyJson.dumps (PList (map PStr l))) = Ok (PList (map PStr l)).
Proof.
  intros Hroom.
  rewrite dumps_list_of_str. unfold PyJson.loads.
  assert (Hesc : PyJson.escapes_beyond_alphabet ("[" ++ dumps_items l ++ "]")%string
                 = false).
  { change (PyJson.escapes_beyond_alphabet ("[" ++ dumps_items l ++ "]")%string)
      with (PyJson.escapes_beyond_alphabet (dumps_items l ++ "]")%string).
    now rewrite escapes_beyond_alphabet_dumps_items. }
  rewrite Hesc.
  change (PyJson.skip_ws ("[" ++ dumps_items l ++ "]")%string)
    with ("[" ++ dumps_items l ++ "]")%string.
  destruct (PyJson.recursion_room lim) as [|room]; [lia|].
  destruct l as [|s r]; [reflexivity|].
  assert (Hlen : (List.length (s :: r) + 1
                  < 2 * String.length ("[" ++ dumps_items (s :: r) ++ "]") + 2)%nat).
  { pose proof (dumps_items_length (s :: r)) as Hl.
    remember (dumps_items (s :: r)) as X.
    change ("[" ++ X ++ "]")%string with (String "[" (X ++ "]"))%string.
    cbn [String.length]. rewrite string_length_app. simpl List.length in *. lia. }
  remember (2 * String.length ("[" ++ dumps_items (s :: r) ++ "]") + 2)%nat as fuel.
  destruct fuel as [|f]; [lia|].
  destruct (dumps_items_quote s r "]") as [t Ht].
  change ("[" ++ dumps_items (s :: r) ++ "]")%string
    with (String "[" (dumps_items (s :: r) ++ "]"))%string.
  rewrite Ht, parse_value_open_array, <- Ht.
  rewrite (parse_elems_dumps_items _ _ _ (s :: r)); [reflexivity | congruence | lia].
Qed.

(** ** Secondary tiers on the way in and out *)

(** C8, as the code has it.  A [secondary_tiers] list of strings is
    stored as its JSON text; reading the record back through
    [get_all_startups] yields that text, a [str], not the list.  The text
    determines the list and its order: [json.loads] of it is the list
    that was inserted, in every interpreter that has room for one
    array. *)
Theorem secondary_tiers_read_back_as_json_text :
  forall (sd : pydict) (l : list string) (w w1 : world),
    dict_get sd "secondary_tiers" = PList (map PStr l) ->
    insert_startup sd w = (true, w1) ->
    connects w1 ->
    exists record,
      In record (fst (get_all_startups w1))
      /\ dict_get record "id" = PInt (next_startup_id (db w))
      /\ dict_get record "secondary_tiers"
         = PStr (PyJson.dumps (PList (map PStr l)))
      /\ (forall lim : PyJson.limits,
             (1 <= PyJson.recursion_room lim)%nat ->
             PyJson.loads lim (PyJson.dumps (PList (map PStr l)))
             = Ok (PList (map PStr l))).
Proof.
  intros sd l w w1 Hsec Hins Hc.
  destruct (insert_startup_db_cases sd w) as [[H _]|[_ (d & Hrow & Hd)]];
    rewrite Hins in *; simpl in *; [discriminate|].
  apply insert_startup_row_ok in Hrow.
  destruct Hrow as (row & Hdeq & _ & _ & _ & _ & Hid & Hst).
  pose proof (get_db_connection_db w) as [Hdb _]. rewrite Hdb in Hdeq, Hid.
  destruct (get_all_startups_connects w1 Hc) as (rows & Hperm & Hall & _).
  exists (row_to_dict row). rewrite Hall.
  split.
  - apply in_map. apply (Permutation_in _ (Permutation_sym Hperm)).
    rewrite Hd, Hdeq. simpl. apply in_or_app. right. now left.
  - split; [simpl; unfold dict_get; simpl; now rewrite Hid|].
    split; [|intros lim Hroom; now apply loads_dumps_list_of_str].
    change (dict_get (row_to_dict row) "secondary_tiers")
      with (sql_to_py (col_secondary_tiers row)).
    now rewrite (Hst _ Hsec).
Qed.

(** Two secondary tiers, inserted and listed. *)
Lemma secondary_tiers_read_back_as_json_text_witness :
  exists record,
    In record
      (fst (get_all_startups
              (snd (insert_startup two_secondary_tiers (healthy empty_database 0)))))
    /\ dict_get record "secondary_tiers" = PStr ("[" ++ quoted "Tier 2" ++ ", " ++ quoted "Tier 3" ++ "]").
Proof.
  destruct (secondary_tiers_read_back_as_json_text two_secondary_tiers
              ["Tier 2"; "Tier 3"] (healthy empty_database 0)
              (snd (insert_startup two_secondary_tiers (healthy empty_database 0)))
              eq_refl eq_refl I) as (record & Hin & _ & Hsec & _).
  exists record. split; [exact Hin | exact Hsec].
Defined.

(** What comes back is the text, not the list that went in. *)
Lemma secondary_tiers_not_deserialised :
  let w1 := snd (insert_startup two_secondary_tiers (healthy empty_database 0)) in
  map (fun record => dict_get record "secondary_tiers") (fst (get_all_startups w1))
  = [PStr ("[" ++ quoted "Tier 2" ++ ", " ++ quoted "Tier 3" ++ "]")]
  /\ map (fun record => dict_get record "secondary_tiers") (fst (get_all_startups w1))
     <> [dict_get two_secondary_tiers "secondary_tiers"].
Proof. split; [reflexivity | discriminate]. Qed.

(** ** The content hash *)

Lemma lower_char_idempotent (c : ascii) : lower_char (lower_char c) = lower_char c.
Proof.
  destruct c as [b0 b1 b2 b3 b4 b5 b6 b7].
  destruct b0, b1, b2, b3, b4, b5, b6, b7; reflexivity.
Qed.

Lemma lower_idempotent (s : string) : lower (lower s) = lower s.
Proof.
  induction s as [|c s IH]; simpl; [reflexivity|].
  now rewrite lower_char_idempotent, IH.
Qed.

Lemma hex_of_bytes_length (l : list Z) :
  String.length (MD5.hex_of_bytes l) = (2 * List.length l)%nat.
Proof. induction l; simpl; [reflexivity | rewrite IHl; lia]. Qed.

Lemma hexdigest_length (msg : list Z) :
  String.length (MD5.hexdigest msg) = 32%nat.
Proof.
  unfold MD5.hexdigest, MD5.digest.
  destruct (fold_left MD5.process_block _ MD5.init_state) as [[[A B] C] D].
  rewrite hex_of_bytes_length. reflexivity.
Qed.

(** C1, as the code has it.  [generate_hash] is a function of the text
    [name.lower() + website.lower() + founded_date]: two triples with the
    same text have the same digest, so the case of the name and of the
    website does not matter, while the founded date enters as it is
    written.  The digest has 32 hexadecimal digits, and the two triples of
    the specification's example, which differ in the founded date only,
    have different digests. *)
Theorem content_hash_function_of_folded_text :
  (forall n1 w1 d1 n2 w2 d2 : string,
      (lower n1 ++ lower w1 ++ d1)%string = (lower n2 ++ lower w2 ++ d2)%string ->
      generate_hash n1 w1 d1 = generate_hash n2 w2 d2)
  /\ (forall n w d : string,
         generate_hash (lower n) (lower w) d = generate_hash n w d)
  /\ (forall n w d : string, String.length (generate_hash n w d) = 32%nat)
  /\ generate_hash "Acme" "https://acme.com" "2024-01-01"
     = "c68b1eb0461a0e643df1548aa38723ac"
  /\ generate_hash "Acme" "https://acme.com" "2024-01-02"
     = "af0d357322bf68b8c5cb69b169a7b967"
  /\ generate_hash "Acme" "https://acme.com" "2024-01-01"
     <> generate_hash "Acme" "https://acme.com" "2024-01-02".
Proof.
  split; [|split; [|split; [|split; [|split]]]].
  - intros n1 w1 d1 n2 w2 d2 H. unfold generate_hash. now rewrite H.
  - intros n w d. unfold generate_hash. now rewrite !lower_idempotent.
  - intros n w d. apply hexdigest_length.
  - vm_compute. reflexivity.
  - vm_compute. reflexivity.
  - vm_compute. discriminate.
Qed.

(** Case of name and website, and where the name ends, do not matter. *)
Lemma content_hash_function_of_folded_text_witness :
  generate_hash "ACME" "HTTPS://Acme.com" "2024-01-01"
  = generate_hash "acme" "https://acme.com" "2024-01-01"
  /\ generate_hash "ab" "c" "2024" = generate_hash "a" "bc" "2024".
Proof.
  split; apply (proj1 content_hash_function_of_folded_text); reflexivity.
Defined.

(** The digest is not a function of the case-folded concatenation of the
    three fields (the date is not folded), and a different founded date
    does not always give a different digest. *)
Lemma content_hash_not_folded_nor_injective :
  (lower ("Acme" ++ "https://acme.com" ++ "2024-01-01T00:00:00Z")
   = lower ("Acme" ++ "https://acme.com" ++ "2024-01-01t00:00:00z")
   /\ generate_hash "Acme" "https://acme.com" "2024-01-01T00:00:00Z"
      <> generate_hash "Acme" "https://acme.com" "2024-01-01t00:00:00z")
  /\ (colliding_date_1 <> colliding_date_2
      /\ generate_hash "" "" colliding_date_1
         = generate_hash "" "" colliding_date_2).
Proof.
  split; split.
  - reflexivity.
  - vm_compute. discriminate.
  - discriminate.
  - vm_compute. reflexivity.
Qed.

(** What [_process_and_save_results] stores under ['hash'] is the
    interpreter's [hash] of the name: the website and the founded date do
    not enter. *)
Lemma persisted_hash_is_builtin_hash_of_name
      (bh : pyval -> Z) (ti fi : annot) (startup sd : pydict) :
  candidate bh ti fi (PDict startup) = Ok (Some sd) ->
  dict_get sd "hash"
  = PInt (bh (py_or (dict_get startup "name") (dict_get startup "startup_name"))).
Proof.
  unfold candidate, merge_startup, py_hash.
  destruct (truthy _); [|discriminate].
  destruct (hashable _); [|discriminate].
  intros H. injection H as <-.
  destruct (annot_find ti _), (annot_find fi _),
    (dict_has startup "primary_tier"), (dict_has startup "india_fit_score");
    dict_simp; reflexivity.
Qed.

(** ** The sequence matcher *)

Module DifflibFacts.
Import Difflib MatcherSpec.
Local Open Scope nat_scope.

Lemma same_at_eq {A : Type} (eqb : A -> A -> bool) (a b : list A)
      (x x' y y' : nat) :
  x' = x -> y' = y ->
  Difflib.same_at eqb a b x' y' = true -> Difflib.same_at eqb a b x y = true.
Proof. intros -> ->. auto. Qed.

(** Close a goal [same_at x y = true] with a hypothesis about equal
    indices written differently. *)
Ltac same_at_by H :=
  refine (same_at_eq _ _ _ _ _ _ _ _ _ H); lia.

Section Facts.

Context {A : Type} (eqb : A -> A -> bool).
Hypothesis eqb_spec : forall x y : A, eqb x y = true <-> x = y.

(** *** [b2j] lists positions of the element *)

Lemma indices_from_spec (x : A) (l : list A) :
  forall (i0 j : nat),
    In j (indices_from eqb x l i0) <->
    i0 <= j /\ nth_error l (j - i0) = Some x.
Proof.
  induction l as [|y r IH]; intros i0 j; simpl.
  - split; [tauto|]. intros [_ H]. destruct (j - i0); discriminate.
  - destruct (eqb y x) eqn:E.
    + apply eqb_spec in E. subst y. simpl. rewrite IH. split.
      * intros [<-|[Hle Hn]].
        -- split; [lia|]. now rewrite Nat.sub_diag.
        -- split; [lia|]. replace (j - i0) with (S (j - S i0)) by lia. exact Hn.
      * intros [Hle Hn]. destruct (Nat.eq_dec i0 j) as [->|Hne]; [now left|].
        right. split; [lia|].
        replace (j - i0) with (S (j - S i0)) in Hn by lia. exact Hn.
    + rewrite IH. split.
      * intros [Hle Hn]. split; [lia|].
        replace (j - i0) with (S (j - S i0)) by lia. exact Hn.
      * intros [Hle Hn]. destruct (Nat.eq_dec i0 j) as [->|Hne].
        -- rewrite Nat.sub_diag in Hn. simpl in Hn. injection Hn as ->.
           assert (eqb x x = true) by now apply eqb_spec. congruence.
        -- split; [lia|].
           replace (j - i0) with (S (j - S i0)) in Hn by lia. exact Hn.
Qed.

Lemma indices_from_sorted (x : A) (l : list A) :
  forall i0, StronglySorted lt (indices_from eqb x l i0).
Proof.
  induction l as [|y r IH]; intros i0; simpl; [constructor|].
  destruct (eqb y x); [|apply IH].
  constructor; [apply IH|].
  apply Forall_forall. intros j Hj. apply indices_from_spec in Hj. lia.
Qed.

Lemma b2j_spec (b : list A) (x : A) (j : nat) :
  In j (b2j eqb b x) -> nth_error b j = Some x.
Proof.
  unfold b2j. destruct (popular eqb b x); [intros []|].
  intros H. apply indices_from_spec in H. now rewrite Nat.sub_0_r in H.
Qed.

Variables a b : list A.

Local Abbreviation same_at := (Difflib.same_at eqb a b).
Local Abbreviation matches := (MatcherSpec.matches eqb a b).
Local Abbreviation settled := (MatcherSpec.settled eqb a b).

Lemma same_at_true (i j : nat) :
  same_at i j = true <->
  exists x, nth_error a i = Some x /\ nth_error b j = Some x.
Proof.
  unfold Difflib.same_at.
  destruct (nth_error a i) as [x|], (nth_error b j) as [y|]; split;
    try discriminate; try (intros (z & H1 & H2); discriminate).
  - intros H. apply eqb_spec in H. subst. eauto.
  - intros (z & H1 & H2). injection H1 as ->. injection H2 as ->.
    now apply eqb_spec.
Qed.

Section WindowFacts.
Variables alo ahi blo bhi : nat.

Local Abbreviation good_block := (MatcherSpec.good_block eqb a b alo ahi blo bhi).
Local Abbreviation entry_ok := (MatcherSpec.entry_ok eqb a b alo blo bhi).

Lemma j2len_find_cases (l : list (nat * nat)) (j : nat) :
  j2len_find l j = 0 \/ In (j, j2len_find l j) l.
Proof.
  induction l as [|[j' k] r IH]; simpl; [now left|].
  destruct (j' =? j) eqn:E.
  - apply Nat.eqb_eq in E. subst. right. now left.
  - destruct IH; [now left | right; now right].
Qed.

Lemma new_entry_ok (i j : nat) (j2len : list (nat * nat)) :
  Forall (entry_ok i) j2len ->
  alo <= i -> blo <= j -> j < bhi ->
  same_at i j = true ->
  entry_ok (S i) (j, j2len_get_pred j2len j + 1).
Proof.
  intros Hall Hi Hj Hjhi Hsame.
  unfold j2len_get_pred.
  assert (Hk : match j with 0 => 0 | S j' => j2len_find j2len j' end = 0
               \/ exists j', j = S j'
                    /\ entry_ok i (j', match j with 0 => 0 | S j' => j2len_find j2len j' end)).
  { destruct j as [|j']; [now left|].
    destruct (j2len_find_cases j2len j') as [H|H]; [now left|].
    right. exists j'. split; auto.
    rewrite Forall_forall in Hall. now apply Hall. }
  destruct Hk as [-> | (j' & -> & Hok)].
  - simpl. repeat split; try lia.
    intros t Ht. assert (t = 0) by lia. subst t. same_at_by Hsame.
  - set (kp := j2len_find j2len j') in *.
    destruct Hok as (H1 & H2 & H3 & H4 & Hm).
    repeat split; try lia.
    intros t Ht.
    destruct (Nat.eq_dec t kp) as [->|Hne].
    + same_at_by Hsame.
    + specialize (Hm t ltac:(lia)). same_at_by Hm.
Qed.

Lemma entry_gives_block (i j k : nat) :
  entry_ok (S i) (j, k) -> i < ahi -> good_block (i + 1 - k, j + 1 - k, k).
Proof.
  intros (H1 & H2 & H3 & H4 & Hm) Hi. unfold MatcherSpec.good_block.
  repeat split; try lia.
  intros t Ht. specialize (Hm t Ht). same_at_by Hm.
Qed.

Lemma inner_loop_good (i : nat) (j2len : list (nat * nat)) :
  Forall (entry_ok i) j2len ->
  alo <= i -> i < ahi ->
  forall (js : list nat) (newj2len : list (nat * nat)) (best : block),
    (forall j, In j js -> same_at i j = true) ->
    Forall (entry_ok (S i)) newj2len ->
    good_block best ->
    Forall (entry_ok (S i)) (fst (inner_loop blo bhi js i j2len newj2len best))
    /\ good_block (snd (inner_loop blo bhi js i j2len newj2len best)).
Proof.
  intros Hprev Hlo Hhi.
  induction js as [|j js IH]; intros new best Hjs Hnew Hbest; simpl; [auto|].
  destruct (j <? blo) eqn:E1; [apply IH; auto; intros; apply Hjs; now right|].
  destruct (bhi <=? j) eqn:E2; [simpl; auto|].
  apply Nat.ltb_ge in E1. apply Nat.leb_gt in E2.
  destruct best as [[bi bj] bk].
  assert (Hent : entry_ok (S i) (j, j2len_get_pred j2len j + 1)).
  { apply new_entry_ok; auto. apply Hjs. now left. }
  apply IH.
  - intros; apply Hjs; now right.
  - constructor; auto.
  - destruct (bk <? j2len_get_pred j2len j + 1); auto.
    now apply entry_gives_block.
Qed.

Lemma outer_loop_good :
  forall (n i : nat) (j2len : list (nat * nat)) (best : block),
    Forall (entry_ok i) j2len ->
    alo <= i -> i + n <= ahi ->
    good_block best ->
    good_block (outer_loop eqb a b blo bhi n i j2len best).
Proof.
  induction n as [|n IH]; intros i j2len best Hprev Hlo Hhi Hbest; simpl; auto.
  set (js := match nth_error a i with Some x => b2j eqb b x | None => [] end).
  assert (Hjs : forall j, In j js -> same_at i j = true).
  { intros j Hj. subst js. destruct (nth_error a i) as [x|] eqn:Ea; [|destruct Hj].
    apply same_at_true. exists x. split; auto. now apply b2j_spec. }
  destruct (inner_loop_good i j2len Hprev Hlo ltac:(lia) js [] best Hjs
              (Forall_nil _) Hbest) as [H1 H2].
  destruct (inner_loop blo bhi js i j2len [] best) as [new best'].
  simpl in H1, H2. apply IH; auto; lia.
Qed.

Lemma extend_down_good (junk : bool) :
  forall (fuel : nat) (best : block),
    good_block best ->
    good_block (extend_down eqb a b alo blo junk fuel best).
Proof.
  induction fuel as [|f IH]; intros [[bi bj] bk] Hb; simpl; auto.
  destruct ((alo <? bi) && (blo <? bj)
            && Bool.eqb (junk_at b (bj - 1)) junk
            && same_at (bi - 1) (bj - 1))%bool eqn:E; auto.
  apply andb_true_iff in E. destruct E as [E Hs].
  apply andb_true_iff in E. destruct E as [E _].
  apply andb_true_iff in E. destruct E as [E1 E2].
  apply Nat.ltb_lt in E1, E2.
  apply IH. destruct Hb as (H1 & H2 & H3 & H4 & Hm).
  repeat split; try lia.
  intros t Ht. destruct t as [|t].
  - same_at_by Hs.
  - specialize (Hm t ltac:(lia)). same_at_by Hm.
Qed.

Lemma extend_up_good (junk : bool) :
  forall (fuel : nat) (best : block),
    good_block best ->
    good_block (extend_up eqb a b ahi bhi junk fuel best).
Proof.
  induction fuel as [|f IH]; intros [[bi bj] bk] Hb; simpl; auto.
  destruct ((bi + bk <? ahi) && (bj + bk <? bhi)
            && Bool.eqb (junk_at b (bj + bk)) junk
            && same_at (bi + bk) (bj + bk))%bool eqn:E; auto.
  apply andb_true_iff in E. destruct E as [E Hs].
  apply andb_true_iff in E. destruct E as [E _].
  apply andb_true_iff in E. destruct E as [E1 E2].
  apply Nat.ltb_lt in E1, E2.
  apply IH. destruct Hb as (H1 & H2 & H3 & H4 & Hm).
  repeat split; try lia.
  intros t Ht. destruct (Nat.eq_dec t bk) as [->|Hne]; [same_at_by Hs|].
  apply Hm. lia.
Qed.

Lemma find_longest_match_good :
  alo <= ahi -> blo <= bhi ->
  good_block (find_longest_match eqb a b alo ahi blo bhi).
Proof.
  intros Ha Hb. unfold find_longest_match.
  apply extend_up_good, extend_down_good, extend_up_good, extend_down_good.
  apply outer_loop_good; auto; try lia.
  unfold MatcherSpec.good_block. repeat split; try lia. intros t Ht. lia.
Qed.
End WindowFacts.

(** *** The queue loop *)

Lemma sum_sizes_app (l1 l2 : list block) :
  sum_sizes (l1 ++ l2) = sum_sizes l1 + sum_sizes l2.
Proof. induction l1 as [|x l1 IH]; simpl; [reflexivity | rewrite IH; lia]. Qed.

(** The loop ends within its fuel; the sizes it collects never exceed
    the room there was; and if, starting from diagonal windows over
    sequences of length [n], they add up to all the room [N], then the
    two sequences agree at every position. *)
Lemma queue_loop_invariant (E : Prop) (N n : nat) :
  forall (fuel : nat) (q : list window) (bl : list block),
    Forall window_ok q ->
    total window_cost q <= fuel ->
    sum_sizes bl + total window_room q <= N ->
    (E -> sum_sizes bl + total window_room q = N ->
     Forall diagonal q /\ settled n q) ->
    exists bl',
      queue_loop eqb a b fuel q bl = Some bl'
      /\ sum_sizes bl' <= N
      /\ (E -> sum_sizes bl' = N -> forall p, p < n -> same_at p p = true).
Proof.
  induction fuel as [|f IH]; intros q bl Hok Hcost Hroom Heq.
  - destruct q as [|[[[alo ahi] blo] bhi] q']; [|simpl in Hcost; lia].
    simpl. exists bl. simpl in Hroom, Heq. split; [reflexivity|].
    split; [lia|]. intros HE Hs p Hp.
    destruct (Heq HE ltac:(lia)) as [_ Hset].
    destruct (Hset p Hp) as [H|(w & [] & _)]. exact H.
  - destruct q as [|[[[alo ahi] blo] bhi] q'].
    + simpl. exists bl. simpl in Hroom, Heq. split; [reflexivity|].
      split; [lia|]. intros HE Hs p Hp.
      destruct (Heq HE ltac:(lia)) as [_ Hset].
      destruct (Hset p Hp) as [H|(w & [] & _)]. exact H.
    + inversion Hok as [|w0 q0 Hw Hok']. subst.
      simpl in Hw. destruct Hw as [Hwa Hwb].
      pose proof (find_longest_match_good alo ahi blo bhi Hwa Hwb) as Hgood.
      cbn [queue_loop].
      destruct (find_longest_match eqb a b alo ahi blo bhi) as [[i j] k].
      unfold MatcherSpec.good_block in Hgood.
      destruct Hgood as (G1 & G2 & G3 & G4 & Gm).
      simpl in Hcost, Hroom, Heq.
      destruct (k =? 0) eqn:Ek.
      * apply IH; auto; try lia.
        intros HE Hs.
        destruct (Heq HE ltac:(lia)) as [Hd Hset].
        inversion Hd as [|w0 q0 Hw Hd']. subst w0 q0.
        simpl in Hw. destruct Hw as [D1 D2].
        split; auto. intros p Hp.
        destruct (Hset p Hp) as [H|(w & [<-|Hin] & Hc)]; auto.
        -- simpl in Hc. lia.
        -- right. eauto.
      * apply Nat.eqb_neq in Ek.
        set (q1 := if ((alo <? i) && (blo <? j))%bool
                   then (alo, i, blo, j) :: q' else q').
        set (q2 := if ((i + k <? ahi) && (j + k <? bhi))%bool
                   then (i + k, ahi, j + k, bhi) :: q1 else q1).
        assert (Hok2 : Forall window_ok q2).
        { subst q2 q1.
          destruct ((alo <? i) && (blo <? j))%bool eqn:EL;
            destruct ((i + k <? ahi) && (j + k <? bhi))%bool eqn:ER;
            repeat constructor; auto; try lia. }
        assert (Hcost2 : total window_cost q2 <= f).
        { subst q2 q1.
          destruct ((alo <? i) && (blo <? j))%bool eqn:EL;
            destruct ((i + k <? ahi) && (j + k <? bhi))%bool eqn:ER;
            simpl; lia. }
        assert (Hroom2 : total window_room q2
                         = Nat.min (i - alo) (j - blo)
                           + Nat.min (ahi - (i + k)) (bhi - (j + k))
                           + total window_room q').
        { subst q2 q1.
          destruct ((alo <? i) && (blo <? j))%bool eqn:EL;
            destruct ((i + k <? ahi) && (j + k <? bhi))%bool eqn:ER;
            simpl;
            try (apply andb_false_iff in EL;
                 destruct EL as [EL|EL]; apply Nat.ltb_ge in EL);
            try (apply andb_false_iff in ER;
                 destruct ER as [ER|ER]; apply Nat.ltb_ge in ER);
            lia. }
        apply IH; auto.
        -- rewrite sum_sizes_app, Hroom2. simpl. lia.
        -- intros HE Hs. rewrite sum_sizes_app, Hroom2 in Hs. simpl in Hs.
           destruct (Heq HE ltac:(lia)) as [Hd Hset].
           inversion Hd as [|w0 q0 Hw Hd']. subst w0 q0.
           simpl in Hw. destruct Hw as [D1 D2]. subst blo bhi.
           assert (Hij : i = j) by lia. subst j.
           split.
           ++ subst q2 q1.
              destruct ((alo <? i) && (alo <? i))%bool;
                destruct ((i + k <? ahi) && (i + k <? ahi))%bool;
                repeat constructor; auto.
           ++ intros p Hp.
              destruct (Hset p Hp) as [H|(w & [<-|Hin] & Hc)]; auto.
              ** simpl in Hc.
                 destruct (Nat.lt_ge_cases p i) as [Hpi|Hpi].
                 { right. exists (alo, i, alo, i). split; [|simpl; lia].
                   subst q2 q1.
                   assert (EL : ((alo <? i) && (alo <? i))%bool = true).
                   { apply andb_true_iff; split; apply Nat.ltb_lt; lia. }
                   rewrite EL.
                   destruct ((i + k <? ahi) && (i + k <? ahi))%bool;
                     simpl; auto. }
                 destruct (Nat.lt_ge_cases p (i + k)) as [Hpk|Hpk].
                 { left. specialize (Gm (p - i) ltac:(lia)). same_at_by Gm. }
                 right. exists (i + k, ahi, i + k, ahi). split; [|simpl; lia].
                 subst q2.
                 assert (ER : ((i + k <? ahi) && (i + k <? ahi))%bool = true).
                 { apply andb_true_iff; split; apply Nat.ltb_lt; lia. }
                 rewrite ER. now left.
              ** right. exists w. split; auto.
                 subst q2 q1.
                 destruct ((alo <? i) && (alo <? i))%bool;
                   destruct ((i + k <? ahi) && (i + k <? ahi))%bool;
                   simpl; auto.
Qed.

(** *** Sorting and collapsing keep the number of matches *)

Lemma block_insert_perm (x : block) (l : list block) :
  Permutation (block_insert x l) (x :: l).
Proof.
  induction l as [|y r IH]; simpl; auto.
  destruct (block_leb x y); auto.
  eapply perm_trans; [apply perm_skip, IH | apply perm_swap].
Qed.

Lemma block_sort_perm (l : list block) : Permutation (block_sort l) l.
Proof.
  induction l as [|x r IH]; simpl; auto.
  eapply perm_trans; [apply block_insert_perm | now apply perm_skip].
Qed.

Lemma sum_sizes_perm (l l' : list block) :
  Permutation l l' -> sum_sizes l = sum_sizes l'.
Proof. induction 1; simpl; lia. Qed.

Lemma collapse_sum (blocks : list block) :
  forall (cur : block) (non_adjacent : list block),
    sum_sizes (collapse blocks cur non_adjacent)
    = sum_sizes non_adjacent + snd cur + sum_sizes blocks.
Proof.
  induction blocks as [|[[i2 j2] k2] rest IH]; intros [[i1 j1] k1] acc; simpl.
  - destruct (k1 =? 0) eqn:E.
    + apply Nat.eqb_eq in E. lia.
    + rewrite sum_sizes_app. simpl. lia.
  - destruct ((i1 + k1 =? i2) && (j1 + k1 =? j2))%bool.
    + rewrite IH. simpl. lia.
    + rewrite IH. destruct (k1 =? 0) eqn:E.
      * apply Nat.eqb_eq in E. simpl. lia.
      * rewrite sum_sizes_app. simpl. lia.
Qed.

(** *** [get_matching_blocks] and [ratio] *)

Local Abbreviation la := (List.length a).
Local Abbreviation lb := (List.length b).

Lemma get_matching_blocks_sum :
  exists blocks,
    get_matching_blocks eqb a b = Some blocks
    /\ sum_sizes blocks <= Nat.min la lb
    /\ (la = lb -> sum_sizes blocks = la ->
        forall p, p < la -> same_at p p = true).
Proof.
  unfold get_matching_blocks.
  destruct (queue_loop_invariant (la = lb) (Nat.min la lb) la
              (2 * la + 1) [(0, la, 0, lb)] [])
    as (bl & Hrun & Hle & Heq).
  - repeat constructor; lia.
  - simpl. lia.
  - simpl. lia.
  - intros Hlen _. split.
    + repeat constructor; auto.
    + intros p Hp. right. exists (0, la, 0, lb). split; [now left | simpl; lia].
  - rewrite Hrun. eexists. split; [reflexivity|].
    rewrite sum_sizes_app, collapse_sum, (sum_sizes_perm _ _ (block_sort_perm bl)).
    simpl. split; [lia|].
    intros Hlen Hs. apply Heq; auto. rewrite <- Hlen, Nat.min_id. lia.
Qed.

Lemma nth_error_agree (l1 l2 : list A) :
  List.length l1 = List.length l2 ->
  (forall p, p < List.length l1 -> nth_error l1 p = nth_error l2 p) ->
  l1 = l2.
Proof.
  revert l2. induction l1 as [|x r IH]; intros [|y r2] Hlen Hn;
    simpl in Hlen; try discriminate; auto.
  f_equal.
  - specialize (Hn 0 ltac:(simpl; lia)). simpl in Hn. congruence.
  - apply IH; [lia|]. intros p Hp. apply (Hn (S p)). simpl. lia.
Qed.

(** The matcher returns; its ratio lies between 0 and 1; and a ratio of
    1 means the two sequences are the same sequence. *)
Lemma ratio_range :
  exists r,
    ratio eqb a b = Some r
    /\ (0 <= r)%Q /\ (r <= 1)%Q
    /\ (r == 1 -> a = b)%Q.
Proof.
  unfold ratio.
  destruct get_matching_blocks_sum as (blocks & -> & Hle & Heq).
  eexists. split; [reflexivity|].
  unfold calculate_ratio.
  destruct (la + lb =? 0) eqn:E.
  - apply Nat.eqb_eq in E. repeat split; try (unfold Qle; simpl; lia).
    intros _.
    destruct a, b; simpl in E; try lia. reflexivity.
  - apply Nat.eqb_neq in E.
    assert (Hpos : Z.pos (Pos.of_nat (la + lb)) = Z.of_nat (la + lb)).
    { rewrite <- (Nat2Pos.id (la + lb)) at 2 by lia.
      now rewrite positive_nat_Z. }
    repeat split.
    + unfold Qle. cbn [Qnum Qden]. lia.
    + unfold Qle. cbn [Qnum Qden]. rewrite Hpos. lia.
    + unfold Qeq. cbn [Qnum Qden]. rewrite Hpos. intros H.
      assert (Hlen : la = lb) by lia.
      assert (Hs : sum_sizes blocks = la) by lia.
      apply nth_error_agree; [exact Hlen|].
      intros p Hp. specialize (Heq Hlen Hs p Hp).
      apply same_at_true in Heq. destruct Heq as (x & -> & ->). reflexivity.
Qed.

End Facts.

(** *** A sequence against itself *)

Section SelfMatch.

Context {A : Type} (eqb : A -> A -> bool).
Hypothesis eqb_spec : forall x y : A, eqb x y = true <-> x = y.
Variable s : list A.

Local Abbreviation N := (List.length s).
Local Abbreviation run := (MatcherSpec.run eqb s).
Local Abbreviation run_before := (MatcherSpec.run_before eqb s).
Local Abbreviation row_ok := (MatcherSpec.row_ok eqb s).
Local Abbreviation best_ok := (MatcherSpec.best_ok eqb s).

Lemma run_plain (p : nat) (x : A) :
  nth_error s p = Some x -> popular eqb s x = false ->
  run p = S (run_before p).
Proof. intros H1 H2. destruct p; cbn [MatcherSpec.run MatcherSpec.run_before]; now rewrite H1, H2. Qed.

Lemma run_popular (p : nat) (x : A) :
  nth_error s p = Some x -> popular eqb s x = true -> run p = 0.
Proof. intros H1 H2. destruct p; cbn [MatcherSpec.run]; now rewrite H1, H2. Qed.

Lemma inner_loop_self (i : nat) (x : A) (j2len : list (nat * nat)) :
  nth_error s i = Some x ->
  popular eqb s x = false ->
  row_ok i j2len ->
  forall (js : list nat) (newj2len : list (nat * nat)) (best : block),
    StronglySorted lt js ->
    (forall j, In j js -> nth_error s j = Some x) ->
    (forall j, j2len_find newj2len j <= run j /\ j2len_find newj2len j <= run i) ->
    (In i js \/ (j2len_find newj2len i = run i /\ run i <= size_of best)) ->
    best_ok i best ->
    let r := inner_loop 0 N js i j2len newj2len best in
    (forall j, j2len_find (fst r) j <= run j /\ j2len_find (fst r) j <= run i)
    /\ j2len_find (fst r) i = run i
    /\ best_ok (S i) (snd r).
Proof.
  intros Hx Hpop (R1 & R2 & R3).
  induction js as [|j js IH]; intros new best Hsort Hjs Hnew Hi Hbest.
  - simpl. destruct Hi as [[]|[Hf Hr]]. split; auto. split; auto.
    destruct Hbest as [Hd Hb]. split; auto.
    intros p Hp. destruct (Nat.eq_dec p i) as [->|]; [auto | apply Hb; lia].
  - cbn [inner_loop].
    assert (Hj : nth_error s j = Some x) by (apply Hjs; now left).
    assert (HjN : j < N) by (apply nth_error_Some; congruence).
    change (j <? 0) with false. cbv iota.
    destruct (N <=? j) eqn:E; [apply Nat.leb_le in E; lia|].
    destruct best as [[bi bj] bk].
    inversion Hsort as [|j0 js0 Hsort' Hall]. subst j0 js0.
    rewrite Forall_forall in Hall.
    set (k := j2len_get_pred j2len j + 1).
    assert (Hkj : k <= run j).
    { rewrite (run_plain j x Hj Hpop). specialize (R1 j). lia. }
    assert (Hki : k <= run i).
    { rewrite (run_plain i x Hx Hpop). specialize (R2 j). lia. }
    assert (Hnew' : forall j', j2len_find ((j, k) :: new) j' <= run j'
                               /\ j2len_find ((j, k) :: new) j' <= run i).
    { intros j'. simpl. destruct (j =? j') eqn:Ej; [|apply Hnew].
      apply Nat.eqb_eq in Ej. subst j'. auto. }
    destruct Hbest as [Hd Hb]. unfold on_diagonal, size_of in *. simpl in Hd, Hb.
    destruct (Nat.lt_trichotomy j i) as [Hlt|[->|Hgt]].
    + (* before the diagonal *)
      assert (Hno : (bk <? k) = false).
      { apply Nat.ltb_ge. specialize (Hb j Hlt). lia. }
      rewrite Hno. apply IH; auto.
      * intros; apply Hjs; now right.
      * destruct Hi as [[Heq|Hin]|[Hf Hr]]; [lia | now left |].
        right. simpl. destruct (j =? i) eqn:Ej.
        -- apply Nat.eqb_eq in Ej. lia.
        -- unfold size_of. simpl. auto.
      * split; auto.
    + (* on the diagonal *)
      assert (Hk : k = run i).
      { rewrite (run_plain i x Hx Hpop). subst k. rewrite R3. lia. }
      apply IH; auto.
      * intros; apply Hjs; now right.
      * right. simpl. rewrite Nat.eqb_refl. split; auto.
        destruct (bk <? k) eqn:E2; unfold size_of; simpl; [lia|].
        apply Nat.ltb_ge in E2. lia.
      * destruct (bk <? k) eqn:E2; split; unfold on_diagonal, size_of; simpl; auto.
        intros p Hp. specialize (Hb p Hp). apply Nat.ltb_lt in E2. lia.
    + (* after the diagonal *)
      assert (Hdone : j2len_find new i = run i /\ run i <= bk).
      { destruct Hi as [[Heq|Hin]|H]; [lia | | exact H].
        specialize (Hall i Hin). lia. }
      destruct Hdone as [Hf Hr].
      assert (Hno : (bk <? k) = false) by (apply Nat.ltb_ge; lia).
      rewrite Hno. apply IH; auto.
      * intros; apply Hjs; now right.
      * right. simpl. destruct (j =? i) eqn:Ej.
        -- apply Nat.eqb_eq in Ej. lia.
        -- auto.
      * split; auto.
Qed.

Lemma index_in_b2j (i : nat) (x : A) :
  nth_error s i = Some x -> popular eqb s x = false -> In i (b2j eqb s x).
Proof.
  intros Hx Hpop. unfold b2j. rewrite Hpop.
  apply (indices_from_spec eqb eqb_spec). split; [lia|]. now rewrite Nat.sub_0_r.
Qed.

Lemma outer_loop_self :
  forall (n i : nat) (j2len : list (nat * nat)) (best : block),
    i + n <= N ->
    row_ok i j2len ->
    best_ok i best ->
    on_diagonal (outer_loop eqb s s 0 N n i j2len best).
Proof.
  induction n as [|n IH]; intros i j2len best Hn Hrow Hbest.
  - simpl. apply Hbest.
  - cbn [outer_loop].
    destruct (nth_error s i) as [x|] eqn:Hx.
    2:{ apply nth_error_None in Hx. lia. }
    destruct (popular eqb s x) eqn:Hpop.
    + unfold b2j. rewrite Hpop. cbn [inner_loop].
      apply IH; [lia | |].
      * split; [|split].
        -- intros [|j]; simpl; lia.
        -- intros [|j]; simpl; lia.
        -- simpl. now rewrite (run_popular i x Hx Hpop).
      * destruct Hbest as [Hd Hb]. split; auto. intros p Hp.
        destruct (Nat.eq_dec p i) as [->|]; [|apply Hb; lia].
        rewrite (run_popular i x Hx Hpop). lia.
    + pose proof (inner_loop_self i x j2len Hx Hpop Hrow (b2j eqb s x) [] best)
        as Hinner.
      destruct Hinner as (H1 & H2 & H3).
      * unfold b2j. rewrite Hpop. now apply indices_from_sorted.
      * intros j Hj. now apply (b2j_spec eqb eqb_spec) in Hj.
      * intros j. simpl. lia.
      * left. now apply index_in_b2j.
      * exact Hbest.
      * destruct (inner_loop 0 N (b2j eqb s x) i j2len [] best) as [new best'].
        simpl in H1, H2, H3.
        apply IH; [lia | | exact H3].
        repeat split.
        -- intros [|j]; simpl; [lia | apply H1].
        -- intros [|j]; simpl; [lia | apply H1].
        -- simpl. exact H2.
Qed.

Lemma same_at_self (p : nat) : p < N -> same_at eqb s s p p = true.
Proof.
  intros Hp. unfold same_at.
  destruct (nth_error s p) as [x|] eqn:E.
  - now apply eqb_spec.
  - apply nth_error_None in E. lia.
Qed.

Lemma junk_at_false (j : nat) : junk_at s j = false.
Proof. unfold junk_at. now destruct (nth_error s j). Qed.

Lemma extend_down_self :
  forall (fuel d k : nat),
    d <= fuel -> d <= N ->
    extend_down eqb s s 0 0 false fuel (d, d, k) = (0, 0, k + d).
Proof.
  induction fuel as [|f IH]; intros d k Hf Hd.
  - assert (d = 0) by lia. subst. simpl. f_equal. lia.
  - cbn [extend_down]. destruct d as [|d].
    + simpl. f_equal. lia.
    + rewrite junk_at_false.
      replace (S d - 1) with d by lia.
      rewrite same_at_self by lia. simpl.
      rewrite IH by lia. f_equal. lia.
Qed.

Lemma extend_up_self :
  forall (fuel k : nat),
    k <= N -> N - k <= fuel ->
    extend_up eqb s s N N false fuel (0, 0, k) = (0, 0, N).
Proof.
  induction fuel as [|f IH]; intros k Hk Hf.
  - assert (k = N) by lia. subst. reflexivity.
  - cbn [extend_up]. simpl Nat.add.
    destruct (k <? N) eqn:E.
    + apply Nat.ltb_lt in E.
      rewrite junk_at_false, same_at_self by lia. simpl.
      apply IH; lia.
    + apply Nat.ltb_ge in E. simpl. f_equal. lia.
Qed.

Lemma extend_junk_stops (fuel : nat) (x : block) :
  extend_down eqb s s 0 0 true fuel x = x
  /\ extend_up eqb s s N N true fuel x = x.
Proof.
  destruct fuel as [|f]; [split; reflexivity|].
  destruct x as [[bi bj] bk]. cbn [extend_down extend_up].
  rewrite !junk_at_false. simpl Bool.eqb.
  rewrite !andb_false_r. simpl. split; reflexivity.
Qed.

(** The longest match of a sequence with itself is the whole of it. *)
Lemma find_longest_match_self :
  find_longest_match eqb s s 0 N 0 N = (0, 0, N).
Proof.
  unfold find_longest_match. rewrite Nat.sub_0_r.
  assert (Hdiag : on_diagonal (outer_loop eqb s s 0 N N 0 [] (0, 0, 0))).
  { apply outer_loop_self; [lia | |].
    - split; [|split].
      + intros [|j]; simpl; lia.
      + intros [|j]; simpl; lia.
      + reflexivity.
    - split; [reflexivity | intros; lia]. }
  pose proof (outer_loop_good eqb eqb_spec s s 0 N 0 N N 0 [] (0, 0, 0)) as Hgood.
  destruct (outer_loop eqb s s 0 N N 0 [] (0, 0, 0)) as [[d d'] k].
  unfold on_diagonal in Hdiag. simpl in Hdiag. subst d'.
  destruct Hgood as (_ & Hdk & _); try lia.
  { constructor. }
  { unfold MatcherSpec.good_block. repeat split; try lia. intros t Ht. lia. }
  cbn [fst].
  rewrite extend_down_self by lia.
  rewrite extend_up_self by lia.
  cbn [fst].
  rewrite (proj1 (extend_junk_stops _ _)).
  now rewrite (proj2 (extend_junk_stops _ _)).
Qed.

(** [ratio] of a sequence with itself is 1. *)
Lemma ratio_self :
  exists r, ratio eqb s s = Some r /\ (r == 1)%Q.
Proof.
  unfold ratio, get_matching_blocks.
  replace (2 * N + 1) with (S (2 * N)) by lia.
  cbn [queue_loop]. rewrite find_longest_match_self.
  destruct (N =? 0) eqn:E.
  - apply Nat.eqb_eq in E. rewrite E.
    destruct (2 * 0) ; simpl; eexists; split; try reflexivity.
  - apply Nat.eqb_neq in E.
    change (0 <? 0) with false. rewrite Nat.ltb_irrefl. cbn [andb].
    cbv iota.
    match goal with
    | |- context [queue_loop ?e ?x ?y ?f ?q ?bl] =>
        assert (Hq : queue_loop e x y f q bl = Some bl)
          by (destruct f; reflexivity);
        rewrite Hq
    end.
    eexists. split; [reflexivity|].
    rewrite sum_sizes_app, collapse_sum. simpl.
    unfold calculate_ratio.
    destruct (N + N =? 0) eqn:E2; [reflexivity|].
    apply Nat.eqb_neq in E2.
    unfold Qeq. cbn [Qnum Qden].
    assert (Hpos : Z.pos (Pos.of_nat (N + N)) = Z.of_nat (N + N)).
    { rewrite <- (Nat2Pos.id (N + N)) at 2 by lia.
      now rewrite positive_nat_Z. }
    rewrite Hpos. lia.
Qed.

End SelfMatch.
End DifflibFacts.

(** ** Similarity of names *)

Lemma list_ascii_of_string_inj (x y : string) :
  list_ascii_of_string x = list_ascii_of_string y -> x = y.
Proof.
  intros H. rewrite <- (string_of_list_ascii_of_string x),
    <- (string_of_list_ascii_of_string y). now rewrite H.
Qed.

(** C3, as the code has it.  The similarity of two names is defined for
    every pair, lies in the closed range from 0 to 1, and equals 1 exactly
    when the two names are identical after case folding; in particular
    the similarity of a name with itself is 1.  (It is not symmetric.) *)
Theorem similarity_range_and_identity :
  (forall a b : string,
      exists r,
        similarity a b = Some r
        /\ (0 <= r)%Q /\ (r <= 1)%Q
        /\ ((r == 1)%Q <-> lower a = lower b))
  /\ (forall s : string, exists r, similarity s s = Some r /\ (r == 1)%Q).
Proof.
  split.
  - intros a b. unfold similarity.
    destruct (DifflibFacts.ratio_range Ascii.eqb Ascii.eqb_eq
                (list_ascii_of_string (lower a)) (list_ascii_of_string (lower b)))
      as (r & Hr & H0 & H1 & Hid).
    exists r. repeat split; auto.
    + intros H. now apply list_ascii_of_string_inj, Hid.
    + intros H. rewrite H in Hr.
      destruct (DifflibFacts.ratio_self Ascii.eqb Ascii.eqb_eq
                  (list_ascii_of_string (lower b))) as (r' & Hr' & H1').
      congruence.
  - intros s. unfold similarity.
    apply (DifflibFacts.ratio_self Ascii.eqb Ascii.eqb_eq).
Qed.

(** Two spellings of one name. *)
Lemma similarity_range_and_identity_witness :
  exists r, similarity "ACME Labs" "acme labs" = Some r /\ (r == 1)%Q.
Proof.
  destruct (proj1 similarity_range_and_identity "ACME Labs" "acme labs")
    as (r & Hr & _ & _ & Hid).
  exists r. split; [exact Hr|]. apply Hid. reflexivity.
Defined.

(** The example of the Python documentation: the ratio depends on the
    order of the arguments. *)
Lemma similarity_not_symmetric :
  similarity "tide" "diet" = Some (2 # 8)
  /\ similarity "diet" "tide" = Some (4 # 8)
  /\ ~ (forall a b : string, similarity a b = similarity b a).
Proof.
  split; [vm_compute; reflexivity|].
  split; [vm_compute; reflexivity|].
  intros H. specialize (H "tide" "diet"). vm_compute in H. discriminate H.
Qed.

(** ** The duplicate check *)

(** The comparison [ratio >= 0.85] is made on binary64 numbers: [ratio]
    is the correctly rounded quotient of [2 * matches] by [length], and
    the constant is the double nearest to 0.85, which is
    7656119366529843 / 2^53.  Rounding to nearest sends a quotient to
    that double or above exactly when the quotient lies above the midpoint
    15312238733059685 / 2^54 between it and its predecessor.  For every
    length below 2^49 this is the same as comparing the exact quotient
    with 85/100. *)
Lemma binary64_threshold_agrees (matches length : Z) :
  (0 < length <= 2 ^ 49)%Z ->
  (85 * length <= 100 * (2 * matches)
   <-> 15312238733059685 * length < 2 * matches * 2 ^ 54)%Z.
Proof. intros H. lia. Qed.

(** In the same way the rounded quotient is 1.0 only when the exact
    quotient is 1: below 1 it is at most [1 - 1/length], which lies
    under the midpoint [1 - 2^-54] between 1.0 and its predecessor. *)
Lemma binary64_one_agrees (matches length : Z) :
  (0 < length < 2 ^ 54)%Z ->
  (2 * matches <= length)%Z ->
  (2 * matches = length
   <-> (2 ^ 54 - 1) * length <= 2 * matches * 2 ^ 54)%Z.
Proof. intros H1 H2. lia. Qed.

Lemma fuzzy_match_total (str1 str2 : string) (threshold : Q) :
  exists r,
    similarity str1 str2 = Some r
    /\ fuzzy_match str1 str2 threshold = Some (Qle_bool threshold r).
Proof.
  unfold fuzzy_match, similarity.
  destruct (DifflibFacts.ratio_range Ascii.eqb Ascii.eqb_eq
              (list_ascii_of_string (lower str1)) (list_ascii_of_string (lower str2)))
    as (r & Hr & _).
  exists r. split; auto. now rewrite Hr.
Qed.

(** C4.  Over reference records whose names are strings, [is_duplicate]
    returns, and it returns [True] exactly when some reference record has
    a name whose case-folded similarity with the candidate is at least the
    threshold 0.85; stopping at the first such record does not change the
    answer.  "TechStartup" against "Tech Startup" is a duplicate,
    "TechStartup" against "CompletelyDifferent" is not. *)
Theorem is_duplicate_iff_some_reference_matches :
  (forall (startup_name : string) (existing_startups : list pydict),
      (forall existing, In existing existing_startups ->
                        isinstance_str (dict_get_default existing "name" (PStr "")) = true) ->
      exists answer,
        is_duplicate startup_name existing_startups = Ok answer
        /\ (answer = true <->
            exists existing,
              In existing existing_startups
              /\ matches_reference startup_name existing))
  /\ fuzzy_match "TechStartup" "Tech Startup" DEDUPLICATION_THRESHOLD = Some true
  /\ fuzzy_match "TechStartup" "CompletelyDifferent" DEDUPLICATION_THRESHOLD
     = Some false
  /\ is_duplicate "TechStartup" [[("name", PStr "Tech Startup")]] = Ok true
  /\ is_duplicate "TechStartup" [[("name", PStr "CompletelyDifferent")]] = Ok false.
Proof.
  split; [|repeat split; vm_compute; reflexivity].
  intros name existing_startups.
  induction existing_startups as [|e rest IH]; intros Hstr.
  - exists false. split; [reflexivity|]. split; [discriminate|].
    intros (x & [] & _).
  - simpl.
    pose proof (Hstr e (or_introl eq_refl)) as He.
    destruct (dict_get_default e "name" (PStr "")) as [| | | |en| |] eqn:Ename;
      try discriminate He.
    destruct (fuzzy_match_total name en DEDUPLICATION_THRESHOLD) as (r & Hr & Hf).
    rewrite Hf.
    destruct (Qle_bool DEDUPLICATION_THRESHOLD r) eqn:Hle.
    + exists true. split; [reflexivity|]. split; [|reflexivity].
      intros _. exists e. split; [now left|].
      exists en, r. repeat split; auto. now apply Qle_bool_iff.
    + destruct IH as (answer & Hans & Hiff).
      { intros x Hx. apply Hstr. now right. }
      exists answer. split; [exact Hans|].
      rewrite Hiff. split.
      * intros (x & Hx & Hm). exists x. split; [now right | exact Hm].
      * intros (x & [<-|Hx] & Hm); [|exists x; auto].
        exfalso. destruct Hm as (en' & r' & Hn' & Hr' & Hle').
        rewrite Ename in Hn'. injection Hn' as <-.
        rewrite Hr in Hr'. injection Hr' as <-.
        apply Qle_bool_iff in Hle'. congruence.
Qed.

(** The reference list of the repository's own test. *)
Lemma is_duplicate_iff_some_reference_matches_witness :
  exists answer,
    is_duplicate "Tech Startup" two_references = Ok answer
    /\ (answer = true <->
        exists existing,
          In existing two_references /\ matches_reference "Tech Startup" existing).
Proof.
  apply (proj1 is_duplicate_iff_some_reference_matches).
  intros existing [<-|[<-|[]]]; reflexivity.
Defined.

(** ** The pipeline on a small result *)

(** Three discovered startups, tiers embedded, run through
    [_process_and_save_results] on an empty store. *)
Example pipeline_three_tiers :
  latest_counts
    (process_and_save_results toy_hash cpython_loads dumps_returns acme_ctx three_startups_json
       (healthy empty_database 0))
  = Some (PInt 2, PInt 1, PInt 0, PInt 3).
Proof. vm_compute. reflexivity. Qed.

(* ================================================================== *)
(** * Further properties of the store *)
(* ================================================================== *)

(** ** The constraints of the schema are kept *)

Lemma affinity_text_shape (v : sqlval) :
  is_null (affinity_text v) = true \/ is_text (affinity_text v) = true.
Proof. destruct v; simpl; auto. Qed.

Lemma sqlval_eqb_eq (x y : sqlval) : sqlval_eqb x y = true -> x = y.
Proof.
  destruct x, y; simpl; intros H; try discriminate; auto.
  - apply Z.eqb_eq in H. congruence.
  - apply String.eqb_eq in H. congruence.
  - apply String.eqb_eq in H. congruence.
Qed.

Lemma NoDup_snoc {X : Type} (l : list X) (x : X) :
  NoDup l -> ~ In x l -> NoDup (l ++ [x]).
Proof.
  intros Hl Hx. apply NoDup_app; auto.
  - constructor; [intros []|constructor].
  - intros y Hy [<-|[]]. contradiction.
Qed.

Lemma startups_conflict_false (name hash : sqlval) (rows : list startup_row) :
  startups_conflict name hash rows = false ->
  forall r, In r rows ->
    unique_conflict name (col_name r) = false
    /\ unique_conflict hash (col_hash r) = false.
Proof.
  unfold startups_conflict. intros H r Hin.
  destruct (unique_conflict name (col_name r)) eqn:E1.
  - assert (existsb (fun r => unique_conflict name (col_name r)
                              || unique_conflict hash (col_hash r))%bool rows = true).
    { apply existsb_exists. exists r. now rewrite E1. }
    congruence.
  - destruct (unique_conflict hash (col_hash r)) eqn:E2; auto.
    assert (existsb (fun r => unique_conflict name (col_name r)
                              || unique_conflict hash (col_hash r))%bool rows = true).
    { apply existsb_exists. exists r. rewrite E2. now rewrite orb_true_r. }
    congruence.
Qed.

Lemma unique_conflict_false_neq (v x : sqlval) :
  is_null v = false -> unique_conflict v x = false -> v <> x.
Proof.
  intros Hn Hc E. subst x. rewrite unique_conflict_self in Hc; congruence.
Qed.

Lemma stored_key_shape (sd : pydict) (k : string) (v : sqlval) :
  stored_key sd k = Ok v -> is_null v = true \/ is_text v = true.
Proof.
  unfold stored_key. intros H. bind_inv H. injection H as <-.
  apply affinity_text_shape.
Qed.

Lemma filter_app_snoc {X : Type} (f : X -> bool) (l : list X) (x : X) :
  filter f (l ++ [x]) = filter f l ++ (if f x then [x] else []).
Proof. rewrite filter_app. reflexivity. Qed.

Lemma insert_startup_row_store_ok (sd : pydict) (w : world) (d : database) :
  store_ok (db w) -> insert_startup_row sd w = Ok d -> store_ok d.
Proof.
  intros (Hn & Hnd & Hh & Hhd & Hid & Hidd & Hr) Hrow.
  apply insert_startup_row_ok in Hrow.
  destruct Hrow as (row & -> & Hkn & Hkh & Hnull & Hc & Hrid & _).
  pose proof (startups_conflict_false _ _ _ Hc) as Hcf.
  unfold store_ok. simpl.
  repeat rewrite map_app. simpl.
  split; [|split; [|split; [|split; [|split; [|split]]]]]; auto.
  - apply Forall_app. split; auto. constructor; [|constructor].
    destruct (stored_key_shape _ _ _ Hkn); congruence.
  - apply NoDup_snoc; auto. intros Hin.
    apply in_map_iff in Hin. destruct Hin as (r & Hr' & Hin).
    destruct (Hcf r Hin) as [H1 _].
    apply (unique_conflict_false_neq _ _ Hnull H1). auto.
  - apply Forall_app. split; auto. constructor; [|constructor].
    apply (stored_key_shape _ _ _ Hkh).
  - rewrite filter_app_snoc.
    destruct (is_null (col_hash row)) eqn:Hhn; simpl.
    + now rewrite app_nil_r.
    + apply NoDup_snoc; auto. intros Hin.
      apply filter_In in Hin. destruct Hin as [Hin _].
      apply in_map_iff in Hin. destruct Hin as (r & Hr' & Hin).
      destruct (Hcf r Hin) as [_ H2].
      apply (unique_conflict_false_neq _ _ Hhn H2). auto.
  - apply Forall_app. split.
    + eapply Forall_impl; [|exact Hid]. simpl. intros; lia.
    + constructor; [lia|constructor].
  - apply NoDup_snoc; auto. intros Hin.
    apply in_map_iff in Hin. destruct Hin as (r & Hr' & Hin).
    rewrite Forall_forall in Hid. specialize (Hid r Hin). lia.
Qed.

Lemma insert_startup_store_ok (sd : pydict) (w : world) :
  store_ok (db w) -> store_ok (db (snd (insert_startup sd w))).
Proof.
  intros Hok.
  destruct (insert_startup_db_cases sd w) as [[_ H]|[_ (d & Hrow & Hd)]].
  - now rewrite H.
  - rewrite Hd. eapply insert_startup_row_store_ok; [|exact Hrow].
    now rewrite (proj1 (get_db_connection_db w)).
Qed.

Lemma insert_run_metadata_db_cases (rd : pydict) (w : world) :
  (fst (insert_run_metadata rd w) = false
   /\ db (snd (insert_run_metadata rd w)) = db w)
  \/ (fst (insert_run_metadata rd w) = true
      /\ exists d, insert_run_row rd (snd (get_db_connection w)) = Ok d
                   /\ db (snd (insert_run_metadata rd w)) = d).
Proof.
  unfold insert_run_metadata.
  pose proof (get_db_connection_db w) as [Hdb Hnow].
  destruct (get_db_connection w) as [[[]|e] w1]; simpl in *; auto.
  destruct (insert_run_row rd w1) as [d|e] eqn:E; simpl; auto.
  right. split; auto. exists d. auto.
Qed.

Lemma insert_run_row_ok (rd : pydict) (w : world) (d : database) :
  insert_run_row rd w = Ok d ->
  exists row,
    d = mk_database (startups (db w)) (run_metadata (db w) ++ [row])
          (next_startup_id (db w)) (next_run_id (db w) + 1)
    /\ stored_key rd "run_id" = Ok (run_col_run_id row)
    /\ is_null (run_col_run_id row) = false
    /\ run_conflict (run_col_run_id row) (run_metadata (db w)) = false
    /\ run_col_id row = next_run_id (db w)
    /\ run_col_run_date row = now w
    /\ bind_param (dict_get_default rd "total_startups_found" (PInt 0))
       = Ok (run_col_total_startups_found row)
    /\ bind_param (dict_get_default rd "tier_1_count" (PInt 0))
       = Ok (run_col_tier_1_count row)
    /\ bind_param (dict_get_default rd "tier_2_count" (PInt 0))
       = Ok (run_col_tier_2_count row)
    /\ bind_param (dict_get_default rd "tier_3_count" (PInt 0))
       = Ok (run_col_tier_3_count row).
Proof.
  unfold insert_run_row. intros H.
  do 8 bind_inv H.
  destruct (is_null (affinity_text x)) eqn:Hnull; [discriminate|].
  destruct (run_conflict _ _) eqn:Hc; [discriminate|].
  injection H as <-. eexists. split; [reflexivity|]. simpl.
  unfold stored_key. rewrite Hx. simpl. repeat split; auto.
Qed.

Lemma run_conflict_false (v : sqlval) (rows : list run_row) :
  run_conflict v rows = false ->
  forall r, In r rows -> unique_conflict v (run_col_run_id r) = false.
Proof.
  unfold run_conflict. intros H r Hin.
  destruct (unique_conflict v (run_col_run_id r)) eqn:E; auto.
  assert (existsb (fun r => unique_conflict v (run_col_run_id r)) rows = true)
    by (apply existsb_exists; eauto).
  congruence.
Qed.

Lemma insert_run_row_store_ok (rd : pydict) (w : world) (d : database) :
  store_ok (db w) -> insert_run_row rd w = Ok d -> store_ok d.
Proof.
  intros (Hn & Hnd & Hh & Hhd & Hid & Hidd & Hrn & Hrnd & Hrid & Hridd) Hrow.
  apply insert_run_row_ok in Hrow.
  destruct Hrow as (row & -> & Hk & Hnull & Hc & Hnew & _).
  pose proof (run_conflict_false _ _ Hc) as Hcf.
  unfold store_ok. simpl. repeat rewrite map_app. simpl.
  repeat (split; auto).
  - apply Forall_app. split; auto. constructor; [|constructor].
    destruct (stored_key_shape _ _ _ Hk); congruence.
  - apply NoDup_snoc; auto. intros Hin.
    apply in_map_iff in Hin. destruct Hin as (r & Hr' & Hin).
    apply (unique_conflict_false_neq _ _ Hnull (Hcf r Hin)). auto.
  - apply Forall_app. split.
    + eapply Forall_impl; [|exact Hrid]. simpl. intros; lia.
    + constructor; [lia|constructor].
  - apply NoDup_snoc; auto. intros Hin.
    apply in_map_iff in Hin. destruct Hin as (r & Hr' & Hin).
    rewrite Forall_forall in Hrid. specialize (Hrid r Hin). lia.
Qed.

Lemma insert_run_metadata_store_ok (rd : pydict) (w : world) :
  store_ok (db w) -> store_ok (db (snd (insert_run_metadata rd w))).
Proof.
  intros Hok.
  destruct (insert_run_metadata_db_cases rd w) as [[_ H]|[_ (d & Hrow & Hd)]].
  - now rewrite H.
  - rewrite Hd. eapply insert_run_row_store_ok; [|exact Hrow].
    now rewrite (proj1 (get_db_connection_db w)).
Qed.

Lemma get_all_startups_db (w : world) :
  db (snd (get_all_startups w)) = db w.
Proof.
  unfold get_all_startups.
  pose proof (get_db_connection_db w) as [Hdb _].
  destruct (get_db_connection w) as [[[]|e] w1]; simpl in *; auto.
Qed.

Lemma init_database_db (w : world) : db (snd (init_database w)) = db w.
Proof.
  unfold init_database.
  pose proof (get_db_connection_db w) as [Hdb _].
  destruct (get_db_connection w) as [[[]|e] w1]; simpl in *; auto.
Qed.

Section PipelineInvariant.
Variable builtin_hash : pyval -> Z.
Variable json_loads : string -> outcome pyval.
Variable dumps_for_log : list pyval -> outcome unit.

Lemma insert_loop_store_ok (ti fi : annot) (l : list pyval) :
  forall (n : nat) (w : world),
    store_ok (db w) ->
    store_ok (db (snd (insert_loop builtin_hash ti fi l n w))).
Proof.
  induction l as [|x l IH]; intros n w Hok; simpl; auto.
  destruct (candidate builtin_hash ti fi x) as [[sd|]|e]; simpl; auto.
  pose proof (insert_startup_store_ok sd w Hok) as H1.
  destruct (insert_startup sd w) as [b w1]. simpl in H1. auto.
Qed.

Lemma aggregate_store_ok (ctx : run_context) (w : world) :
  store_ok (db w) -> store_ok (db (snd (aggregate ctx w))).
Proof.
  intros Hok. unfold aggregate.
  pose proof (get_all_startups_db w) as Hdb.
  destruct (get_all_startups w) as [all w1]. simpl in Hdb.
  apply insert_run_metadata_store_ok. now rewrite Hdb.
Qed.

Lemma process_and_save_results_store_ok (ctx : run_context) (text : string)
      (w : world) :
  store_ok (db w) ->
  store_ok (db (process_and_save_results builtin_hash json_loads dumps_for_log ctx text w)).
Proof.
  intros Hok. unfold process_and_save_results, process_and_save_results_body.
  destruct (parse_startup_data json_loads text) as [startups|e]; simpl; auto.
  destruct (log_parsed dumps_for_log startups) as [[]|e]; simpl; auto.
  destruct (extract_tier_info json_loads text) as [ti|e]; simpl; auto.
  destruct (extract_market_fit json_loads text) as [fi|e]; simpl; auto.
  pose proof (insert_loop_store_ok ti fi startups 0 w Hok) as H1.
  destruct (insert_loop _ _ _ _ _ _) as [[n|e] w1]; simpl in *; auto.
  pose proof (aggregate_store_ok ctx w1 H1) as H2.
  destruct (aggregate ctx w1) as [b w2]. simpl in *. auto.
Qed.

(** X1.  The constraints of the schema are an invariant of the store:
    if the stored names are text and pairwise distinct, the stored hashes
    are NULL or text and the non-NULL ones pairwise distinct, and the ids
    are distinct and below the next id to be given (and the same for the
    run summaries), then this is still so after [insert_startup], after
    [insert_run_metadata] and after a whole [run], whatever the record,
    the crew's result and the failures on the way. *)
Theorem schema_constraints_invariant :
  forall (sd rd : pydict) (ctx : run_context) (env : collaborators) (w : world),
    store_ok (db w) ->
    store_ok (db (snd (insert_startup sd w)))
    /\ store_ok (db (snd (insert_run_metadata rd w)))
    /\ store_ok (db (snd (run builtin_hash json_loads dumps_for_log ctx env w))).
Proof.
  intros sd rd ctx env w Hok.
  split; [now apply insert_startup_store_ok|].
  split; [now apply insert_run_metadata_store_ok|].
  unfold run.
  pose proof (init_database_db w) as Hdb.
  destruct (init_database w) as [[[]|e] w1]; simpl in *; [|now rewrite Hdb].
  destruct (setup_crew env); simpl; [|now rewrite Hdb].
  destruct (kickoff env) as [result|e]; simpl; [|now rewrite Hdb].
  assert (H2 : store_ok (db (process_and_save_results builtin_hash json_loads dumps_for_log ctx result w1)))
    by (apply process_and_save_results_store_ok; now rewrite Hdb).
  destruct (save_all_reports env); simpl; auto.
  unfold send_email_notification. destruct (email_enabled env); auto.
  now rewrite get_all_startups_db.
Qed.

End PipelineInvariant.

(** The run of the example, on an empty store. *)
Lemma schema_constraints_invariant_witness :
  store_ok (db (snd (run toy_hash cpython_loads dumps_returns acme_ctx acme_env (healthy empty_database 0)))).
Proof.
  refine (proj2 (proj2 (schema_constraints_invariant toy_hash cpython_loads dumps_returns acme_record []
                          acme_ctx acme_env (healthy empty_database 0) _))).
  unfold store_ok. simpl. repeat split; constructor.
Defined.

(** ** Nothing stored is removed or changed *)

Lemma extends_refl (d : database) : extends d d [] [].
Proof. unfold extends. now rewrite !app_nil_r. Qed.

Lemma extends_trans (d1 d2 d3 : database) n1 r1 n2 r2 :
  extends d1 d2 n1 r1 -> extends d2 d3 n2 r2 ->
  extends d1 d3 (n1 ++ n2) (r1 ++ r2).
Proof.
  intros [A B] [C D]. unfold extends. rewrite C, D, A, B.
  now rewrite !app_assoc.
Qed.

Lemma insert_startup_extends (sd : pydict) (w : world) :
  exists new,
    extends (db w) (db (snd (insert_startup sd w))) new []
    /\ List.length new = (if fst (insert_startup sd w) then 1 else 0)%nat.
Proof.
  destruct (insert_startup_db_cases sd w) as [[Hf H]|[Ht (d & Hrow & Hd)]].
  - exists []. rewrite Hf, H. split; [apply extends_refl | reflexivity].
  - apply insert_startup_row_ok in Hrow.
    destruct Hrow as (row & Hdeq & _).
    rewrite (proj1 (get_db_connection_db w)) in Hdeq.
    exists [row]. rewrite Ht, Hd, Hdeq. split; [|reflexivity].
    unfold extends. simpl. now rewrite app_nil_r.
Qed.

Lemma insert_run_metadata_extends (rd : pydict) (w : world) :
  exists runs,
    extends (db w) (db (snd (insert_run_metadata rd w))) [] runs
    /\ List.length runs = (if fst (insert_run_metadata rd w) then 1 else 0)%nat.
Proof.
  destruct (insert_run_metadata_db_cases rd w) as [[Hf H]|[Ht (d & Hrow & Hd)]].
  - exists []. rewrite Hf, H. split; [apply extends_refl | reflexivity].
  - apply insert_run_row_ok in Hrow.
    destruct Hrow as (row & Hdeq & _).
    rewrite (proj1 (get_db_connection_db w)) in Hdeq.
    exists [row]. rewrite Ht, Hd, Hdeq. split; [|reflexivity].
    unfold extends. simpl. now rewrite app_nil_r.
Qed.

Section AppendOnly.
Variable builtin_hash : pyval -> Z.
Variable json_loads : string -> outcome pyval.
Variable dumps_for_log : list pyval -> outcome unit.

Lemma candidate_some_is_dict (ti fi : annot) (x : pyval) (sd : pydict) :
  candidate builtin_hash ti fi x = Ok (Some sd) -> isinstance_dict x = true.
Proof. destruct x; simpl; try discriminate; auto. Qed.

Lemma insert_loop_extends (ti fi : annot) (l : list pyval) :
  forall (n : nat) (w : world),
  exists new,
    extends (db w) (db (snd (insert_loop builtin_hash ti fi l n w))) new []
    /\ (List.length new <= count_dicts l)%nat
    /\ (forall n', fst (insert_loop builtin_hash ti fi l n w) = Ok n' ->
                   n' = (n + List.length new)%nat).
Proof.
  unfold count_dicts.
  induction l as [|x l IH]; intros n w; simpl.
  - exists []. split; [apply extends_refl|]. split; [simpl; lia|].
    intros n' H. injection H as <-. simpl. lia.
  - destruct (candidate builtin_hash ti fi x) as [[sd|]|e] eqn:Hc; simpl.
    + rewrite (candidate_some_is_dict _ _ _ _ Hc). simpl.
      destruct (insert_startup_extends sd w) as (new1 & He1 & Hl1).
      destruct (insert_startup sd w) as [b w1]. simpl in He1, Hl1.
      destruct (IH (if b then S n else n) w1) as (new2 & He2 & Hl2 & Hn2).
      exists (new1 ++ new2). split.
      * replace (@nil run_row) with (@nil run_row ++ []) by reflexivity.
        eapply extends_trans; eauto.
      * rewrite length_app. split; [destruct b; lia|].
        intros n' H. apply Hn2 in H. destruct b; lia.
    + destruct (IH n w) as (new & He & Hl & Hn).
      exists new. split; auto. split; auto.
      destruct (isinstance_dict x); simpl; lia.
    + exists []. split; [apply extends_refl|]. split; [simpl; lia|]. discriminate.
Qed.

(** X2.  When the loop over the parsed elements ends without an
    exception, its count [inserted_count] is the number of rows the loop
    added to [startups]: the table is what it was, followed by that many
    new rows; [run_metadata] is untouched; and the count is at most the
    number of elements that are dictionaries. *)
Theorem inserted_count_is_rows_added :
  forall (ti fi : annot) (l : list pyval) (w w' : world) (inserted_count : nat),
    insert_loop builtin_hash ti fi l 0 w = (Ok inserted_count, w') ->
    exists new,
      startups (db w') = startups (db w) ++ new
      /\ run_metadata (db w') = run_metadata (db w)
      /\ inserted_count = List.length new
      /\ (inserted_count <= count_dicts l)%nat.
Proof.
  intros ti fi l w w' k H.
  destruct (insert_loop_extends ti fi l 0 w) as (new & [He1 He2] & Hl & Hn).
  rewrite H in *. simpl in *.
  exists new. rewrite app_nil_r in He2.
  pose proof (Hn k eq_refl) as Hk. simpl in Hk.
  repeat split; auto. lia.
Qed.

Lemma aggregate_extends (ctx : run_context) (w : world) :
  exists runs,
    extends (db w) (db (snd (aggregate ctx w))) [] runs
    /\ (List.length runs <= 1)%nat.
Proof.
  unfold aggregate.
  pose proof (get_all_startups_db w) as Hdb.
  destruct (get_all_startups w) as [all w1]. simpl in Hdb.
  destruct (insert_run_metadata_extends (run_data_of ctx all) w1) as (runs & He & Hl).
  exists runs. rewrite <- Hdb. split; auto.
  destruct (fst _); lia.
Qed.

Lemma process_and_save_results_extends (ctx : run_context) (text : string)
      (w : world) :
  exists new runs,
    extends (db w) (db (process_and_save_results builtin_hash json_loads dumps_for_log ctx text w)) new runs
    /\ (List.length new <= count_dicts (parsed_records json_loads text))%nat
    /\ (List.length runs <= 1)%nat.
Proof.
  unfold process_and_save_results, process_and_save_results_body, parsed_records.
  destruct (parse_startup_data json_loads text) as [parsed|e]; simpl;
    [|exists [], []; split; [apply extends_refl | simpl; lia]].
  destruct (log_parsed dumps_for_log parsed) as [[]|e]; simpl;
    [|exists [], []; split; [apply extends_refl | simpl; lia]].
  destruct (extract_tier_info json_loads text) as [ti|e]; simpl;
    [|exists [], []; split; [apply extends_refl | simpl; lia]].
  destruct (extract_market_fit json_loads text) as [fi|e]; simpl;
    [|exists [], []; split; [apply extends_refl | simpl; lia]].
  destruct (insert_loop_extends ti fi parsed 0 w)
    as (new & He & Hl & _).
  destruct (insert_loop _ _ _ _ _ _) as [[n|e] w1]; simpl in *.
  - destruct (aggregate_extends ctx w1) as (runs & He2 & Hl2).
    destruct (aggregate ctx w1) as [b w2]. simpl in *.
    exists new, runs. split; auto.
    replace new with (new ++ []) by apply app_nil_r.
    replace runs with ([] ++ runs) by reflexivity.
    eapply extends_trans; eauto.
  - exists new, []. split; auto.
Qed.

(** X3.  A run never removes or changes what is stored: after [run],
    whatever its outcome, [startups] is the table it found followed by
    new rows, at most one for each dictionary among the parsed elements
    of the crew's result, and [run_metadata] is the table it found
    followed by at most one summary.  If the crew raises, nothing is
    added. *)
Theorem run_only_appends :
  forall (ctx : run_context) (env : collaborators) (w : world),
  exists new runs,
    startups (db (snd (run builtin_hash json_loads dumps_for_log ctx env w))) = startups (db w) ++ new
    /\ run_metadata (db (snd (run builtin_hash json_loads dumps_for_log ctx env w)))
       = run_metadata (db w) ++ runs
    /\ (List.length runs <= 1)%nat
    /\ (forall result, kickoff env = Ok result ->
          (List.length new <= count_dicts (parsed_records json_loads result))%nat)
    /\ (forall e, kickoff env = Raise e -> new = [] /\ runs = []).
Proof.
  intros ctx env w. unfold run.
  pose proof (init_database_db w) as Hdb.
  assert (Hsame : forall w1 : world, db w1 = db w ->
            exists new runs,
              startups (db w1) = startups (db w) ++ new
              /\ run_metadata (db w1) = run_metadata (db w) ++ runs
              /\ (List.length runs <= 1)%nat
              /\ (forall result, kickoff env = Ok result ->
                   (List.length new <= count_dicts (parsed_records json_loads result))%nat)
              /\ (forall e, kickoff env = Raise e -> new = [] /\ runs = [])).
  { intros w1 ->. exists [], []. rewrite !app_nil_r. simpl.
    repeat split; auto; lia. }
  destruct (init_database w) as [[[]|e] w1]; simpl in *; auto.
  destruct (setup_crew env); simpl; auto.
  destruct (kickoff env) as [result|e] eqn:Hk; simpl; auto.
  destruct (process_and_save_results_extends ctx result w1)
    as (new & runs & [He1 He2] & Hl1 & Hl2).
  rewrite Hdb in He1, He2.
  assert (Hfin : db (snd (match save_all_reports env with
                          | Ok _ => (true, send_email_notification env
                                             (process_and_save_results builtin_hash json_loads dumps_for_log ctx result w1))
                          | Raise _ => (false, process_and_save_results builtin_hash json_loads dumps_for_log ctx result w1)
                          end))
                 = db (process_and_save_results builtin_hash json_loads dumps_for_log ctx result w1)).
  { destruct (save_all_reports env); simpl; auto.
    unfold send_email_notification. destruct (email_enabled env); auto.
    apply get_all_startups_db. }
  rewrite Hfin. exists new, runs. repeat split; auto.
  - intros r Hr. injection Hr as <-. exact Hl1.
  - discriminate.
  - discriminate.
Qed.

End AppendOnly.

(** The loop over the three startups of the example adds three rows. *)
Lemma inserted_count_is_rows_added_witness :
  exists new,
    startups (db (snd (insert_loop toy_hash [] []
                         (parsed_records cpython_loads three_startups_json) 0
                         (healthy empty_database 0))))
    = [] ++ new
    /\ 3%nat = List.length new.
Proof.
  destruct (inserted_count_is_rows_added toy_hash [] []
              (parsed_records cpython_loads three_startups_json)
              (healthy empty_database 0)
              (snd (insert_loop toy_hash [] []
                      (parsed_records cpython_loads three_startups_json) 0
                      (healthy empty_database 0)))
              3%nat) as (new & H1 & _ & H3 & _).
  - vm_compute. reflexivity.
  - exists new. split; [exact H1 | exact H3].
Defined.

(** The run of the example adds rows to the empty store, nothing more. *)
Lemma run_only_appends_witness :
  exists new runs,
    startups (db (snd (run toy_hash cpython_loads dumps_returns acme_ctx acme_env (healthy empty_database 0))))
    = [] ++ new
    /\ run_metadata (db (snd (run toy_hash cpython_loads dumps_returns acme_ctx acme_env (healthy empty_database 0))))
       = [] ++ runs
    /\ (List.length runs <= 1)%nat.
Proof.
  destruct (run_only_appends toy_hash cpython_loads dumps_returns acme_ctx acme_env (healthy empty_database 0))
    as (new & runs & H1 & H2 & H3 & _).
  exists new, runs. split; [exact H1|]. split; [exact H2 | exact H3].
Defined.

(** ** What the store refuses, and what it gives back *)

Lemma insert_startup_row_columns (sd : pydict) (w : world) (d : database) :
  insert_startup_row sd w = Ok d ->
  exists row,
    d = mk_database (startups (db w) ++ [row]) (run_metadata (db w))
          (next_startup_id (db w) + 1) (next_run_id (db w))
    /\ col_id row = next_startup_id (db w)
    /\ col_created_at row = now w
    /\ col_updated_at row = now w
    /\ bind_param (dict_get_default sd "india_fit_score" (PInt 0))
       = Ok (col_india_fit_score row)
    /\ (forall k, In k text_columns ->
          exists v, stored_key sd k = Ok v
                    /\ dict_get (row_to_dict row) k = sql_to_py v)
    /\ (exists v,
          bind_param (if isinstance_list (dict_get sd "secondary_tiers")
                      then PStr (PyJson.dumps (dict_get sd "secondary_tiers"))
                      else dict_get sd "secondary_tiers") = Ok v).
Proof.
  unfold insert_startup_row. intros H.
  do 13 bind_inv H.
  destruct (is_null (affinity_text x)) eqn:Hnull; [discriminate|].
  destruct (startups_conflict _ _ _) eqn:Hc; [discriminate|].
  injection H as <-. eexists. split; [reflexivity|]. simpl.
  repeat (split; auto).
  - intros k Hk. unfold text_columns in Hk. unfold stored_key.
    repeat (destruct Hk as [<-|Hk];
            [match goal with
             | Hb : bind_param (dict_get sd ?key) = Ok ?v
               |- context [dict_get sd ?key] =>
                 rewrite Hb; exists (affinity_text v); split; reflexivity
             end|]).
    destruct Hk.
  - eauto.
Qed.

Lemma stored_key_raise (sd : pydict) (k : string) (e : exn) :
  bind_param (dict_get sd k) = Raise e -> stored_key sd k = Raise e.
Proof. unfold stored_key. now intros ->. Qed.

Lemma insert_startup_rejects (sd : pydict) (w : world) :
  (forall d, insert_startup_row sd (snd (get_db_connection w)) <> Ok d) ->
  fst (insert_startup sd w) = false /\ db (snd (insert_startup sd w)) = db w.
Proof.
  intros H.
  destruct (insert_startup_db_cases sd w) as [Hf|[_ (d & Hrow & _)]]; auto.
  now apply H in Hrow.
Qed.

(** X4.  [insert_startup] returns [False] and leaves the store as it
    was for a record that has no name (the key is missing or [None]),
    for a record one of whose fields cannot be bound as a parameter (a
    list or a dictionary anywhere but under ['secondary_tiers'], an
    integer outside 64 bits), and for a record whose ['secondary_tiers']
    is a dictionary: only a list is serialised. *)
Theorem unstorable_records_rejected :
  forall (sd : pydict) (w : world),
    dict_get sd "name" = PNone
    \/ (exists k e, In k text_columns /\ bind_param (dict_get sd k) = Raise e)
    \/ (exists e, bind_param (dict_get_default sd "india_fit_score" (PInt 0)) = Raise e)
    \/ isinstance_dict (dict_get sd "secondary_tiers") = true ->
    fst (insert_startup sd w) = false
    /\ db (snd (insert_startup sd w)) = db w.
Proof.
  intros sd w H. apply insert_startup_rejects. intros d Hrow.
  pose proof Hrow as Hrow'.
  apply insert_startup_row_columns in Hrow.
  destruct Hrow as (row & _ & _ & _ & _ & Hscore & Hcols & (vs & Hsec)).
  destruct H as [Hnone|[(k & e & Hk & He)|[(e & He)|Hd]]].
  - apply insert_startup_row_ok in Hrow'.
    destruct Hrow' as (row' & _ & Hn & _ & Hnn & _).
    unfold stored_key in Hn. rewrite Hnone in Hn. simpl in Hn.
    injection Hn as Hn. rewrite <- Hn in Hnn. discriminate.
  - destruct (Hcols k Hk) as (v & Hv & _).
    rewrite (stored_key_raise _ _ _ He) in Hv. discriminate.
  - congruence.
  - destruct (dict_get sd "secondary_tiers"); simpl in Hd, Hsec; discriminate.
Qed.

(** A record with a description and no name. *)
Lemma unstorable_records_rejected_witness :
  fst (insert_startup nameless_record (healthy empty_database 0)) = false
  /\ db (snd (insert_startup nameless_record (healthy empty_database 0)))
     = empty_database.
Proof.
  apply (unstorable_records_rejected nameless_record (healthy empty_database 0)).
  left. reflexivity.
Defined.

Lemma connects_cases (w : world) :
  connects w ->
  exists w1, get_db_connection w = (Ok tt, w1) /\ db w1 = db w /\ now w1 = now w.
Proof.
  intros Hc.
  pose proof (get_db_connection_ok w Hc) as Hok.
  pose proof (get_db_connection_db w) as [Hdb Hnow].
  destruct (get_db_connection w) as [[[]|e] w1]; simpl in *; try discriminate.
  eauto.
Qed.

(** X5.  A record that [insert_startup] accepted is found again by
    [get_all_startups]: the list has one record more than the table had
    rows, every row stored before is still in it, and the new record has
    the next id, the time of the insert as [created_at], and, for each
    text column, the value that was given if that was a string or
    [None].  An integer given for a text column comes back as its
    decimal text. *)
Theorem stored_record_reads_back :
  forall (sd : pydict) (w w' : world),
    insert_startup sd w = (true, w') ->
    connects w' ->
    exists record,
      In record (fst (get_all_startups w'))
      /\ dict_get record "id" = PInt (next_startup_id (db w))
      /\ dict_get record "created_at" = PInt (now w)
      /\ (forall k s, In k text_columns ->
            dict_get sd k = PStr s -> dict_get record k = PStr s)
      /\ (forall k, In k text_columns ->
            dict_get sd k = PNone -> dict_get record k = PNone)
      /\ (forall k n, In k text_columns ->
            dict_get sd k = PInt n -> dict_get record k = PStr (Z_to_string n))
      /\ (forall r, In r (startups (db w)) ->
            In (row_to_dict r) (fst (get_all_startups w')))
      /\ List.length (fst (get_all_startups w'))
         = S (List.length (startups (db w))).
Proof.
  intros sd w w' Hins Hc.
  destruct (insert_startup_db_cases sd w) as [[Hf _]|[_ (d & Hrow & Hd)]];
    rewrite Hins in *; simpl in *; [discriminate|].
  apply insert_startup_row_columns in Hrow.
  destruct Hrow as (row & Hdeq & Hid & Hcr & _ & _ & Hcols & _).
  pose proof (get_db_connection_db w) as [Hdb Hnow].
  rewrite Hdb in Hdeq, Hid. rewrite Hnow in Hcr.
  destruct (get_all_startups_connects w' Hc) as (rows & Hperm & Hall & _).
  rewrite Hd, Hdeq in Hperm. simpl in Hperm.
  assert (Hin : forall r, In r (startups (db w) ++ [row]) ->
                          In (row_to_dict r) (fst (get_all_startups w'))).
  { intros r Hr. rewrite Hall. apply in_map.
    apply (Permutation_in _ (Permutation_sym Hperm)). exact Hr. }
  exists (row_to_dict row).
  split; [apply Hin, in_or_app; right; now left|].
  split; [change (dict_get (row_to_dict row) "id") with (PInt (col_id row));
          now rewrite Hid|].
  split; [change (dict_get (row_to_dict row) "created_at")
            with (PInt (col_created_at row)); now rewrite Hcr|].
  split; [|split; [|split; [|split]]].
  - intros k s Hk Hs. destruct (Hcols k Hk) as (v & Hv & ->).
    unfold stored_key in Hv. rewrite Hs in Hv. simpl in Hv.
    now injection Hv as <-.
  - intros k Hk Hs. destruct (Hcols k Hk) as (v & Hv & ->).
    unfold stored_key in Hv. rewrite Hs in Hv. simpl in Hv.
    now injection Hv as <-.
  - intros k n Hk Hs. destruct (Hcols k Hk) as (v & Hv & ->).
    unfold stored_key in Hv. rewrite Hs in Hv.
    destruct (bind_param (PInt n)) as [x|e] eqn:Hb; [|discriminate].
    apply bind_param_int in Hb. subst x. simpl in Hv.
    now injection Hv as <-.
  - intros r Hr. apply Hin, in_or_app. now left.
  - rewrite Hall, length_map, (Permutation_length Hperm), length_app. simpl. lia.
Qed.

(** The record of the example, stored and read back. *)
Lemma stored_record_reads_back_witness :
  exists record,
    In record (fst (get_all_startups
                      (snd (insert_startup acme_record (healthy empty_database 0)))))
    /\ dict_get record "id" = PInt 1
    /\ dict_get record "name" = PStr "Acme".
Proof.
  destruct (stored_record_reads_back acme_record (healthy empty_database 0)
              (snd (insert_startup acme_record (healthy empty_database 0))))
    as (record & Hin & Hid & _ & Hstr & _).
  - reflexivity.
  - exact I.
  - exists record. split; [exact Hin|]. split; [exact Hid|].
    apply Hstr; [left; reflexivity | reflexivity].
Defined.

(** ** Processing the same result again *)

Lemma insert_startup_row_prefix (sd : pydict) (w w' : world) (more : list startup_row)
      (d' : database) :
  startups (db w') = startups (db w) ++ more ->
  insert_startup_row sd w' = Ok d' ->
  exists d, insert_startup_row sd w = Ok d.
Proof.
  intros Hpre H. unfold insert_startup_row in *.
  do 13 bind_inv H.
  rewrite Hx, Hx0, Hx1, Hx2, Hx3, Hx4, Hx5, Hx6, Hx7, Hx8, Hx9, Hx10, Hx11.
  cbn [obind].
  destruct (is_null (affinity_text x)); [discriminate|].
  rewrite Hpre, startups_conflict_app in H.
  destruct (startups_conflict (affinity_text x) (affinity_text x11)
              (startups (db w))); [discriminate|].
  eauto.
Qed.

Lemma get_db_connection_healthy (w : world) :
  faults w = [] -> get_db_connection w = (Ok tt, w).
Proof. unfold get_db_connection. now intros ->. Qed.

Lemma insert_startup_healthy (sd : pydict) (w : world) :
  faults w = [] -> faults (snd (insert_startup sd w)) = [].
Proof.
  intros H. unfold insert_startup. rewrite (get_db_connection_healthy w H).
  destruct (insert_startup_row sd w) as [d|[]]; simpl; auto.
Qed.

Lemma insert_startup_settles (sd : pydict) (w w2 : world) (more : list startup_row) :
  faults w = [] ->
  startups (db w2) = startups (db (snd (insert_startup sd w))) ++ more ->
  fst (insert_startup sd w2) = false
  /\ db (snd (insert_startup sd w2)) = db w2.
Proof.
  intros Hh Hpre. apply insert_startup_rejects. intros d2 Hrow2.
  pose proof (get_db_connection_db w2) as [Hdb2 _].
  unfold insert_startup in Hpre. rewrite (get_db_connection_healthy w Hh) in Hpre.
  destruct (insert_startup_row sd w) as [d|e] eqn:Hrow.
  - simpl in Hpre.
    pose proof Hrow2 as Hrow2'.
    apply insert_startup_row_ok in Hrow.
    destruct Hrow as (row & -> & Hn & Hh' & Hnn & _).
    apply insert_startup_row_ok in Hrow2.
    destruct Hrow2 as (row2 & _ & Hn2 & Hh2 & _ & Hc2 & _).
    rewrite Hn in Hn2. injection Hn2 as Hn2.
    rewrite Hdb2, Hpre in Hc2. simpl in Hc2.
    rewrite !startups_conflict_app in Hc2.
    apply orb_false_iff in Hc2. destruct Hc2 as [Hc2 _].
    apply orb_false_iff in Hc2. destruct Hc2 as [_ Hc2].
    simpl in Hc2. rewrite <- Hn2, (unique_conflict_self _ Hnn) in Hc2.
    discriminate.
  - assert (Hpre' : startups (db (snd (get_db_connection w2)))
                    = startups (db w) ++ more).
    { rewrite Hdb2, Hpre. destruct e; reflexivity. }
    destruct (insert_startup_row_prefix sd w _ more d2 Hpre' Hrow2) as (d & Hd).
    congruence.
Qed.

Section Reprocessing.
Variable builtin_hash : pyval -> Z.
Variable json_loads : string -> outcome pyval.
Variable dumps_for_log : list pyval -> outcome unit.

Lemma insert_loop_healthy (ti fi : annot) (l : list pyval) :
  forall (n : nat) (w : world),
    faults w = [] -> faults (snd (insert_loop builtin_hash ti fi l n w)) = [].
Proof.
  induction l as [|x l IH]; intros n w H; simpl; auto.
  destruct (candidate builtin_hash ti fi x) as [[sd|]|e]; simpl; auto.
  pose proof (insert_startup_healthy sd w H) as H1.
  destruct (insert_startup sd w) as [b w1]. simpl in H1. auto.
Qed.

Lemma insert_loop_second_pass (ti fi : annot) (l : list pyval) :
  forall (n n2 : nat) (w w2 : world) (more : list startup_row),
    faults w = [] ->
    startups (db w2)
    = startups (db (snd (insert_loop builtin_hash ti fi l n w))) ++ more ->
    db (snd (insert_loop builtin_hash ti fi l n2 w2)) = db w2.
Proof.
  induction l as [|x l IH]; intros n n2 w w2 more Hh Hpre; simpl in *; auto.
  destruct (candidate builtin_hash ti fi x) as [[sd|]|e]; simpl in *; auto.
  - pose proof (insert_startup_healthy sd w Hh) as Hh1.
    destruct (insert_loop_extends builtin_hash ti fi l
                (if fst (insert_startup sd w) then S n else n)
                (snd (insert_startup sd w))) as (new & [He _] & _).
    destruct (insert_startup sd w) as [b w1] eqn:Hins. simpl in *.
    assert (Hset : fst (insert_startup sd w2) = false
                   /\ db (snd (insert_startup sd w2)) = db w2).
    { apply (insert_startup_settles sd w w2 (new ++ more) Hh).
      rewrite Hins. simpl. rewrite Hpre, He. now rewrite app_assoc. }
    destruct Hset as [Hf Hdb].
    destruct (insert_startup sd w2) as [b2 w2']. simpl in Hf, Hdb. subst b2.
    rewrite <- Hdb. apply (IH (if b then S n else n) n2 w1 w2' more Hh1).
    now rewrite Hdb.
  - eauto.
Qed.

(** X6.  Processing the same result a second time adds no startup.  If
    [_process_and_save_results] has run on a store whose connections all
    opened, then running it again on the same text, in the same
    interpreter (the same [hash]), under any run identifier, at any later
    time and whatever connections fail then, leaves [startups] exactly
    as the first pass left it. *)
Theorem reprocessing_adds_no_startups :
  forall (ctx ctx2 : run_context) (text : string) (w w2 : world),
    faults w = [] ->
    db w2 = db (process_and_save_results builtin_hash json_loads dumps_for_log ctx text w) ->
    startups (db (process_and_save_results builtin_hash json_loads dumps_for_log ctx2 text w2))
    = startups (db w2).
Proof.
  intros ctx ctx2 text w w2 Hh Hdb.
  unfold process_and_save_results, process_and_save_results_body in *.
  destruct (parse_startup_data json_loads text) as [parsed|e]; simpl in *; auto.
  destruct (log_parsed dumps_for_log parsed) as [[]|e]; simpl in *; auto.
  destruct (extract_tier_info json_loads text) as [ti|e]; simpl in *; auto.
  destruct (extract_market_fit json_loads text) as [fi|e]; simpl in *; auto.
  assert (Hpass : db (snd (insert_loop builtin_hash ti fi parsed 0 w2))
                  = db w2).
  { assert (Hagg : exists runs,
               extends (db (snd (insert_loop builtin_hash ti fi
                                   parsed 0 w)))
                 (db w2) [] runs).
    { destruct (insert_loop builtin_hash ti fi parsed 0 w)
        as [[n|e] w1]; simpl in *.
      - destruct (aggregate_extends ctx w1) as (runs & He & _).
        destruct (aggregate ctx w1) as [b wa]. simpl in *.
        exists runs. now rewrite Hdb.
      - exists []. rewrite Hdb. apply extends_refl. }
    destruct Hagg as (runs & [He _]).
    apply (insert_loop_second_pass ti fi _ 0 0 w w2 [] Hh). exact He. }
  destruct (insert_loop builtin_hash ti fi parsed 0 w2)
    as [[n|e] w3]; simpl in *.
  - destruct (aggregate_extends ctx2 w3) as (runs & [He _] & _).
    destruct (aggregate ctx2 w3) as [b wa]. simpl in *.
    rewrite He, Hpass. now rewrite app_nil_r.
  - now rewrite Hpass.
Qed.

End Reprocessing.

(** The three startups of the example, processed twice. *)
Lemma reprocessing_adds_no_startups_witness :
  startups
    (db (process_and_save_results toy_hash cpython_loads dumps_returns acme_ctx three_startups_json
           (process_and_save_results toy_hash cpython_loads dumps_returns acme_ctx three_startups_json
              (healthy empty_database 0))))
  = startups
      (db (process_and_save_results toy_hash cpython_loads dumps_returns acme_ctx three_startups_json
             (healthy empty_database 0))).
Proof.
  apply (reprocessing_adds_no_startups toy_hash cpython_loads dumps_returns acme_ctx acme_ctx
           three_startups_json (healthy empty_database 0)).
  - reflexivity.
  - reflexivity.
Defined.

(* ================================================================== *)
(** * Queries *)
(* ================================================================== *)

(** ** [ORDER BY] sorts *)

Section OrderBySorted.
Context {R K : Type} (key : R -> K) (cmp : K -> K -> comparison).
Hypothesis cmp_asym : forall a b, cmp a b = Gt -> cmp b a <> Gt.
Hypothesis cmp_trans :
  forall a b c, cmp a b <> Gt -> cmp b c <> Gt -> cmp a c <> Gt.

Lemma insert_desc_sorted (x : R) (l : list R) :
  StronglySorted (may_follow key cmp) l ->
  StronglySorted (may_follow key cmp) (insert_desc key cmp x l).
Proof.
  induction l as [|y r IH]; intros Hs; simpl.
  - constructor; constructor.
  - apply StronglySorted_inv in Hs. destruct Hs as [Hr Hy].
    destruct (cmp (key y) (key x)) eqn:E.
    + constructor; [constructor; auto|].
      constructor; [unfold may_follow; congruence|].
      eapply Forall_impl; [|exact Hy]. unfold may_follow. intros z Hz.
      apply (cmp_trans _ (key y)); auto. congruence.
    + constructor; [constructor; auto|].
      constructor; [unfold may_follow; congruence|].
      eapply Forall_impl; [|exact Hy]. unfold may_follow. intros z Hz.
      apply (cmp_trans _ (key y)); auto. congruence.
    + constructor; auto.
      rewrite Forall_forall. intros z Hz.
      apply (Permutation_in _ (insert_desc_perm key cmp x r)) in Hz.
      destruct Hz as [<-|Hz].
      * unfold may_follow. now apply cmp_asym.
      * rewrite Forall_forall in Hy. auto.
Qed.

Lemma order_by_desc_sorted (l : list R) :
  StronglySorted (may_follow key cmp) (order_by_desc key cmp l).
Proof.
  induction l as [|x r IH]; simpl; [constructor|].
  now apply insert_desc_sorted.
Qed.

End OrderBySorted.

Lemma Z_compare_asym (a b : Z) : (a ?= b)%Z = Gt -> (b ?= a)%Z <> Gt.
Proof. intros H. apply Z.compare_gt_iff in H. apply Z.compare_le_iff. lia. Qed.

Lemma Z_compare_trans (a b c : Z) :
  (a ?= b)%Z <> Gt -> (b ?= c)%Z <> Gt -> (a ?= c)%Z <> Gt.
Proof. rewrite !Z.compare_le_iff. lia. Qed.

Lemma string_compare_antisym (a b : string) :
  string_compare b a = CompOpp (string_compare a b).
Proof.
  revert b. induction a as [|x a IH]; destruct b as [|y b]; simpl; auto.
  rewrite (N.compare_antisym (code x) (code y)).
  destruct (N.compare (code x) (code y)); simpl; auto.
Qed.

Lemma code_inj (x y : ascii) : code x = code y -> x = y.
Proof.
  unfold code. intros H.
  rewrite <- (ascii_N_embedding x), <- (ascii_N_embedding y). now rewrite H.
Qed.

Lemma string_compare_eq (a b : string) : string_compare a b = Eq -> a = b.
Proof.
  revert b. induction a as [|x a IH]; destruct b as [|y b]; simpl;
    try discriminate; auto.
  destruct (N.compare (code x) (code y)) eqn:E; try discriminate.
  intros H. apply N.compare_eq in E. apply code_inj in E.
  f_equal; auto.
Qed.

Lemma string_compare_refl (a : string) : string_compare a a = Eq.
Proof.
  induction a as [|x a IH]; simpl; auto. now rewrite N.compare_refl.
Qed.

Lemma string_compare_lt_trans (a b c : string) :
  string_compare a b = Lt -> string_compare b c = Lt -> string_compare a c = Lt.
Proof.
  revert b c. induction a as [|x a IH]; destruct b as [|y b]; destruct c as [|z c];
    simpl; try discriminate; auto.
  destruct (N.compare (code x) (code y)) eqn:E1; try discriminate;
    destruct (N.compare (code y) (code z)) eqn:E2; try discriminate; intros H1 H2.
  - apply N.compare_eq in E1, E2. rewrite E1, E2, N.compare_refl. eauto.
  - apply N.compare_eq in E1. rewrite E1, E2. reflexivity.
  - apply N.compare_eq in E2. rewrite <- E2, E1. reflexivity.
  - rewrite N.compare_lt_iff in E1, E2.
    assert (E : (code x ?= code z)%N = Lt) by (apply N.compare_lt_iff; lia).
    now rewrite E.
Qed.

Lemma string_compare_trans (a b c : string) :
  string_compare a b <> Gt -> string_compare b c <> Gt -> string_compare a c <> Gt.
Proof.
  intros H1 H2.
  destruct (string_compare a b) eqn:E1; try congruence;
    destruct (string_compare b c) eqn:E2; try congruence.
  - apply string_compare_eq in E1, E2. subst. now rewrite string_compare_refl.
  - apply string_compare_eq in E1. subst. congruence.
  - apply string_compare_eq in E2. subst. congruence.
  - rewrite (string_compare_lt_trans _ _ _ E1 E2). discriminate.
Qed.

Lemma num_key_compare_asym (p q : Z * Q) :
  num_key_compare p q = Gt -> num_key_compare q p <> Gt.
Proof.
  destruct p as [cx qx], q as [cy qy]. unfold num_key_compare.
  rewrite (Z.compare_antisym cx cy).
  destruct (Z.compare cx cy); simpl; try discriminate.
  rewrite <- (Qcompare_antisym qx qy).
  destruct (Qcompare qx qy); simpl; discriminate.
Qed.

Lemma num_key_compare_trans (p q r : Z * Q) :
  num_key_compare p q <> Gt -> num_key_compare q r <> Gt ->
  num_key_compare p r <> Gt.
Proof.
  destruct p as [cx qx], q as [cy qy], r as [cz qz]. unfold num_key_compare.
  destruct (Z.compare_spec cx cy) as [E1|E1|E1]; try congruence;
    destruct (Z.compare_spec cy cz) as [E2|E2|E2]; try congruence;
    destruct (Z.compare_spec cx cz) as [E3|E3|E3]; try congruence; try lia;
    try discriminate.
  rewrite <- !Qle_alt. apply Qle_trans.
Qed.

Lemma sql_compare_asym (x y : sqlval) :
  sql_compare x y = Gt -> sql_compare y x <> Gt.
Proof.
  destruct x, y; try (simpl; discriminate);
    try (change (sql_compare ?a ?b) with (num_key_compare (num_key a) (num_key b));
         apply num_key_compare_asym).
  change (sql_compare (SqlText s) (SqlText s0)) with (string_compare s s0).
  change (sql_compare (SqlText s0) (SqlText s)) with (string_compare s0 s).
  rewrite (string_compare_antisym s s0).
  destruct (string_compare s s0); simpl; discriminate.
Qed.

Lemma sql_compare_trans (x y z : sqlval) :
  sql_compare x y <> Gt -> sql_compare y z <> Gt -> sql_compare x z <> Gt.
Proof.
  destruct x as [|a|a|a], y as [|b|b|b], z as [|c|c|c];
    try (unfold sql_compare; simpl; congruence);
    try (change (sql_compare ?a ?b) with (num_key_compare (num_key a) (num_key b));
         apply num_key_compare_trans).
  exact (string_compare_trans a b c).
Qed.

Lemma row_to_dict_primary_tier (r : startup_row) :
  dict_get (row_to_dict r) "primary_tier" = sql_to_py (col_primary_tier r).
Proof. reflexivity. Qed.

Lemma StronglySorted_impl {X : Type} (P Q : X -> X -> Prop) (l : list X) :
  (forall a b, P a b -> Q a b) -> StronglySorted P l -> StronglySorted Q l.
Proof.
  intros HPQ. induction 1; constructor; auto.
  eapply Forall_impl; [|eassumption]. auto.
Qed.

Lemma StronglySorted_app_inv {X : Type} (P : X -> X -> Prop) (l1 l2 : list X) :
  StronglySorted P (l1 ++ l2) ->
  StronglySorted P l1
  /\ (forall a b, In a l1 -> In b l2 -> P a b).
Proof.
  induction l1 as [|x l1 IH]; simpl; intros H.
  - split; [constructor | intros a b []].
  - apply StronglySorted_inv in H. destruct H as [Hs Hx].
    destruct (IH Hs) as [H1 H2]. split.
    + constructor; auto. apply Forall_app in Hx. tauto.
    + intros a b [<-|Ha] Hb; auto.
      rewrite Forall_forall in Hx. apply Hx. apply in_or_app. auto.
Qed.

Lemma bind_param_int_ok (n : Z) :
  (- 2 ^ 63 <= n < 2 ^ 63)%Z -> bind_param (PInt n) = Ok (SqlInt n).
Proof.
  intros H. unfold bind_param.
  assert (Hb : ((- 2 ^ 63 <=? n) && (n <? 2 ^ 63))%Z = true).
  { apply andb_true_iff. split; [apply Z.leb_le | apply Z.ltb_lt]; lia. }
  now rewrite Hb.
Qed.

Lemma bind_param_int_overflow (n : Z) :
  (2 ^ 63 <= n)%Z -> bind_param (PInt n) = Raise OverflowError.
Proof.
  intros H. unfold bind_param.
  assert (Hb : (n <? 2 ^ 63)%Z = false) by (apply Z.ltb_ge; lia).
  now rewrite Hb, andb_false_r.
Qed.

(** ** By tier, newest first, best first *)

(** X7.  When the connection opens, [get_startups_by_tier] (and its
    twin in [DatabaseQueries]) returns the stored rows whose
    [primary_tier] is exactly the tier asked for, each of them once and
    no other: every returned record has that tier, their number is the
    number of such rows, and they come ordered by [india_fit_score],
    highest first. *)
Theorem tier_query_exact :
  forall (tier : string) (w : world),
    connects w ->
    exists rows,
      fst (get_startups_by_tier tier w) = map row_to_dict rows
      /\ fst (DatabaseQueries_get_startups_by_tier tier w) = map row_to_dict rows
      /\ Permutation rows
           (filter (fun r => sqlval_eqb (col_primary_tier r) (SqlText tier))
              (startups (db w)))
      /\ Forall (fun s => dict_get s "primary_tier" = PStr tier)
           (map row_to_dict rows)
      /\ StronglySorted (may_follow col_india_fit_score sql_compare) rows
      /\ Z.of_nat (List.length rows) = rows_in_tier tier (startups (db w)).
Proof.
  intros tier w Hc.
  destruct (connects_cases w Hc) as (w1 & Hconn & Hdb & _).
  unfold get_startups_by_tier, DatabaseQueries_get_startups_by_tier.
  rewrite Hconn, Hdb. simpl.
  set (sel := filter _ (startups (db w))).
  exists (order_by_desc col_india_fit_score sql_compare sel).
  pose proof (order_by_desc_perm col_india_fit_score sql_compare sel) as Hperm.
  repeat split; auto.
  - rewrite Forall_forall. intros s Hs.
    apply in_map_iff in Hs. destruct Hs as (r & <- & Hr).
    apply (Permutation_in _ Hperm) in Hr. subst sel.
    apply filter_In in Hr. destruct Hr as [_ Hr].
    apply sqlval_eqb_eq in Hr.
    rewrite row_to_dict_primary_tier, Hr. reflexivity.
  - apply order_by_desc_sorted; [apply sql_compare_asym | apply sql_compare_trans].
  - rewrite (Permutation_length Hperm). reflexivity.
Qed.

(** The two "Tier 1" rows of the three-tier store. *)
Lemma tier_query_exact_witness :
  exists rows,
    fst (get_startups_by_tier "Tier 1" three_tier_store) = map row_to_dict rows
    /\ Z.of_nat (List.length rows) = 2%Z.
Proof.
  destruct (tier_query_exact "Tier 1" three_tier_store) as (rows & H1 & _ & _ & _ & _ & H6).
  - exact I.
  - exists rows. split; [exact H1 | exact H6].
Defined.

(** X8.  When the connection opens, [get_all_startups] (and its twin in
    [DatabaseQueries]) returns every stored row exactly once, ordered by
    [created_at] with the newest first. *)
Theorem all_startups_newest_first :
  forall (w : world),
    connects w ->
    exists rows,
      fst (get_all_startups w) = map row_to_dict rows
      /\ fst (DatabaseQueries_get_all_startups w) = map row_to_dict rows
      /\ Permutation rows (startups (db w))
      /\ StronglySorted (fun r1 r2 => (col_created_at r2 <= col_created_at r1)%Z) rows.
Proof.
  intros w Hc.
  destruct (connects_cases w Hc) as (w1 & Hconn & Hdb & _).
  unfold get_all_startups, DatabaseQueries_get_all_startups.
  rewrite Hconn, Hdb. simpl.
  exists (order_by_desc col_created_at Z.compare (startups (db w))).
  repeat split; auto.
  - apply order_by_desc_perm.
  - eapply StronglySorted_impl;
      [|apply (order_by_desc_sorted col_created_at Z.compare
                 Z_compare_asym Z_compare_trans)].
    unfold may_follow. intros a b H. now apply Z.compare_le_iff.
Qed.

(** The three rows of the three-tier store. *)
Lemma all_startups_newest_first_witness :
  exists rows,
    fst (get_all_startups three_tier_store) = map row_to_dict rows
    /\ Permutation rows (startups (db three_tier_store)).
Proof.
  destruct (all_startups_newest_first three_tier_store) as (rows & H1 & _ & H3 & _).
  - exact I.
  - exists rows. split; [exact H1 | exact H3].
Defined.

(** X9.  When the connection opens and the limit fits in 64 bits,
    [get_top_startups] returns the first [limit] rows of the table
    ordered by [india_fit_score], highest first, and all of them for a
    negative limit: the returned rows and the rows left out make up the
    table, the returned ones are [min limit n] in number, they are in
    descending order, and no row left out has a higher score than a
    returned one.  A limit that does not fit in 64 bits cannot be bound,
    and nothing is returned. *)
Theorem top_startups_are_best :
  (forall (limit : Z) (w : world),
      connects w ->
      (- 2 ^ 63 <= limit < 2 ^ 63)%Z ->
      exists top rest,
        fst (DatabaseQueries_get_top_startups limit w) = map row_to_dict top
        /\ Permutation (top ++ rest) (startups (db w))
        /\ List.length top
           = (if (limit <? 0)%Z then List.length (startups (db w))
              else Nat.min (Z.to_nat limit) (List.length (startups (db w))))
        /\ StronglySorted (may_follow col_india_fit_score sql_compare) top
        /\ (forall r r', In r top -> In r' rest ->
              sql_compare (col_india_fit_score r') (col_india_fit_score r) <> Gt))
  /\ (forall (limit : Z) (w : world),
        (2 ^ 63 <= limit)%Z ->
        fst (DatabaseQueries_get_top_startups limit w) = []).
Proof.
  split.
  - intros limit w Hc Hrange.
    destruct (connects_cases w Hc) as (w1 & Hconn & Hdb & _).
    unfold DatabaseQueries_get_top_startups.
    rewrite Hconn, Hdb, (bind_param_int_ok limit Hrange). cbn [fst].
    set (sorted := order_by_desc col_india_fit_score sql_compare (startups (db w))).
    pose proof (order_by_desc_perm col_india_fit_score sql_compare (startups (db w)))
      as Hperm.
    pose proof (order_by_desc_sorted col_india_fit_score sql_compare
                  sql_compare_asym sql_compare_trans (startups (db w))) as Hsorted.
    fold sorted in Hperm, Hsorted.
    unfold sql_limit. destruct (limit <? 0)%Z.
    + exists sorted, []. rewrite app_nil_r.
      split; [reflexivity|]. split; [exact Hperm|].
      split; [now rewrite (Permutation_length Hperm)|].
      split; [exact Hsorted|]. intros r r' _ [].
    + exists (firstn (Z.to_nat limit) sorted), (skipn (Z.to_nat limit) sorted).
      rewrite firstn_skipn.
      rewrite <- (firstn_skipn (Z.to_nat limit) sorted) in Hsorted.
      apply StronglySorted_app_inv in Hsorted. destruct Hsorted as [H1 H2].
      split; [reflexivity|]. split; [exact Hperm|].
      split; [rewrite length_firstn; now rewrite (Permutation_length Hperm)|].
      split; [exact H1|].
      intros r r' Hr Hr'. exact (H2 r r' Hr Hr').
  - intros limit w H. unfold DatabaseQueries_get_top_startups.
    rewrite (bind_param_int_overflow limit H).
    destruct (get_db_connection w) as [[[]|e] w1]; reflexivity.
Qed.

(** The best two of the three-tier store. *)
Lemma top_startups_are_best_witness :
  exists top rest,
    fst (DatabaseQueries_get_top_startups 2 three_tier_store) = map row_to_dict top
    /\ Permutation (top ++ rest) (startups (db three_tier_store))
    /\ List.length top = 2%nat.
Proof.
  destruct (proj1 top_startups_are_best 2%Z three_tier_store)
    as (top & rest & H1 & H2 & H3 & _).
  - exact I.
  - lia.
  - exists top, rest. split; [exact H1|]. split; [exact H2 | exact H3].
Defined.

(** ** By category *)

Lemma like_match_percent (p s : string) :
  like_match (String "%" p) s
  = (like_match p s
     || match s with
        | EmptyString => false
        | String _ s' => like_match (String "%" p) s'
        end)%bool.
Proof. destruct s; reflexivity. Qed.

Lemma like_match_percent_only (s : string) : like_match "%" s = true.
Proof.
  induction s as [|c s IH].
  - reflexivity.
  - rewrite like_match_percent, IH. apply orb_true_r.
Qed.

Lemma c_string_app_plain (p q : string) :
  plain_text p = true -> c_string (p ++ q)%string = (p ++ c_string q)%string.
Proof.
  induction p as [|c p IH]; simpl; auto.
  intros H. repeat (apply andb_true_iff in H; destruct H as [H ?]).
  apply negb_true_iff in H1. rewrite H1. now rewrite IH.
Qed.

Lemma like_match_plain_prefix (p s : string) :
  plain_text p = true ->
  like_match (p ++ "%")%string s = prefix_nocase p s.
Proof.
  revert s. induction p as [|c p IH]; intros s H.
  - simpl append. rewrite like_match_percent_only. destruct s; reflexivity.
  - simpl in H. repeat (apply andb_true_iff in H; destruct H as [H ?]).
    apply negb_true_iff in H, H2.
    simpl append. cbn [like_match]. rewrite H.
    destruct s as [|d s]; [reflexivity|].
    rewrite H2. cbn [orb prefix_nocase]. now rewrite IH.
Qed.

Lemma like_match_plain_occurs (p s : string) :
  plain_text p = true ->
  like_match (String "%" (p ++ "%")%string) s = occurs_nocase p s.
Proof.
  intros H. induction s as [|d s IH].
  - rewrite like_match_percent, like_match_plain_prefix by auto.
    simpl. reflexivity.
  - rewrite like_match_percent, like_match_plain_prefix by auto.
    rewrite IH. reflexivity.
Qed.

Lemma encode_app (a b : string) : encode (a ++ b)%string = encode a ++ encode b.
Proof.
  induction a as [|c a IH]; simpl; auto.
  destruct (Z.of_N (code c) <? 128)%Z; simpl; now rewrite IH.
Qed.

Lemma like_pattern_length (category : string) :
  List.length (encode ("%" ++ category ++ "%")%string)
  = S (S (List.length (encode category))).
Proof.
  change ("%" ++ category ++ "%")%string with (String "%" (category ++ "%")%string).
  cbn [encode]. change (Z.of_N (code "%") <? 128)%Z with true. cbn iota.
  cbn [List.length]. rewrite encode_app, length_app. simpl. lia.
Qed.

Lemma like_row_plain (category : string) (v : sqlval) :
  plain_text category = true ->
  like_row ("%" ++ category ++ "%")%string v = category_mentions category v.
Proof.
  intros H. unfold like_row, category_mentions.
  destruct (affinity_text v); auto.
  change ("%" ++ category ++ "%")%string with (String "%" (category ++ "%")%string).
  cbn [c_string]. change (code "%" =? 0)%N with false. cbn iota.
  rewrite c_string_app_plain by auto.
  change (c_string "%") with "%".
  now apply like_match_plain_occurs.
Qed.

(** X10.  For a category text without [%], [_] and NUL, of at most
    49998 bytes, [get_startups_by_category] is a substring search: when
    the connection opens it returns exactly the stored rows whose
    category is not NULL and contains the text, ASCII letters compared
    without regard to case, ordered by [india_fit_score], highest first.
    For a longer text the pattern exceeds SQLite's limit and the function
    returns the empty list. *)
Theorem category_query_is_substring_search :
  (forall (category : string) (w : world),
      connects w ->
      plain_text category = true ->
      (Z.of_nat (List.length (encode category)) <= 49998)%Z ->
      exists rows,
        fst (DatabaseQueries_get_startups_by_category category w)
        = map row_to_dict rows
        /\ Permutation rows
             (filter (fun r => category_mentions category (col_category r))
                (startups (db w)))
        /\ StronglySorted (may_follow col_india_fit_score sql_compare) rows)
  /\ (forall (category : string) (w : world),
        (49998 < Z.of_nat (List.length (encode category)))%Z ->
        fst (DatabaseQueries_get_startups_by_category category w) = []).
Proof.
  split.
  - intros category w Hc Hplain Hlen.
    destruct (connects_cases w Hc) as (w1 & Hconn & Hdb & _).
    unfold DatabaseQueries_get_startups_by_category.
    rewrite Hconn, Hdb. cbv zeta.
    rewrite like_pattern_length.
    assert (Hb : (SQLITE_MAX_LIKE_PATTERN_LENGTH
                  <? Z.of_nat (S (S (List.length (encode category)))))%Z = false).
    { apply Z.ltb_ge. unfold SQLITE_MAX_LIKE_PATTERN_LENGTH. lia. }
    rewrite Hb. cbn [fst].
    rewrite (filter_ext _ (fun r => category_mentions category (col_category r)))
      by (intros r; now apply like_row_plain).
    eexists. split; [reflexivity|]. split.
    + apply order_by_desc_perm.
    + apply order_by_desc_sorted; [apply sql_compare_asym | apply sql_compare_trans].
  - intros category w Hlen.
    unfold DatabaseQueries_get_startups_by_category.
    destruct (get_db_connection w) as [[[]|e] w1]; [|reflexivity].
    cbv zeta. rewrite like_pattern_length.
    assert (Hb : (SQLITE_MAX_LIKE_PATTERN_LENGTH
                  <? Z.of_nat (S (S (List.length (encode category)))))%Z = true).
    { apply Z.ltb_lt. unfold SQLITE_MAX_LIKE_PATTERN_LENGTH. lia. }
    now rewrite Hb.
Qed.

(** Asking the three-tier store, which has no categories, for "AI". *)
Lemma category_query_is_substring_search_witness :
  exists rows,
    fst (DatabaseQueries_get_startups_by_category "AI" three_tier_store)
    = map row_to_dict rows
    /\ Permutation rows
         (filter (fun r => category_mentions "AI" (col_category r))
            (startups (db three_tier_store))).
Proof.
  destruct (proj1 category_query_is_substring_search "AI" three_tier_store)
    as (rows & H1 & H2 & _).
  - exact I.
  - reflexivity.
  - simpl. lia.
  - exists rows. split; [exact H1 | exact H2].
Defined.

(** With a wildcard the query is not a substring search: an underscore
    in the argument stands for any character, so asking for "A_" finds
    the category "AI". *)
Lemma category_query_wildcard :
  like_row ("%" ++ "A_" ++ "%")%string (SqlText "AI") = true
  /\ occurs_nocase "A_" "AI" = false.
Proof. split; reflexivity. Qed.

(** ** Run summaries *)


Lemma get_latest_run_connects (w : world) :
  connects w ->
  fst (get_latest_run w)
  = match order_by_desc run_col_run_date Z.compare (run_metadata (db w)) with
    | r :: _ => Some (run_to_dict r)
    | [] => None
    end.
Proof.
  intros Hc. destruct (connects_cases w Hc) as (w1 & Hconn & Hdb & _).
  unfold get_latest_run. rewrite Hconn, Hdb.
  destruct (order_by_desc _ _ _); reflexivity.
Qed.

(** X11.  When the connection opens, [get_latest_run] returns [None]
    exactly when no run summary is stored; otherwise it returns a stored
    summary whose [run_date] no other stored summary exceeds. *)
Theorem latest_run_is_most_recent :
  forall (w : world),
    connects w ->
    (fst (get_latest_run w) = None <-> run_metadata (db w) = [])
    /\ (forall d, fst (get_latest_run w) = Some d ->
          exists r,
            In r (run_metadata (db w))
            /\ d = run_to_dict r
            /\ forall r', In r' (run_metadata (db w)) ->
                 (run_col_run_date r' <= run_col_run_date r)%Z).
Proof.
  intros w Hc. rewrite (get_latest_run_connects w Hc).
  pose proof (order_by_desc_perm run_col_run_date Z.compare (run_metadata (db w)))
    as Hperm.
  pose proof (order_by_desc_sorted run_col_run_date Z.compare
                Z_compare_asym Z_compare_trans (run_metadata (db w))) as Hs.
  destruct (order_by_desc run_col_run_date Z.compare (run_metadata (db w)))
    as [|r rest]; split.
  - split; auto. intros _. apply Permutation_nil in Hperm. exact Hperm.
  - discriminate.
  - split; [discriminate|]. intros E. rewrite E in Hperm.
    apply Permutation_sym, Permutation_nil in Hperm. discriminate.
  - intros d Hd. injection Hd as <-. exists r.
    split; [apply (Permutation_in _ Hperm); now left|]. split; [reflexivity|].
    intros r' Hr'. apply (Permutation_in _ (Permutation_sym Hperm)) in Hr'.
    destruct Hr' as [<-|Hr']; [lia|].
    apply StronglySorted_inv in Hs. destruct Hs as [_ Hs].
    rewrite Forall_forall in Hs. specialize (Hs r' Hr').
    unfold may_follow in Hs. now apply Z.compare_le_iff.
Qed.

(** An empty store has no latest run. *)
Lemma latest_run_is_most_recent_witness :
  fst (get_latest_run (healthy empty_database 0)) = None <-> [] = @nil run_row.
Proof.
  exact (proj1 (latest_run_is_most_recent (healthy empty_database 0) I)).
Defined.



(** X13.  [insert_run_metadata] returns [False] and leaves the store
    as it was when the run data has no ['run_id'] (missing or [None]),
    and when a stored summary already has that run identifier; so the
    same run data is accepted at most once. *)
Theorem run_summary_rejected :
  (forall (run_data : pydict) (w : world),
      dict_get run_data "run_id" = PNone ->
      fst (insert_run_metadata run_data w) = false
      /\ db (snd (insert_run_metadata run_data w)) = db w)
  /\ (forall (run_data : pydict) (w : world) (r : run_row) (s : string),
        In r (run_metadata (db w)) ->
        run_col_run_id r = SqlText s ->
        dict_get run_data "run_id" = PStr s ->
        fst (insert_run_metadata run_data w) = false
        /\ db (snd (insert_run_metadata run_data w)) = db w)
  /\ (forall (run_data : pydict) (w w1 : world),
        insert_run_metadata run_data w = (true, w1) ->
        fst (insert_run_metadata run_data w1) = false
        /\ db (snd (insert_run_metadata run_data w1)) = db w1).
Proof.
  assert (Hdup : forall (rd : pydict) (w : world) (r : run_row) (v : sqlval),
             In r (run_metadata (db w)) ->
             stored_key rd "run_id" = Ok v ->
             is_null v = false ->
             run_col_run_id r = v ->
             fst (insert_run_metadata rd w) = false
             /\ db (snd (insert_run_metadata rd w)) = db w).
  { intros rd w r v Hin Hk Hnn Hr.
    destruct (insert_run_metadata_db_cases rd w) as [H|[_ (d & Hrow & _)]]; auto.
    exfalso. apply insert_run_row_ok in Hrow.
    destruct Hrow as (row & _ & Hk' & _ & Hc & _).
    rewrite Hk in Hk'. injection Hk' as Hv.
    rewrite (proj1 (get_db_connection_db w)) in Hc.
    pose proof (run_conflict_false _ _ Hc r Hin) as Hf.
    rewrite <- Hv, Hr, unique_conflict_self in Hf; congruence. }
  split; [|split].
  - intros rd w Hnone.
    destruct (insert_run_metadata_db_cases rd w) as [H|[_ (d & Hrow & _)]]; auto.
    exfalso. apply insert_run_row_ok in Hrow.
    destruct Hrow as (row & _ & Hk & Hnn & _).
    unfold stored_key in Hk. rewrite Hnone in Hk. simpl in Hk.
    injection Hk as Hk. rewrite <- Hk in Hnn. discriminate.
  - intros rd w r s Hin Hr Hs.
    apply (Hdup rd w r (SqlText s)); auto.
    unfold stored_key. rewrite Hs. reflexivity.
  - intros rd w w1 Hins.
    destruct (insert_run_metadata_db_cases rd w) as [[Hf _]|[_ (d & Hrow & Hd)]];
      rewrite Hins in *; simpl in *; [discriminate|].
    apply insert_run_row_ok in Hrow.
    destruct Hrow as (row & Hdeq & Hk & Hnn & _).
    apply (Hdup rd w1 row (run_col_run_id row)); auto.
    rewrite Hd, Hdeq. simpl. apply in_or_app. right. now left.
Qed.

(** Run data without an identifier. *)
Lemma run_summary_rejected_witness :
  fst (insert_run_metadata [] (healthy empty_database 0)) = false
  /\ db (snd (insert_run_metadata [] (healthy empty_database 0))) = empty_database.
Proof.
  apply (proj1 run_summary_rejected [] (healthy empty_database 0)).
  reflexivity.
Defined.

(* ================================================================== *)
(** * Annotation maps *)
(* ================================================================== *)

Lemma py_key_eqb_cases (x y : pyval) :
  py_key_eqb x y = true <->
  (x = PNone /\ y = PNone)
  \/ (exists a, x = PStr a /\ y = PStr a)
  \/ (exists cx qx cy qy,
        key_number x = Some (cx, qx) /\ key_number y = Some (cy, qy)
        /\ cx = cy /\ (qx == qy)%Q).
Proof.
  assert (Hnum : forall x y,
             (match key_number x, key_number y with
              | Some (cx, qx), Some (cy, qy) => ((cx =? cy)%Z && Qeq_bool qx qy)%bool
              | _, _ => false
              end = true)
             <-> exists cx qx cy qy,
                 key_number x = Some (cx, qx) /\ key_number y = Some (cy, qy)
                 /\ cx = cy /\ (qx == qy)%Q).
  { intros a b. destruct (key_number a) as [[cx qx]|]; destruct (key_number b) as [[cy qy]|].
    - rewrite andb_true_iff, Z.eqb_eq, Qeq_bool_iff. split.
      + intros [H1 H2]. exists cx, qx, cy, qy. auto.
      + intros (c1 & q1 & c2 & q2 & E1 & E2 & H1 & H2).
        injection E1 as <- <-. injection E2 as <- <-. auto.
    - split; [discriminate|]. intros (c1 & q1 & c2 & q2 & _ & E2 & _). discriminate.
    - split; [discriminate|]. intros (c1 & q1 & c2 & q2 & E1 & _). discriminate.
    - split; [discriminate|]. intros (c1 & q1 & c2 & q2 & E1 & _). discriminate. }
  destruct x as [| | | |sa| |], y as [| | | |sb| |];
    try (unfold py_key_eqb; rewrite Hnum; split;
         [intros H; right; right; exact H
         |intros [[? ?]|[(s & ? & ?)|H]]; [congruence|congruence|exact H]]).
  - split; [auto|reflexivity].
  - simpl. rewrite String.eqb_eq. split.
    + intros ->. right. left. eauto.
    + intros [[? ?]|[(s & E1 & E2)|(c1 & q1 & c2 & q2 & E1 & _)]]; try discriminate.
      congruence.
Qed.

Lemma py_key_eqb_sym (x y : pyval) : py_key_eqb x y = true -> py_key_eqb y x = true.
Proof.
  rewrite !py_key_eqb_cases.
  intros [[Hx Hy]|[(a & Hx & Hy)|(cx & qx & cy & qy & E1 & E2 & Hc & Hq)]].
  - left. auto.
  - right. left. eauto.
  - right. right. exists cy, qy, cx, qx. repeat split; auto. now symmetry.
Qed.

Lemma py_key_eqb_trans (x y z : pyval) :
  py_key_eqb x y = true -> py_key_eqb y z = true -> py_key_eqb x z = true.
Proof.
  rewrite !py_key_eqb_cases.
  intros [[Hx Hy]|[(a & Hx & Hy)|(cx & qx & cy & qy & E1 & E2 & Hc & Hq)]]
         [[Hy' Hz]|[(b & Hy' & Hz)|(cy' & qy' & cz & qz & E3 & E4 & Hc' & Hq')]];
    try congruence; try (subst; simpl in *; discriminate).
  - left. auto.
  - right. left. exists b. split; congruence.
  - right. right. rewrite E2 in E3. injection E3 as <- <-.
    exists cx, qx, cz, qz. repeat split; auto; try congruence.
    now rewrite Hq.
Qed.

Lemma annot_find_set_same (m : annot) (k : pyval) (v : pydict) :
  py_key_eqb k k = true -> annot_find (annot_set m k v) k = Some v.
Proof.
  intros Hk. induction m as [|[k' v'] r IH]; simpl.
  - now rewrite Hk.
  - destruct (py_key_eqb k' k) eqn:E; simpl; rewrite E; auto.
Qed.

Lemma annot_find_set_other (m : annot) (k0 k : pyval) (v : pydict) :
  py_key_eqb k0 k = false -> annot_find (annot_set m k0 v) k = annot_find m k.
Proof.
  intros Hk. induction m as [|[k' v'] r IH]; simpl.
  - now rewrite Hk.
  - destruct (py_key_eqb k' k0) eqn:E; simpl.
    + destruct (py_key_eqb k' k) eqn:E2; auto.
      apply py_key_eqb_sym in E.
      rewrite (py_key_eqb_trans _ _ _ E E2) in Hk. discriminate.
    + destruct (py_key_eqb k' k); auto.
Qed.

Lemma tier_items_after (name : pyval) (after : list pyval) :
  last_of_its_name name after ->
  forall m m', tier_items after m = Ok m' -> annot_find m' name = annot_find m name.
Proof.
  induction after as [|x after IH]; intros Hlast m m' H; simpl in H.
  - now injection H as <-.
  - assert (Hlast' : last_of_its_name name after)
      by (intros o Ho; apply Hlast; now right).
    destruct x; try (now apply (IH Hlast' _ _ H)).
    fold (item_name d) in H. fold (tier_entry d) in H.
    destruct (hashable (item_name d)); [|discriminate].
    rewrite (IH Hlast' _ _ H).
    apply annot_find_set_other. apply Hlast. now left.
Qed.

Lemma tier_items_app (before rest : list pyval) :
  forall m m', tier_items (before ++ rest) m = Ok m' ->
               exists m1, tier_items before m = Ok m1 /\ tier_items rest m1 = Ok m'.
Proof.
  induction before as [|x before IH]; intros m m' H; simpl in *.
  - eauto.
  - destruct x; auto.
    destruct (hashable _); [|discriminate]. auto.
Qed.

Lemma fit_items_after (name : pyval) (after : list pyval) :
  last_of_its_name name after ->
  forall m m', fit_items after m = Ok m' -> annot_find m' name = annot_find m name.
Proof.
  induction after as [|x after IH]; intros Hlast m m' H; simpl in H.
  - now injection H as <-.
  - assert (Hlast' : last_of_its_name name after)
      by (intros o Ho; apply Hlast; now right).
    destruct x; try (now apply (IH Hlast' _ _ H)).
    fold (item_name d) in H. fold (fit_entry d) in H.
    destruct (hashable (item_name d)); [|discriminate].
    rewrite (IH Hlast' _ _ H).
    apply annot_find_set_other. apply Hlast. now left.
Qed.

Lemma fit_items_app (before rest : list pyval) :
  forall m m', fit_items (before ++ rest) m = Ok m' ->
               exists m1, fit_items before m = Ok m1 /\ fit_items rest m1 = Ok m'.
Proof.
  induction before as [|x before IH]; intros m m' H; simpl in *.
  - eauto.
  - destruct x; auto.
    destruct (hashable _); [|discriminate]. auto.
Qed.

(** X14.  When the text is a JSON list, the maps that
    [extract_tier_info] and [extract_market_fit] build give, for a name,
    the entry made from the last item of the list that goes by that
    name: an item overrides every earlier item with an equal name.  (The
    name is [item.get('name') or item.get('startup_name')]; it must be
    its own key, which every hashable value is.) *)
Theorem annotations_last_entry_wins :
  forall (json_loads : string -> outcome pyval) (text : string)
         (before after : list pyval) (item : pydict),
    strip_startswith text "[" = true ->
    json_loads text = Ok (PList (before ++ PDict item :: after)) ->
    py_key_eqb (item_name item) (item_name item) = true ->
    last_of_its_name (item_name item) after ->
    (forall tier_info, extract_tier_info json_loads text = Ok tier_info ->
       annot_find tier_info (item_name item) = Some (tier_entry item))
    /\ (forall fit_info, extract_market_fit json_loads text = Ok fit_info ->
          annot_find fit_info (item_name item) = Some (fit_entry item)).
Proof.
  intros json_loads text before after item Hstart Hloads Hrefl Hlast.
  unfold extract_tier_info, extract_market_fit. rewrite Hstart, Hloads. simpl orb.
  cbv iota. split.
  - intros m H. apply tier_items_app in H. destruct H as (m1 & _ & H).
    simpl in H. fold (item_name item) in H. fold (tier_entry item) in H.
    destruct (hashable (item_name item)); [|discriminate].
    rewrite (tier_items_after _ _ Hlast _ _ H).
    now apply annot_find_set_same.
  - intros m H. apply fit_items_app in H. destruct H as (m1 & _ & H).
    simpl in H. fold (item_name item) in H. fold (fit_entry item) in H.
    destruct (hashable (item_name item)); [|discriminate].
    rewrite (fit_items_after _ _ Hlast _ _ H).
    now apply annot_find_set_same.
Qed.

(** Two entries for "Acme": the second one, "Tier 1", is kept. *)
Lemma annotations_last_entry_wins_witness :
  exists tier_info,
    extract_tier_info cpython_loads acme_twice_json = Ok tier_info
    /\ annot_find tier_info (PStr "Acme") = Some (tier_entry acme_second).
Proof.
  destruct (extract_tier_info cpython_loads acme_twice_json) as [tier_info|e] eqn:E.
  - exists tier_info. split; [reflexivity|].
    refine (proj1 (annotations_last_entry_wins cpython_loads acme_twice_json
                     [PDict acme_first] []
                     acme_second _ _ _ _) tier_info E).
    + reflexivity.
    + vm_compute. reflexivity.
    + reflexivity.
    + intros other [].
  - vm_compute in E. discriminate E.
Defined.

(* ================================================================== *)
(** * Deduplication helpers, continued *)
(* ================================================================== *)

Lemma similarity_range (a b : string) :
  exists r, similarity a b = Some r /\ (0 <= r)%Q /\ (r <= 1)%Q.
Proof.
  unfold similarity.
  destruct (DifflibFacts.ratio_range Ascii.eqb Ascii.eqb_eq
              (list_ascii_of_string (lower a)) (list_ascii_of_string (lower b)))
    as (r & Hr & H0 & H1 & _).
  eauto.
Qed.

Lemma similarity_same_fold (a b : string) :
  lower a = lower b -> exists r, similarity a b = Some r /\ (r == 1)%Q.
Proof.
  intros H. unfold similarity. rewrite H.
  apply (DifflibFacts.ratio_self Ascii.eqb Ascii.eqb_eq).
Qed.

Lemma similarity_fold_left (a b : string) : similarity (lower a) b = similarity a b.
Proof. unfold similarity. now rewrite lower_idempotent. Qed.

Lemma similarity_fold_right (a b : string) : similarity a (lower b) = similarity a b.
Proof. unfold similarity. now rewrite lower_idempotent. Qed.

(** X15.  [fuzzy_match] always answers, and its answer does not depend
    on the case of either string.  With a threshold of 0 or less every
    pair matches; with a threshold above 1 no pair matches; two strings
    equal up to case match under every threshold up to 1; and a pair
    that matches under a threshold matches under every lower one. *)
Theorem fuzzy_match_threshold :
  forall (str1 str2 : string) (threshold : Q),
    exists answer,
      fuzzy_match str1 str2 threshold = Some answer
      /\ fuzzy_match (lower str1) str2 threshold = Some answer
      /\ fuzzy_match str1 (lower str2) threshold = Some answer
      /\ ((threshold <= 0)%Q -> answer = true)
      /\ ((1 < threshold)%Q -> answer = false)
      /\ (lower str1 = lower str2 -> (threshold <= 1)%Q -> answer = true)
      /\ (forall lower_threshold,
            (lower_threshold <= threshold)%Q -> answer = true ->
            fuzzy_match str1 str2 lower_threshold = Some true).
Proof.
  intros a b t.
  destruct (similarity_range a b) as (r & Hr & H0 & H1).
  exists (Qle_bool t r). unfold fuzzy_match.
  rewrite similarity_fold_left, similarity_fold_right, Hr.
  repeat split; auto.
  - intros Ht. apply Qle_bool_iff. now apply Qle_trans with 0%Q.
  - intros Ht. destruct (Qle_bool t r) eqn:E; auto.
    apply Qle_bool_iff in E.
    exfalso. apply (Qlt_irrefl 1).
    apply Qlt_le_trans with t; auto. now apply Qle_trans with r.
  - intros Hfold Ht.
    destruct (similarity_same_fold a b Hfold) as (r' & Hr' & Hone).
    rewrite Hr in Hr'. injection Hr' as <-.
    apply Qle_bool_iff. rewrite Hone. exact Ht.
  - intros t' Ht' Hans. f_equal. apply Qle_bool_iff.
    apply Qle_bool_iff in Hans. now apply Qle_trans with t.
Qed.

(** The two spellings of the repository's test, under the default
    threshold and under a lower one. *)
Lemma fuzzy_match_threshold_witness :
  exists answer,
    fuzzy_match "TechStartup" "Tech Startup" DEDUPLICATION_THRESHOLD = Some answer
    /\ fuzzy_match "techstartup" "Tech Startup" DEDUPLICATION_THRESHOLD = Some answer.
Proof.
  destruct (fuzzy_match_threshold "TechStartup" "Tech Startup" DEDUPLICATION_THRESHOLD)
    as (answer & H1 & H2 & _).
  exists answer. split; [exact H1 | exact H2].
Defined.

(** X16.  A candidate whose name equals, up to case, the name of a
    reference record is reported as a duplicate, wherever that record
    stands in the list, provided the records before it have string
    names. *)
Theorem is_duplicate_detects_case_variants :
  forall (startup_name existing_name : string) (before after : list pydict)
         (existing : pydict),
    (forall e, In e before ->
               isinstance_str (dict_get_default e "name" (PStr "")) = true) ->
    dict_get_default existing "name" (PStr "") = PStr existing_name ->
    lower existing_name = lower startup_name ->
    is_duplicate startup_name (before ++ existing :: after) = Ok true.
Proof.
  intros name en before after existing Hstr Hname Hfold.
  induction before as [|e rest IH]; simpl.
  - rewrite Hname.
    destruct (similarity_same_fold name en (eq_sym Hfold)) as (r & Hr & Hone).
    unfold fuzzy_match. rewrite Hr.
    assert (E : Qle_bool DEDUPLICATION_THRESHOLD r = true).
    { apply Qle_bool_iff. rewrite Hone. unfold DEDUPLICATION_THRESHOLD.
      unfold Qle. simpl. lia. }
    now rewrite E.
  - pose proof (Hstr e (or_introl eq_refl)) as He.
    destruct (dict_get_default e "name" (PStr "")) as [| | | |s| |];
      try discriminate He.
    destruct (similarity_range name s) as (r & Hr & _).
    unfold fuzzy_match. rewrite Hr.
    destruct (Qle_bool DEDUPLICATION_THRESHOLD r); auto.
    apply IH. intros x Hx. apply Hstr. now right.
Qed.

(** "ACME" against a list that holds "acme" in second place. *)
Lemma is_duplicate_detects_case_variants_witness :
  is_duplicate "ACME"
    ([[("name", PStr "Other")]] ++ [("name", PStr "acme")] :: []) = Ok true.
Proof.
  apply (is_duplicate_detects_case_variants "ACME" "acme"
           [[("name", PStr "Other")]] [] [("name", PStr "acme")]).
  - intros e [<-|[]]. reflexivity.
  - reflexivity.
  - reflexivity.
Defined.

(** ** The digest *)

Lemma all_chars_app (P : ascii -> bool) (x y : string) :
  all_chars P (x ++ y)%string = (all_chars P x && all_chars P y)%bool.
Proof.
  induction x as [|c x IH]; simpl; auto. rewrite IH. now rewrite andb_assoc.
Qed.

Lemma hex_char_is_lower_hex (n : Z) :
  (0 <= n < 16)%Z -> is_lower_hex (MD5.hex_char n) = true.
Proof.
  intros H. rewrite <- (Z2Nat.id n) by lia.
  assert (Hk : (Z.to_nat n < 16)%nat) by lia.
  revert Hk. generalize (Z.to_nat n) as k. intros k Hk.
  do 16 (destruct k as [|k]; [reflexivity|]). lia.
Qed.

Lemma hex_of_bytes_lower_hex (l : list Z) :
  Forall (fun x => (0 <= x < 256)%Z) l ->
  all_chars is_lower_hex (MD5.hex_of_bytes l) = true.
Proof.
  induction 1 as [|x l Hx Hl IH]; simpl; auto.
  rewrite IH, !hex_char_is_lower_hex; auto.
  - apply Z.mod_pos_bound. lia.
  - split; [apply Z.div_pos; lia | apply Z.div_lt_upper_bound; lia].
Qed.

Lemma le_bytes_range (n : nat) (x : Z) :
  Forall (fun b => (0 <= b < 256)%Z) (MD5.le_bytes n x).
Proof.
  unfold MD5.le_bytes. rewrite Forall_forall. intros b Hb.
  apply in_map_iff in Hb. destruct Hb as (i & <- & _).
  apply Z.mod_pos_bound. lia.
Qed.

Lemma lower_of_lower_hex (s : string) :
  all_chars is_lower_hex s = true -> lower s = s.
Proof.
  induction s as [|c s IH]; simpl; auto.
  intros H. apply andb_true_iff in H. destruct H as [Hc Hs].
  rewrite (IH Hs). f_equal.
  unfold is_lower_hex in Hc. unfold lower_char.
  destruct ((65 <=? code c) && (code c <=? 90))%N eqn:E1.
  { apply andb_true_iff in E1. destruct E1 as [A B].
    apply N.leb_le in A, B.
    apply orb_true_iff in Hc. destruct Hc as [Hc|Hc];
      apply andb_true_iff in Hc; destruct Hc as [C D];
      apply N.leb_le in C, D; lia. }
  destruct ((192 <=? code c) && (code c <=? 222) && negb (code c =? 215))%N eqn:E2; auto.
  apply andb_true_iff in E2. destruct E2 as [E2 _].
  apply andb_true_iff in E2. destruct E2 as [A B].
  apply N.leb_le in A, B.
  apply orb_true_iff in Hc. destruct Hc as [Hc|Hc];
    apply andb_true_iff in Hc; destruct Hc as [C D];
    apply N.leb_le in C, D; lia.
Qed.

(** X17.  The digest [generate_hash] returns consists of the characters
    [0123456789abcdef] only; in particular lower-casing a digest leaves
    it as it is. *)
Theorem content_hash_is_lowercase_hex :
  forall (name website founded_date : string),
    all_chars is_lower_hex (generate_hash name website founded_date) = true
    /\ lower (generate_hash name website founded_date)
       = generate_hash name website founded_date.
Proof.
  intros name website founded_date.
  assert (H : all_chars is_lower_hex (generate_hash name website founded_date) = true).
  { unfold generate_hash, MD5.hexdigest, MD5.digest.
    destruct (fold_left MD5.process_block _ MD5.init_state) as [[[A B] C] D].
    apply hex_of_bytes_lower_hex.
    repeat (apply Forall_app; split); apply le_bytes_range. }
  split; auto. now apply lower_of_lower_hex.
Qed.

(* ================================================================== *)
(** * Searching and fetching *)
(* ================================================================== *)

(** ** [search_google] *)

Lemma collect_items_ok (items : list pyval) :
  forall results out,
    collect_items items results = Ok out ->
    Forall (fun x => isinstance_dict x = true) items
    /\ exists new,
         out = results ++ new
         /\ List.length new = List.length items
         /\ Forall (fun r => map fst r = ["title"; "link"; "snippet"]) new.
Proof.
  induction items as [|x items IH]; intros results out H; simpl in H.
  - injection H as <-. split; [constructor|]. exists []. rewrite app_nil_r.
    repeat split; constructor.
  - destruct x; try discriminate.
    destruct (IH _ _ H) as (Hd & new & -> & Hlen & Hk).
    split; [constructor; auto|].
    exists (google_result d :: new). rewrite <- app_assoc. simpl.
    repeat split; auto.
Qed.

Lemma read_response_ok (data : pyval) (out : list pydict) :
  read_response data = Ok out ->
  out = []
  \/ exists d items,
       data = PDict d
       /\ dict_find d "items" = Some (PList items)
       /\ Forall (fun x => isinstance_dict x = true) items
       /\ List.length out = List.length items
       /\ Forall (fun r => map fst r = ["title"; "link"; "snippet"]) out.
Proof.
  destruct data as [| | | |s|l|d]; simpl; try discriminate.
  - destruct (occurs "items" s); [discriminate|]. intros H. injection H as <-. auto.
  - destruct (existsb _ l); [discriminate|]. intros H. injection H as <-. auto.
  - destruct (dict_find d "items") as [[| | | |s|items|d']|] eqn:E; try discriminate.
    + destruct s; [|discriminate]. intros H. injection H as <-. auto.
    + intros H. apply collect_items_ok in H.
      destruct H as (Hd & new & -> & Hlen & Hk). right.
      exists d, items. repeat split; auto.
    + destruct d'; [|discriminate]. intros H. injection H as <-. auto.
    + intros H. injection H as <-. auto.
Qed.

Lemma retry_loop_spec (responses : nat -> attempt) (remaining : nat) :
  forall attempt,
    let (results, requests) := retry_loop responses remaining attempt in
    (requests <= attempt + remaining)%nat
    /\ (attempt <= requests)%nat
    /\ Forall (fun r => map fst r = ["title"; "link"; "snippet"]) results
    /\ (results <> [] ->
        exists k d items,
          requests = S k /\ (attempt <= k)%nat
          /\ (forall j, (attempt <= j < k)%nat -> responses j = RequestException)
          /\ responses k = Response (PDict d)
          /\ dict_find d "items" = Some (PList items)
          /\ Forall (fun x => isinstance_dict x = true) items
          /\ List.length results = List.length items).
Proof.
  induction remaining as [|remaining IH]; intros attempt; simpl.
  - repeat split; auto; try lia. congruence.
  - destruct (responses attempt) as [| |data] eqn:E.
    + specialize (IH (S attempt)).
      destruct (retry_loop responses remaining (S attempt)) as [results requests].
      destruct IH as (H1 & H2 & H3 & H4).
      repeat split; auto; try lia.
      intros Hne. destruct (H4 Hne) as (k & d & items & -> & Hk & Hj & Hrest).
      exists k, d, items. repeat split; auto; try lia; try tauto.
      intros j Hjk. destruct (Nat.eq_dec j attempt) as [->|Hneq]; auto.
      apply Hj. lia.
    + repeat split; auto; try lia. congruence.
    + destruct (read_response data) as [results|e] eqn:Er.
      * destruct (read_response_ok _ _ Er)
          as [->|(d & items & -> & Hi & Hd & Hlen & Hk)].
        -- repeat split; auto; try lia. congruence.
        -- repeat split; auto; try lia.
           intros _. exists attempt, d, items. repeat split; auto. intros j Hj. lia.
      * repeat split; auto; try lia. congruence.
Qed.

(** X18.  [search_google] makes at most [MAX_RETRIES] requests, and
    none when the keys are not configured.  Every dictionary it returns
    has exactly the keys ['title'], ['link'] and ['snippet'].  What it
    returns is all or nothing: a non-empty result comes from the first
    attempt that did not end in a [RequestException], whose response is
    a dictionary with a list under ['items'] all of whose elements are
    dictionaries, and it has one entry for each of them; a single
    malformed item makes the whole result empty. *)
Theorem google_results_all_or_nothing :
  forall (configured : bool) (responses : nat -> attempt)
         (results : list pydict) (requests : nat),
    search_google configured responses = (results, requests) ->
    (requests <= MAX_RETRIES)%nat
    /\ (configured = false -> results = [] /\ requests = 0%nat)
    /\ Forall (fun r => map fst r = ["title"; "link"; "snippet"]) results
    /\ (results <> [] ->
        exists k d items,
          requests = S k
          /\ (forall j, (j < k)%nat -> responses j = RequestException)
          /\ responses k = Response (PDict d)
          /\ dict_find d "items" = Some (PList items)
          /\ Forall (fun x => isinstance_dict x = true) items
          /\ List.length results = List.length items).
Proof.
  intros configured responses results requests H. unfold search_google in H.
  destruct configured.
  - pose proof (retry_loop_spec responses MAX_RETRIES 0) as Hs.
    rewrite H in Hs. destruct Hs as (H1 & _ & H3 & H4).
    split; [exact H1|]. split; [discriminate|]. split; [exact H3|].
    intros Hne. destruct (H4 Hne) as (k & d & items & Hk & _ & Hj & Hrest).
    exists k, d, items. split; auto. split; auto. intros j Hjk. apply Hj. lia.
  - injection H as <- <-. split; [apply Nat.le_0_l|]. split; auto.
    split; [constructor|]. congruence.
Qed.

(** A request that fails once, then answers with one item. *)
Lemma google_results_all_or_nothing_witness :
  (2 <= MAX_RETRIES)%nat
  /\ Forall (fun r => map fst r = ["title"; "link"; "snippet"])
       [google_result acme_hit].
Proof.
  destruct (google_results_all_or_nothing true second_attempt_answers
              [google_result acme_hit] 2%nat) as (H1 & _ & H3 & _).
  - reflexivity.
  - split; [exact H1 | exact H3].
Defined.

(** ** [search_recent_startups] *)

Lemma ForallOrdPairs_snoc {X : Type} (R : X -> X -> Prop) (l : list X) (x : X) :
  ForallOrdPairs R l -> Forall (fun y => R y x) l -> ForallOrdPairs R (l ++ [x]).
Proof.
  induction 1 as [|a l Ha Hl IH]; intros Hx; simpl.
  - constructor; constructor.
  - apply Forall_cons_iff in Hx. destruct Hx as [Hax Hx].
    constructor; auto. apply Forall_app. split; auto.
Qed.

Lemma represented_app (r : pydict) (out more : list pydict) :
  represented r out -> represented r (out ++ more).
Proof.
  intros [H|(r' & H & E)]; [left | right; exists r'; split; auto];
    apply in_or_app; auto.
Qed.

Section SearchFacts.
Variable c : search_clock.

Lemma filter_results_inv (origin : pydict -> Prop) (results : list pydict) :
  forall all_results seen_titles out seen',
    Forall origin results ->
    search_inv c origin all_results seen_titles ->
    filter_results c results all_results seen_titles = Ok (out, seen') ->
    search_inv c origin out seen'
    /\ (exists more, out = all_results ++ more)
    /\ (forall r, In r results -> recent_result c r -> represented r out).
Proof.
  induction results as [|r rest IH]; intros all seen out seen' Ho Hinv H; simpl in H.
  - injection H as <- <-. split; auto. split; [exists []; now rewrite app_nil_r|].
    intros r [].
  - apply Forall_cons_iff in Ho. destruct Ho as [Hor Ho].
    destruct (hashable (title_of r)); [|discriminate].
    destruct (existsb (fun t => py_key_eqb t (title_of r)) seen) eqn:Hseen.
    + destruct (IH _ _ _ _ Ho Hinv H) as (Hinv' & (more & ->) & Hrep).
      split; auto. split; [eauto|].
      intros x [<-|Hx] Hrec; auto.
      apply represented_app. right.
      apply existsb_exists in Hseen. destruct Hseen as (t & Ht & Et).
      destruct Hinv as (-> & _). apply in_map_iff in Ht.
      destruct Ht as (r' & <- & Hr'). eauto.
    + destruct (dict_get_default r "snippet" (PStr "")) as [| | | |snippet| |] eqn:Hsn;
        try discriminate.
      destruct (mentions_recent c (lower snippet)) eqn:Hrec.
      * assert (Hinv1 : search_inv c origin (all ++ [r]) (seen ++ [title_of r])).
        { destruct Hinv as (-> & Hd & Hr & Horg).
          split; [now rewrite map_app|]. split; [|split].
          - apply ForallOrdPairs_snoc; auto.
            rewrite Forall_forall. intros y Hy.
            destruct (py_key_eqb (title_of y) (title_of r)) eqn:E; auto.
            assert (existsb (fun t => py_key_eqb t (title_of r))
                      (map title_of all) = true).
            { apply existsb_exists. exists (title_of y). split; auto.
              now apply in_map. }
            congruence.
          - apply Forall_app. split; auto. constructor; [|constructor].
            exists snippet. auto.
          - apply Forall_app. split; auto. }
        destruct (IH _ _ _ _ Ho Hinv1 H) as (Hinv' & (more & ->) & Hrep).
        split; auto. split; [exists ([r] ++ more); now rewrite app_assoc|].
        intros x [<-|Hx] Hx'; auto.
        left. apply in_or_app. left. apply in_or_app. right. now left.
      * destruct (IH _ _ _ _ Ho Hinv H) as (Hinv' & (more & ->) & Hrep).
        split; auto. split; [eauto|].
        intros x [<-|Hx] Hx'; auto.
        destruct Hx' as (sn & Hsn' & Hrec').
        rewrite Hsn in Hsn'. injection Hsn' as <-. congruence.
Qed.

Variables google_search fallback_search : string -> list pydict.

Lemma query_loop_inv (origin : pydict -> Prop) (queries : list string) :
  forall all_results seen_titles out seen',
    (forall q r, In q queries ->
                 In r (results_for google_search fallback_search q) ->
                 origin r) ->
    search_inv c origin all_results seen_titles ->
    query_loop google_search fallback_search c queries all_results seen_titles
    = Ok (out, seen') ->
    search_inv c origin out seen'
    /\ (exists more, out = all_results ++ more)
    /\ (forall q r, In q queries ->
          In r (results_for google_search fallback_search q) ->
          recent_result c r -> represented r out).
Proof.
  induction queries as [|q rest IH]; intros all seen out seen' Ho Hinv H; simpl in H.
  - injection H as <- <-. split; auto. split; [exists []; now rewrite app_nil_r|].
    intros q r [].
  - bind_inv H. destruct x as [all1 seen1]. simpl in H.
    assert (Ho1 : Forall origin (results_for google_search fallback_search q)).
    { rewrite Forall_forall. intros r Hr. apply (Ho q r); auto. now left. }
    destruct (filter_results_inv origin _ _ _ _ _ Ho1 Hinv Hx)
      as (Hinv1 & (more1 & ->) & Hrep1).
    destruct (IH _ _ _ _ (fun q' r Hq => Ho q' r (or_intror Hq)) Hinv1 H)
      as (Hinv2 & (more2 & ->) & Hrep2).
    split; auto. split; [exists (more1 ++ more2); now rewrite app_assoc|].
    intros q' r [<-|Hq] Hr Hrec; eauto.
    apply represented_app. auto.
Qed.

End SearchFacts.

(** X19.  When [search_recent_startups] returns, no two of its results
    have equal titles; every result has a string snippet that, in lower
    case, mentions the current year or the lower-cased name of the
    current or the previous month; every result was among the answers
    to one of the eleven queries, from the fallback only if Google gave
    nothing for that query; and every answer with such a snippet is
    represented in the result, by itself or by an earlier answer with
    an equal title. *)
Theorem recent_search_results :
  forall (google_search fallback_search : string -> list pydict)
         (c : search_clock) (out : list pydict),
    search_recent_startups google_search fallback_search c = Ok out ->
    distinct_titles out
    /\ Forall (recent_result c) out
    /\ Forall (fun r => exists q,
                 In q (search_queries c)
                 /\ (In r (google_search q)
                     \/ (google_search q = [] /\ In r (fallback_search q))))
         out
    /\ (forall q r,
          In q (search_queries c) ->
          In r (results_for google_search fallback_search q) ->
          recent_result c r -> represented r out).
Proof.
  intros g f c out H. unfold search_recent_startups in H.
  bind_inv H. destruct x as [all seen]. simpl in H. injection H as <-.
  set (origin := fun r => exists q,
                   In q (search_queries c)
                   /\ (In r (g q) \/ (g q = [] /\ In r (f q)))).
  destruct (query_loop_inv c g f origin (search_queries c) [] [] all seen)
    as ((_ & Hd & Hr & Ho) & _ & Hrep); auto.
  - intros q r Hq Hr. exists q. split; auto.
    unfold results_for in Hr. destruct (g q); auto.
  - repeat split; constructor.
Qed.

(** Both answers of the example back end to every query: one result. *)
Lemma recent_search_results_witness :
  distinct_titles [acme_hit] /\ Forall (recent_result november_2024) [acme_hit].
Proof.
  destruct (recent_search_results one_hit no_hit november_2024 [acme_hit])
    as (H1 & H2 & _).
  - vm_compute. reflexivity.
  - split; [exact H1 | exact H2].
Defined.

(** X20.  The fallback search matters only for the queries Google
    answered with nothing: two fallbacks that agree on those queries
    give the same result, and the same exception if there is one. *)
Theorem fallback_only_when_google_is_empty :
  forall (google_search fallback1 fallback2 : string -> list pydict)
         (c : search_clock),
    (forall q, In q (search_queries c) ->
               google_search q = [] -> fallback1 q = fallback2 q) ->
    search_recent_startups google_search fallback1 c
    = search_recent_startups google_search fallback2 c.
Proof.
  intros g f1 f2 c H. unfold search_recent_startups. f_equal.
  generalize (@nil pydict) (@nil pyval).
  induction (search_queries c) as [|q rest IH]; intros all seen; simpl; auto.
  assert (E : results_for g f1 q = results_for g f2 q).
  { unfold results_for. destruct (g q) eqn:Eg; auto. apply H; auto. now left. }
  rewrite E. destruct (filter_results c (results_for g f2 q) all seen) as [[a s]|e];
    simpl; auto.
  apply IH. intros q' Hq. apply H. now right.
Qed.

(** Google answers every query, so the fallback is never consulted. *)
Lemma fallback_only_when_google_is_empty_witness :
  search_recent_startups one_hit no_hit november_2024
  = search_recent_startups one_hit one_hit november_2024.
Proof.
  apply (fallback_only_when_google_is_empty one_hit no_hit one_hit november_2024).
  intros q _ H. discriminate H.
Defined.

(** ** [fetch_url_content] *)

Lemma first_chars_length (n : nat) (s : string) :
  (String.length (first_chars n s) <= n)%nat.
Proof.
  unfold first_chars. revert s. induction n as [|n IH]; intros s.
  - destruct s; simpl; lia.
  - destruct s as [|c s]; simpl; [lia|]. specialize (IH s). lia.
Qed.

Lemma is_space_py_space (c : ascii) : is_space c = true -> is_py_space c = true.
Proof.
  unfold is_space, is_py_space. intros H. apply N.eqb_eq in H. now rewrite H.
Qed.

Lemma all_chars_lstrip (P : ascii -> bool) (s : string) :
  all_chars P s = true -> all_chars P (lstrip s) = true.
Proof.
  induction s as [|c s IH]; simpl; auto.
  intros H. apply andb_true_iff in H. destruct H as [Hc Hs].
  destruct (is_py_space c); auto. simpl. now rewrite Hc, Hs.
Qed.

Lemma all_chars_rstrip (P : ascii -> bool) (s : string) :
  all_chars P s = true -> all_chars P (rstrip s) = true.
Proof.
  induction s as [|c s IH]; simpl; auto.
  intros H. apply andb_true_iff in H. destruct H as [Hc Hs].
  specialize (IH Hs).
  destruct (rstrip s) as [|d r'].
  - destruct (is_py_space c); simpl; auto. now rewrite Hc.
  - simpl in *. now rewrite Hc, IH.
Qed.

Lemma all_chars_strip (P : ascii -> bool) (s : string) :
  all_chars P s = true -> all_chars P (strip s) = true.
Proof. intros H. unfold strip. now apply all_chars_rstrip, all_chars_lstrip. Qed.

Lemma no_double_space_tail (c : ascii) (s : string) :
  no_double_space (String c s) = true -> no_double_space s = true.
Proof. simpl. intros H. apply andb_true_iff in H. tauto. Qed.

Lemma no_double_space_lstrip (s : string) :
  no_double_space s = true -> no_double_space (lstrip s) = true.
Proof.
  induction s as [|c s IH]; auto.
  intros H. simpl lstrip. destruct (is_py_space c); auto.
  apply IH. eapply no_double_space_tail; eauto.
Qed.

Lemma rstrip_starts (P : ascii -> bool) (s : string) :
  starts_with P (rstrip s) = true -> starts_with P s = true.
Proof.
  destruct s as [|c s]; simpl; auto.
  destruct (rstrip s); [destruct (is_py_space c)|]; simpl; auto. discriminate.
Qed.

Lemma no_double_space_rstrip (s : string) :
  no_double_space s = true -> no_double_space (rstrip s) = true.
Proof.
  induction s as [|c s IH]; auto.
  intros H. pose proof (no_double_space_tail _ _ H) as Hs. specialize (IH Hs).
  simpl in H. apply andb_true_iff in H. destruct H as [Hc _].
  simpl rstrip. destruct (rstrip s) as [|d r'] eqn:E.
  - destruct (is_py_space c); reflexivity || (simpl; now rewrite andb_false_r).
  - change (no_double_space (String c (String d r')))
      with (negb (is_space c && is_space d) && no_double_space (String d r'))%bool.
    rewrite IH, andb_true_r.
    destruct (is_space c) eqn:Ec; auto. simpl in *.
    destruct (is_space d) eqn:Ed; auto.
    assert (Hst : starts_with is_space s = true).
    { apply rstrip_starts. rewrite E. exact Ed. }
    rewrite Hst in Hc. discriminate.
Qed.

Lemma no_double_space_strip (s : string) :
  no_double_space s = true -> no_double_space (strip s) = true.
Proof.
  intros H. unfold strip. now apply no_double_space_rstrip, no_double_space_lstrip.
Qed.

Lemma lstrip_starts (s : string) : starts_with is_py_space (lstrip s) = false.
Proof.
  induction s as [|c s IH]; simpl; auto.
  destruct (is_py_space c) eqn:E; auto.
Qed.

Lemma rstrip_ends (s : string) : ends_with is_py_space (rstrip s) = false.
Proof.
  induction s as [|c s IH]; simpl; auto.
  destruct (rstrip s) as [|d r'] eqn:E.
  - destruct (is_py_space c) eqn:Ec; simpl; auto.
  - exact IH.
Qed.

Lemma strip_starts (s : string) : starts_with is_py_space (strip s) = false.
Proof.
  unfold strip. destruct (starts_with is_py_space (rstrip (lstrip s))) eqn:E; auto.
  apply rstrip_starts in E. now rewrite lstrip_starts in E.
Qed.

Lemma strip_ends (s : string) : ends_with is_py_space (strip s) = false.
Proof. apply rstrip_ends. Qed.

Lemma starts_space_py (s : string) :
  starts_with is_py_space s = false -> starts_with is_space s = false.
Proof.
  destruct s as [|c s]; simpl; auto. intros H.
  destruct (is_space c) eqn:E; auto. apply is_space_py_space in E. congruence.
Qed.

Lemma ends_space_py (s : string) :
  ends_with is_py_space s = false -> ends_with is_space s = false.
Proof.
  induction s as [|c s IH]; simpl; auto.
  destruct s as [|d s]; auto. intros H.
  destruct (is_space c) eqn:E; auto. apply is_space_py_space in E. congruence.
Qed.

Lemma split_double_space_pieces (P : ascii -> bool) (n : nat) :
  forall s, (String.length s <= n)%nat ->
    Forall (fun piece => no_double_space piece = true) (split_double_space s)
    /\ (all_chars P s = true ->
        Forall (fun piece => all_chars P piece = true) (split_double_space s))
    /\ (forall piece pieces, split_double_space s = piece :: pieces ->
          starts_with is_space piece = true -> starts_with is_space s = true).
Proof.
  induction n as [|n IH]; intros s Hlen.
  - destruct s; simpl in Hlen; [|lia]. simpl.
    repeat split; auto. intros piece pieces H. now injection H as <- <-.
  - destruct s as [|c r]; [simpl; repeat split; auto;
                           intros piece pieces H; now injection H as <- <-|].
    simpl in Hlen. destruct r as [|d r2].
    + simpl. split; [constructor; auto; simpl; now rewrite andb_false_r|].
      split; [intros H; constructor; auto|].
      intros piece pieces H. now injection H as <- <-.
    + change (split_double_space (String c (String d r2)))
        with (if (is_space c && is_space d)%bool
              then EmptyString :: split_double_space r2
              else match split_double_space (String d r2) with
                   | [] => [String c EmptyString]
                   | piece :: pieces => String c piece :: pieces
                   end).
      destruct (is_space c && is_space d)%bool eqn:Ecd.
      * destruct (IH r2) as (H1 & H2 & _); [simpl in Hlen; lia|].
        split; [constructor; auto|]. split.
        -- intros H. simpl in H. constructor; auto. apply H2.
           repeat (apply andb_true_iff in H; destruct H as [? H]). auto.
        -- intros piece pieces H. injection H as <- <-. discriminate.
      * destruct (IH (String d r2)) as (H1 & H2 & H3); [lia|].
        destruct (split_double_space (String d r2)) as [|piece pieces] eqn:E.
        -- split; [constructor; auto; simpl; now rewrite andb_false_r|].
           split; [|intros p ps H; now injection H as <- <-].
           intros H. simpl in H. apply andb_true_iff in H. destruct H as [H _].
           constructor; auto. simpl. now rewrite H.
        -- apply Forall_cons_iff in H1. destruct H1 as [Hp Hps].
           split; [|split].
           ++ constructor; auto. simpl. rewrite Hp, andb_true_r.
              destruct (is_space c) eqn:Ec; auto. simpl in Ecd. simpl.
              destruct (starts_with is_space piece) eqn:Es; auto.
              specialize (H3 _ _ eq_refl Es). simpl in H3. congruence.
           ++ intros H. simpl in H. apply andb_true_iff in H. destruct H as [Hc H].
              specialize (H2 H). apply Forall_cons_iff in H2. destruct H2 as [Hp2 Hps2].
              constructor; auto. simpl. now rewrite Hc.
           ++ intros p ps H. injection H as <- <-. auto.
Qed.

Lemma splitlines_lines (P : ascii -> bool) (n : nat) :
  forall s, (String.length s <= n)%nat ->
    Forall (fun line => all_chars (fun c => negb (is_line_boundary c)) line = true)
      (splitlines s)
    /\ (all_chars P s = true ->
        Forall (fun line => all_chars P line = true) (splitlines s)).
Proof.
  induction n as [|n IH]; intros s Hlen.
  - destruct s; simpl in Hlen; [split; constructor | lia].
  - destruct s as [|c r]; [split; constructor|]. simpl in Hlen.
    simpl. destruct (is_line_boundary c) eqn:Ec.
    + assert (Hr : (String.length
                      match r with
                      | EmptyString => r
                      | String d r2 =>
                          if ((code c =? 13) && (code d =? 10))%N then r2 else r
                      end <= n)%nat).
      { destruct r as [|d r2]; [simpl in *; lia|].
        destruct ((code c =? 13) && (code d =? 10))%N; simpl in *; lia. }
      destruct (IH _ Hr) as [H1 H2]. split; [constructor; auto|].
      intros H. apply andb_true_iff in H. destruct H as [_ H].
      constructor; auto. apply H2.
      destruct r as [|d r2]; auto.
      destruct ((code c =? 13) && (code d =? 10))%N; auto.
      simpl in H. apply andb_true_iff in H. tauto.
    + destruct (IH r (proj2 (Nat.succ_le_mono _ _) Hlen)) as [H1 H2].
      destruct (splitlines r) as [|line lines].
      * split; [constructor; auto; simpl; now rewrite Ec|].
        intros H. apply andb_true_iff in H. destruct H as [Hc _].
        constructor; auto. simpl. now rewrite Hc.
      * apply Forall_cons_iff in H1. destruct H1 as [Hl Hls].
        split; [constructor; auto; simpl; now rewrite Ec|].
        intros H. apply andb_true_iff in H. destruct H as [Hc H].
        specialize (H2 H). apply Forall_cons_iff in H2. destruct H2 as [Hl2 Hls2].
        constructor; auto. simpl. now rewrite Hc.
Qed.

Lemma no_double_space_app (x z : string) :
  no_double_space x = true -> no_double_space z = true ->
  (ends_with is_space x && starts_with is_space z)%bool = false ->
  no_double_space (x ++ z)%string = true.
Proof.
  induction x as [|c x IH]; intros Hx Hz He; auto.
  pose proof (no_double_space_tail _ _ Hx) as Hx'.
  simpl in Hx. apply andb_true_iff in Hx. destruct Hx as [Hc _].
  simpl append. simpl no_double_space.
  destruct x as [|d x].
  - simpl append. simpl in He. rewrite Hz, andb_true_r.
    destruct (is_space c); auto. simpl in *. now rewrite He.
  - rewrite IH; auto. rewrite andb_true_r. exact Hc.
Qed.

Lemma no_double_space_prefix (x z : string) :
  no_double_space (x ++ z)%string = true -> no_double_space x = true.
Proof.
  induction x as [|c x IH]; auto. simpl append. intros H.
  pose proof (no_double_space_tail _ _ H) as H'. specialize (IH H').
  simpl in H. apply andb_true_iff in H. destruct H as [Hc _].
  simpl. rewrite IH, andb_true_r.
  destruct x as [|d x]; [simpl; now rewrite andb_false_r | exact Hc].
Qed.

Lemma first_chars_prefix (n : nat) (s : string) :
  exists rest, s = (first_chars n s ++ rest)%string.
Proof.
  unfold first_chars. revert s. induction n as [|n IH]; intros s.
  - exists s. destruct s; reflexivity.
  - destruct s as [|c s]; [exists EmptyString; reflexivity|].
    destruct (IH s) as (rest & Hrest). exists rest. simpl. now rewrite <- Hrest.
Qed.

Lemma starts_with_app (P : ascii -> bool) (x z : string) :
  x <> EmptyString -> starts_with P (x ++ z)%string = starts_with P x.
Proof. destruct x; [congruence | reflexivity]. Qed.

Lemma ends_with_app (P : ascii -> bool) (x z : string) :
  z <> EmptyString -> ends_with P (x ++ z)%string = ends_with P z.
Proof.
  intros Hz. induction x as [|c x IH]; auto.
  simpl append. simpl ends_with. rewrite IH.
  destruct (x ++ z)%string eqn:E; auto.
  destruct x; simpl in E; [congruence | discriminate].
Qed.

Lemma join_space_clean (l : list string) :
  Forall (fun ch => ch <> EmptyString /\ clean_text ch) l ->
  clean_text (join_space l) /\ (l <> [] -> join_space l <> EmptyString).
Proof.
  induction l as [|x l IH]; intros H.
  - split; [repeat split; reflexivity | congruence].
  - apply Forall_cons_iff in H. destruct H as [(Hne & Hb & Hd & Hs & He) Hl].
    destruct (IH Hl) as [(Hb' & Hd' & Hs' & He') Hne'].
    destruct l as [|y l]; [split; [repeat split; auto | auto]|].
    assert (Hj : join_space (y :: l) <> EmptyString) by (apply Hne'; discriminate).
    change (join_space (x :: y :: l))
      with (x ++ String " " (join_space (y :: l)))%string.
    split; [|destruct x; [congruence | discriminate]].
    repeat split.
    + rewrite all_chars_app, Hb. cbn [all_chars andb].
      change (not_line_boundary " ") with true. exact Hb'.
    + apply no_double_space_app; auto.
      * cbn [no_double_space]. rewrite Hd', andb_true_r.
        now rewrite (starts_space_py _ Hs').
      * now rewrite (ends_space_py _ He).
    + now rewrite starts_with_app.
    + rewrite ends_with_app by discriminate.
      cbn [ends_with]. destruct (join_space (y :: l)); [congruence | exact He'].
Qed.

Lemma strip_blank (s : string) :
  all_chars is_py_space s = true -> strip s = EmptyString.
Proof.
  unfold strip. induction s as [|c s IH]; simpl; auto.
  intros H. apply andb_true_iff in H. destruct H as [Hc Hs]. rewrite Hc. auto.
Qed.

Lemma chunks_clean (text : string) :
  Forall (fun ch => ch <> EmptyString /\ clean_text ch)
    (filter (fun chunk => negb (chunk =? ""))
       (flat_map (fun line => map strip (split_double_space line))
          (map strip (splitlines text)))).
Proof.
  rewrite Forall_forall. intros ch Hch.
  apply filter_In in Hch. destruct Hch as [Hin Hne].
  apply negb_true_iff, String.eqb_neq in Hne. split; auto.
  apply in_flat_map in Hin. destruct Hin as (line' & Hline' & Hin).
  apply in_map_iff in Hin. destruct Hin as (piece & <- & Hpiece).
  apply in_map_iff in Hline'. destruct Hline' as (line & <- & Hline).
  destruct (splitlines_lines not_line_boundary _ text (le_n _)) as [Hb _].
  rewrite Forall_forall in Hb. specialize (Hb line Hline).
  destruct (split_double_space_pieces not_line_boundary _ (strip line) (le_n _))
    as (Hd & Hb2 & _).
  rewrite Forall_forall in Hd. specialize (Hd piece Hpiece).
  specialize (Hb2 (all_chars_strip _ _ Hb)).
  rewrite Forall_forall in Hb2. specialize (Hb2 piece Hpiece).
  repeat split.
  - now apply all_chars_strip.
  - now apply no_double_space_strip.
  - apply strip_starts.
  - apply strip_ends.
Qed.

Lemma clean_whitespace_blank (text : string) :
  all_chars is_py_space text = true -> clean_whitespace text = EmptyString.
Proof.
  intros H. unfold clean_whitespace.
  destruct (splitlines_lines is_py_space _ text (le_n _)) as [_ Hl].
  specialize (Hl H).
  induction (splitlines text) as [|line lines IH]; auto.
  apply Forall_cons_iff in Hl. destruct Hl as [Hline Hlines].
  simpl. rewrite (strip_blank _ Hline). simpl. auto.
Qed.

(** X21.  What [fetch_url_content] returns has at most 1000
    characters, no line boundary, no two spaces in a row and no white
    space at its start.  For a page whose text is blank it is the empty
    string, as it is when the request fails.  When the cleaned text has
    at most 1000 characters it is returned whole, and then it has no
    white space at its end either. *)
Theorem fetched_text_is_clean :
  forall (page_text : outcome string),
    (String.length (fetch_url_content page_text) <= 1000)%nat
    /\ all_chars not_line_boundary (fetch_url_content page_text) = true
    /\ no_double_space (fetch_url_content page_text) = true
    /\ starts_with is_py_space (fetch_url_content page_text) = false
    /\ (forall text, page_text = Ok text ->
          all_chars is_py_space text = true ->
          fetch_url_content page_text = EmptyString)
    /\ (forall text, page_text = Ok text ->
          (String.length (clean_whitespace text) <= 1000)%nat ->
          fetch_url_content page_text = clean_whitespace text
          /\ ends_with is_py_space (clean_whitespace text) = false).
Proof.
  intros [text|e]; simpl.
  - destruct (join_space_clean _ (chunks_clean text)) as [(Hb & Hd & Hs & He) _].
    fold (clean_whitespace text) in Hb, Hd, Hs, He.
    destruct (first_chars_prefix 1000 (clean_whitespace text)) as (rest & Hrest).
    split; [apply first_chars_length|].
    split; [|split; [|split; [|split]]].
    + rewrite Hrest, all_chars_app in Hb. apply andb_true_iff in Hb. tauto.
    + rewrite Hrest in Hd. eapply no_double_space_prefix; eauto.
    + destruct (first_chars 1000 (clean_whitespace text)) eqn:E; auto.
      rewrite Hrest in Hs. exact Hs.
    + intros t Ht Hblank. injection Ht as <-.
      now rewrite (clean_whitespace_blank _ Hblank).
    + intros t Ht Hlen. injection Ht as <-. split; auto.
      unfold first_chars. clear -Hlen.
      revert Hlen. generalize (clean_whitespace text) as s. generalize 1000%nat as n.
      induction n as [|n IH]; intros s Hlen.
      * destruct s; [reflexivity | simpl in Hlen; lia].
      * destruct s as [|c s]; auto. simpl. rewrite IH; auto. simpl in Hlen. lia.
  - split; [apply Nat.le_0_l|]. split; [reflexivity|]. split; [reflexivity|].
    split; [reflexivity|]. split; intros text H; discriminate.
Qed.

(** A page of three words on two lines. *)
Lemma fetched_text_is_clean_witness :
  (String.length (fetch_url_content (Ok "  one   two \n three ")) <= 1000)%nat
  /\ no_double_space (fetch_url_content (Ok "  one   two \n three ")) = true.
Proof.
  destruct (fetched_text_is_clean (Ok "  one   two \n three ")) as (H1 & _ & H3 & _).
  split; [exact H1 | exact H3].
Defined.

(* ================================================================== *)
(** * Run identifiers and the tracker *)
(* ================================================================== *)

(** ** [generate_run_id] *)

Lemma Z_to_int_nonnil (a : Z) :
  Z.to_int a <> Decimal.Pos Decimal.Nil /\ Z.to_int a <> Decimal.Neg Decimal.Nil.
Proof.
  destruct a as [|p|p]; simpl; split; try discriminate;
    intros H; injection H as H; now apply Unsigned.to_uint_nonnil in H.
Qed.

Lemma Z_to_string_inj (a b : Z) : Z_to_string a = Z_to_string b -> a = b.
Proof.
  unfold Z_to_string. intros H.
  assert (E : NilZero.int_of_string (NilZero.string_of_int (Z.to_int a))
              = NilZero.int_of_string (NilZero.string_of_int (Z.to_int b)))
    by now rewrite H.
  destruct (Z_to_int_nonnil a) as [Ha1 Ha2].
  destruct (Z_to_int_nonnil b) as [Hb1 Hb2].
  rewrite !NilZero.isi in E by auto. injection E as E.
  rewrite <- (DecimalZ.of_to a), <- (DecimalZ.of_to b). now rewrite E.
Qed.

Lemma append_inj_same_length (a b x y : string) :
  (a ++ x)%string = (b ++ y)%string -> String.length x = String.length y ->
  a = b /\ x = y.
Proof.
  revert b. induction a as [|c a IH]; intros b H Hlen.
  - destruct b as [|d b]; [auto|]. simpl in H.
    assert (E : String.length x = String.length (String d (b ++ y)))
      by now rewrite H.
    simpl in E. rewrite string_length_app in E. lia.
  - destruct b as [|d b].
    + simpl in H.
      assert (E : String.length (String c (a ++ x)) = String.length y)
        by now rewrite H.
      simpl in E. rewrite string_length_app in E. lia.
    + simpl in H. injection H as -> H.
      destruct (IH b H Hlen) as [-> ->]. auto.
Qed.

Lemma digit_inj (a b : Z) :
  (0 <= a <= 9)%Z -> (0 <= b <= 9)%Z -> digit a = digit b -> a = b.
Proof.
  intros Ha Hb H. unfold digit in H.
  assert (E : N_of_ascii (ascii_of_N (48 + Z.to_N a))
              = N_of_ascii (ascii_of_N (48 + Z.to_N b))) by now rewrite H.
  rewrite !N_ascii_embedding in E by lia. lia.
Qed.

Lemma two_digits_inj (a b : Z) :
  (0 <= a <= 99)%Z -> (0 <= b <= 99)%Z -> two_digits a = two_digits b -> a = b.
Proof.
  intros Ha Hb H. unfold two_digits in H. injection H as H1 H2.
  assert (Qa : (0 <= a / 10 <= 9)%Z).
  { split; [apply Z.div_pos; lia|].
    assert (a / 10 < 10)%Z by (apply Z.div_lt_upper_bound; lia). lia. }
  assert (Qb : (0 <= b / 10 <= 9)%Z).
  { split; [apply Z.div_pos; lia|].
    assert (b / 10 < 10)%Z by (apply Z.div_lt_upper_bound; lia). lia. }
  pose proof (Z.mod_pos_bound a 10 eq_refl) as Ra.
  pose proof (Z.mod_pos_bound b 10 eq_refl) as Rb.
  apply digit_inj in H1; [|lia..].
  apply digit_inj in H2; [|lia..].
  rewrite (Z.div_mod a 10), (Z.div_mod b 10) by lia. lia.
Qed.

(** X22.  [generate_run_id] tells seconds apart and nothing finer: two
    clock readings with the same run identifier are the same date and
    time to the second.  So two runs get the same identifier exactly
    when they start within the same second. *)
Theorem run_id_identifies_the_second :
  forall (t1 t2 : datetime),
    valid_datetime t1 -> valid_datetime t2 ->
    generate_run_id t1 = generate_run_id t2 ->
    t1 = t2.
Proof.
  intros [y1 m1 d1 h1 mi1 s1] [y2 m2 d2 h2 mi2 s2] V1 V2 H.
  unfold valid_datetime in *. simpl in V1, V2.
  unfold generate_run_id, strftime_run in H. simpl in H.
  injection H as H.
  apply append_inj_same_length in H; [|reflexivity].
  destruct H as [Hy H]. apply Z_to_string_inj in Hy.
  unfold two_digits in H. simpl in H.
  injection H as M1 M2 D1 D2 H1 H2 Mi1 Mi2 S1 S2.
  assert (Hm : m1 = m2).
  { apply two_digits_inj; try lia. unfold two_digits. now rewrite M1, M2. }
  assert (Hd : d1 = d2).
  { apply two_digits_inj; try lia. unfold two_digits. now rewrite D1, D2. }
  assert (Hh : h1 = h2).
  { apply two_digits_inj; try lia. unfold two_digits. now rewrite H1, H2. }
  assert (Hmi : mi1 = mi2).
  { apply two_digits_inj; try lia. unfold two_digits. now rewrite Mi1, Mi2. }
  assert (Hs : s1 = s2).
  { apply two_digits_inj; try lia. unfold two_digits. now rewrite S1, S2. }
  congruence.
Qed.

(** One reading, one identifier. *)
Lemma run_id_identifies_the_second_witness :
  generate_run_id ten_o_clock = "run_20241102_100000" /\ ten_o_clock = ten_o_clock.
Proof.
  split; [reflexivity|].
  apply (run_id_identifies_the_second ten_o_clock ten_o_clock).
  - unfold valid_datetime. simpl. lia.
  - unfold valid_datetime. simpl. lia.
  - reflexivity.
Defined.

(** ** The tracker *)

Lemma agent_find_set_same (t : agents_data) (a : string) (r : agent_record) :
  agent_find (agent_set t a r) a = Some r.
Proof.
  induction t as [|[k r'] rest IH]; simpl.
  - now rewrite String.eqb_refl.
  - destruct (k =? a) eqn:E; simpl; rewrite E; auto.
Qed.

Lemma agent_find_set_other (t : agents_data) (a b : string) (r : agent_record) :
  a <> b -> agent_find (agent_set t a r) b = agent_find t b.
Proof.
  intros Hne. induction t as [|[k r'] rest IH]; simpl.
  - destruct (a =? b) eqn:E; [apply String.eqb_eq in E; contradiction | reflexivity].
  - destruct (k =? a) eqn:E; simpl.
    + apply String.eqb_eq in E. subst k.
      destruct (a =? b) eqn:E0; [apply String.eqb_eq in E0; contradiction | reflexivity].
    + destruct (k =? b); auto.
Qed.

Lemma agent_set_keys_known (t : agents_data) (a : string) (r r0 : agent_record) :
  agent_find t a = Some r0 -> map fst (agent_set t a r) = map fst t.
Proof.
  induction t as [|[k r'] rest IH]; simpl; [discriminate|].
  destruct (k =? a) eqn:E; simpl; auto.
  intros H. now rewrite IH.
Qed.

Lemma agent_set_keys_new (t : agents_data) (a : string) (r : agent_record) :
  agent_find t a = None -> map fst (agent_set t a r) = map fst t ++ [a].
Proof.
  induction t as [|[k r'] rest IH]; simpl; auto.
  destruct (k =? a) eqn:E; simpl; [discriminate|].
  intros H. now rewrite IH.
Qed.

Lemma agent_find_none_keys (t : agents_data) (a : string) :
  agent_find t a = None <-> ~ In a (map fst t).
Proof.
  induction t as [|[k r] rest IH]; simpl.
  - tauto.
  - destruct (k =? a) eqn:E.
    + apply String.eqb_eq in E. split; [discriminate | intros H; exfalso; auto].
    + apply String.eqb_neq in E. rewrite IH. tauto.
Qed.

Lemma tracker_calls_log (a : string) (calls : list tracker_call) :
  forall (t : agents_data) (r : agent_record),
    agent_find t a = Some r ->
    forallb (fun call => negb (starts a call)) calls = true ->
    exists r',
      agent_find (tracker_calls t calls) a = Some r'
      /\ ar_tools_used r' = ar_tools_used r ++ logged_for a calls
      /\ ar_name r' = ar_name r /\ ar_task r' = ar_task r
      /\ ar_input r' = ar_input r /\ ar_start_time r' = ar_start_time r.
Proof.
  induction calls as [|call rest IH]; intros t r Hr Hns; simpl.
  - exists r. rewrite app_nil_r. repeat split; auto.
  - simpl in Hns. apply andb_true_iff in Hns. destruct Hns as [Hn Hns].
    destruct call as [ts b task input|ts b tool input output|ts b output status];
      simpl in *.
    + apply negb_true_iff in Hn. apply String.eqb_neq in Hn.
      apply IH; auto. unfold start_agent.
      rewrite agent_find_set_other; auto.
    + unfold log_tool_usage.
      destruct (b =? a) eqn:E.
      * apply String.eqb_eq in E. subst b. rewrite Hr.
        destruct (IH (agent_set t a
                        (mk_agent_record (ar_name r) (ar_task r) (ar_input r)
                           (ar_tools_used r
                            ++ [mk_tool_record tool input (first_chars 500 output) ts])
                           (ar_output r) (ar_start_time r) (ar_end_time r)
                           (ar_status r)))
                    _ (agent_find_set_same _ _ _) Hns)
          as (r' & Hf & Hl & Hrest).
        exists r'. split; auto. split; auto.
        rewrite Hl. simpl. now rewrite <- app_assoc.
      * apply String.eqb_neq in E.
        destruct (agent_find t b) as [rb|]; auto.
        apply IH; auto. rewrite agent_find_set_other; auto.
    + unfold end_agent.
      destruct (b =? a) eqn:E.
      * apply String.eqb_eq in E. subst b. rewrite Hr.
        destruct (IH (agent_set t a
                        (mk_agent_record (ar_name r) (ar_task r) (ar_input r)
                           (ar_tools_used r) output (ar_start_time r) (Some ts)
                           status))
                    _ (agent_find_set_same _ _ _) Hns)
          as (r' & Hf & Hl & Hrest).
        exists r'. auto.
      * apply String.eqb_neq in E.
        destruct (agent_find t b) as [rb|]; auto.
        apply IH; auto. rewrite agent_find_set_other; auto.
Qed.

(** X23.  After [start_agent] for an agent and any further calls that
    do not start that agent again, the tracker has a record for it whose
    ['tools_used'] are exactly the tools logged for it since, in the
    order of the calls, each with its output cut to at most 500
    characters; name, task and start time are those of the start.
    Whatever was recorded for the agent before that start is gone. *)
Theorem tool_log_since_last_start :
  forall (t : agents_data) (before after : list tracker_call)
         (ts a task : string) (input : pyval),
    forallb (fun call => negb (starts a call)) after = true ->
    exists r,
      agent_find
        (tracker_calls t (before ++ StartAgent ts a task input :: after)) a
      = Some r
      /\ ar_tools_used r = logged_for a after
      /\ Forall (fun tr => (String.length (tr_output tr) <= 500)%nat)
           (ar_tools_used r)
      /\ ar_name r = a /\ ar_task r = task /\ ar_start_time r = ts.
Proof.
  intros t before after ts a task input Hns.
  unfold tracker_calls. rewrite fold_left_app. simpl.
  set (t1 := fold_left tracker_step before t).
  destruct (tracker_calls_log a after (start_agent t1 ts a task input)
              _ (agent_find_set_same _ _ _) Hns)
    as (r & Hf & Hl & Hn & Ht & _ & Hs).
  exists r. simpl in *. repeat split; auto.
  rewrite Hl. clear. induction after as [|call rest IH]; simpl; [constructor|].
  destruct call; auto.
  destruct (agent_name =? a); auto.
  constructor; auto. simpl. apply first_chars_length.
Qed.

(** Two tools logged for the analyst, one for somebody else. *)
Lemma tool_log_since_last_start_witness :
  exists r,
    agent_find
      (tracker_calls []
         ([] ++ StartAgent "10:00:00" "Analyst" "rate" PNone :: analyst_calls))
      "Analyst" = Some r
    /\ List.length (ar_tools_used r) = 2%nat.
Proof.
  destruct (tool_log_since_last_start [] [] analyst_calls "10:00:00" "Analyst"
              "rate" PNone) as (r & H1 & H2 & _).
  - reflexivity.
  - exists r. split; [exact H1|]. rewrite H2. reflexivity.
Defined.

Lemma start_agent_keys (t : agents_data) (ts a task : string) (input : pyval) :
  NoDup (map fst t) ->
  NoDup (map fst (start_agent t ts a task input))
  /\ (forall b, In b (map fst (start_agent t ts a task input))
                <-> In b (map fst t) \/ b = a).
Proof.
  intros Hnd. unfold start_agent.
  destruct (agent_find t a) as [r0|] eqn:E.
  - rewrite (agent_set_keys_known _ _ _ _ E). split; auto.
    intros b. split; auto. intros [H| ->]; auto.
    destruct (agent_find_none_keys t a) as [_ H2].
    destruct (in_dec string_dec a (map fst t)) as [Hin|Hout]; auto.
    rewrite (H2 Hout) in E. discriminate.
  - rewrite (agent_set_keys_new _ _ _ E). split.
    + apply NoDup_snoc; auto. now apply agent_find_none_keys.
    + intros b. rewrite in_app_iff. simpl. intuition.
Qed.

Lemma end_agent_keys (t : agents_data) (ts a : string) (out : pyval) (st : string) :
  map fst (end_agent t ts a out st) = map fst t.
Proof.
  unfold end_agent. destruct (agent_find t a) as [r|] eqn:E; auto.
  now apply (agent_set_keys_known _ _ _ r).
Qed.

Lemma log_tool_usage_keys (t : agents_data) (ts a tool : string) (input : pyval)
      (output : string) :
  map fst (log_tool_usage t ts a tool input output) = map fst t.
Proof.
  unfold log_tool_usage. destruct (agent_find t a) as [r|] eqn:E; auto.
  now apply (agent_set_keys_known _ _ _ r).
Qed.

Lemma start_loop (agents : list crew_agent) :
  forall t : agents_data,
    NoDup (map fst t) ->
    (forall a r, agent_find t a = Some r -> started_by_run a r) ->
    NoDup (map fst (start_agents agents t))
    /\ (forall b, In b (map fst (start_agents agents t))
                  <-> In b (map fst t) \/ In b (map role agents))
    /\ (forall a r, agent_find (start_agents agents t) a = Some r ->
                    started_by_run a r).
Proof.
  induction agents as [|x rest IH]; intros t Hnd Hall; simpl.
  - split; auto. split; auto. intros b. tauto.
  - destruct (start_agent_keys t (started_at x) (role x)
                ("Executing " ++ role x)
                (PDict [("role", PStr (role x)); ("goal", goal x)]) Hnd)
      as [Hnd1 Hk1].
    destruct (IH _ Hnd1) as (Hnd2 & Hk2 & Hall2).
    + intros a r. unfold start_agent.
      destruct (string_dec (role x) a) as [<-|Hne].
      * rewrite agent_find_set_same. intros H. injection H as <-.
        repeat split.
      * rewrite agent_find_set_other by auto. apply Hall.
    + split; auto. split; auto.
      intros b. rewrite Hk2, Hk1. intuition.
Qed.

Lemma end_loop (result : string) (agents : list crew_agent) :
  forall t : agents_data,
    map fst (end_agents result agents t) = map fst t
    /\ (forall a r', agent_find (end_agents result agents t) a = Some r' ->
          exists r,
            agent_find t a = Some r
            /\ ar_name r' = ar_name r /\ ar_task r' = ar_task r
            /\ ar_tools_used r' = ar_tools_used r
            /\ ((ar_output r' = PStr (first_chars 500 result)
                 /\ ar_status r' = "completed" /\ ar_end_time r' <> None)
                \/ (~ In a (map role agents) /\ r' = r))).
Proof.
  induction agents as [|x rest IH]; intros t; simpl.
  - split; auto. intros a r' H. exists r'. repeat split; auto.
  - destruct (IH (end_agent t (ended_at x) (role x)
                    (PStr (first_chars 500 result)) "completed")) as (Hk & Hrec).
    split; [rewrite Hk; apply end_agent_keys|].
    intros a r' Hf. destruct (Hrec a r' Hf) as (r1 & Hf1 & Hn & Ht & Hl & Hd).
    unfold end_agent in Hf1.
    destruct (string_dec (role x) a) as [<-|Hne].
    + destruct (agent_find t (role x)) as [r|] eqn:E.
      * rewrite agent_find_set_same in Hf1. injection Hf1 as <-.
        exists r. simpl in *. repeat split; auto.
        left. destruct Hd as [Hd|[_ ->]]; auto.
        simpl. repeat split; auto. discriminate.
      * rewrite E in Hf1. discriminate.
    + assert (Hf0 : agent_find t a = Some r1).
      { destruct (agent_find t (role x)) as [r|]; auto.
        now rewrite agent_find_set_other in Hf1 by auto. }
      exists r1. repeat split; auto.
      destruct Hd as [Hd|[Hnin ->]]; auto.
      right. split; auto. intros [H|H]; auto.
Qed.

Lemma agent_find_some_keys (t : agents_data) (a : string) (r : agent_record) :
  agent_find t a = Some r -> In a (map fst t).
Proof.
  intros H. destruct (in_dec string_dec a (map fst t)) as [Hin|Hout]; auto.
  apply agent_find_none_keys in Hout. congruence.
Qed.

(** X24.  The tracker as [run] leaves it has one record for each role
    of the crew, and no other: agents that share a role share a record.
    Every record is marked "completed", has an end time, lists no tool,
    and carries as its output the first 500 characters of the crew's
    final result, the same for every agent. *)
Theorem run_reports_carry_final_result :
  forall (agents : list crew_agent) (result : string),
    NoDup (summary_agents (run_tracking agents result))
    /\ (forall a, In a (summary_agents (run_tracking agents result))
                  <-> In a (map role agents))
    /\ (summary_total_agents (run_tracking agents result)
        <= List.length agents)%nat
    /\ (forall a r, agent_find (run_tracking agents result) a = Some r ->
                    closed_with_result result a r).
Proof.
  intros agents result. unfold run_tracking, summary_agents, summary_total_agents.
  destruct (start_loop agents [] (NoDup_nil _)) as (Hnd & Hk & Hall).
  { intros a r H. discriminate. }
  destruct (end_loop result agents (start_agents agents [])) as (Hk2 & Hrec).
  rewrite Hk2.
  assert (Hkeys : forall a, In a (map fst (start_agents agents []))
                            <-> In a (map role agents)).
  { intros a. rewrite Hk. simpl. tauto. }
  split; auto. split; auto. split.
  - rewrite <- (length_map fst), Hk2.
    rewrite <- (length_map role agents).
    apply NoDup_incl_length; auto.
    intros a Ha. now apply Hkeys.
  - intros a r' Hf. destruct (Hrec a r' Hf) as (r & Hf0 & Hn & Ht & Hl & Hd).
    destruct (Hall a r Hf0) as (Hn0 & Ht0 & Hl0).
    unfold closed_with_result. rewrite Hn, Ht, Hl.
    destruct Hd as [(Ho & Hs & He)|[Hnin _]]; [repeat split; auto|].
    exfalso. apply Hnin. apply Hkeys. eapply agent_find_some_keys; eauto.
Qed.

(** The crew of two. *)
Lemma run_reports_carry_final_result_witness :
  exists r,
    agent_find (run_tracking two_agents "three startups found") "Scout" = Some r
    /\ ar_output r = PStr "three startups found".
Proof.
  destruct (agent_find (run_tracking two_agents "three startups found") "Scout")
    as [r|] eqn:E.
  - exists r. split; [reflexivity|].
    destruct (run_reports_carry_final_result two_agents "three startups found")
      as (_ & _ & _ & H4).
    destruct (H4 "Scout" r E) as (_ & _ & _ & Hout & _).
    exact Hout.
  - vm_compute in E. discriminate E.
Defined.

(** X25.  Whatever calls are made on a fresh tracker, the agents its
    summary lists are exactly those [start_agent] was called for, each
    once, and every record bears the name it is filed under:
    [log_tool_usage] and [end_agent] never add an agent. *)
Theorem tracker_agents_are_those_started :
  forall (calls : list tracker_call),
    let t := tracker_calls [] calls in
    NoDup (summary_agents t)
    /\ (forall a, In a (summary_agents t) <-> existsb (starts a) calls = true)
    /\ (forall a r, agent_find t a = Some r -> ar_name r = a).
Proof.
  intros calls.
  assert (H : forall t,
             NoDup (map fst t) ->
             (forall a r, agent_find t a = Some r -> ar_name r = a) ->
             NoDup (map fst (tracker_calls t calls))
             /\ (forall a, In a (map fst (tracker_calls t calls))
                           <-> In a (map fst t) \/ existsb (starts a) calls = true)
             /\ (forall a r, agent_find (tracker_calls t calls) a = Some r ->
                             ar_name r = a)).
  { induction calls as [|call rest IH]; intros t Hnd Hn; simpl.
    - split; auto. split; auto. intros a. split; auto. intros [H|H]; auto.
      discriminate.
    - assert (Hstep : NoDup (map fst (tracker_step t call))
                      /\ (forall a, In a (map fst (tracker_step t call))
                                    <-> In a (map fst t) \/ starts a call = true)
                      /\ (forall a r, agent_find (tracker_step t call) a = Some r ->
                                      ar_name r = a)).
      { destruct call as [ts b task input|ts b tool input output|ts b output status];
          simpl.
        - destruct (start_agent_keys t ts b task input Hnd) as [H1 H2].
          split; auto. split.
          + intros a. rewrite H2. rewrite String.eqb_eq.
            split; intros [H|H]; auto.
          + intros a r. unfold start_agent.
            destruct (string_dec b a) as [<-|Hne].
            * rewrite agent_find_set_same. intros H. now injection H as <-.
            * rewrite agent_find_set_other by auto. apply Hn.
        - rewrite log_tool_usage_keys. split; auto. split.
          + intros a. split; auto. intros [H|H]; auto. discriminate.
          + intros a r. unfold log_tool_usage.
            destruct (agent_find t b) as [rb|] eqn:E; [|apply Hn].
            destruct (string_dec b a) as [<-|Hne].
            * rewrite agent_find_set_same. intros H. injection H as <-.
              simpl. now apply Hn.
            * rewrite agent_find_set_other by auto. apply Hn.
        - rewrite end_agent_keys. split; auto. split.
          + intros a. split; auto. intros [H|H]; auto. discriminate.
          + intros a r. unfold end_agent.
            destruct (agent_find t b) as [rb|] eqn:E; [|apply Hn].
            destruct (string_dec b a) as [<-|Hne].
            * rewrite agent_find_set_same. intros H. injection H as <-.
              simpl. now apply Hn.
            * rewrite agent_find_set_other by auto. apply Hn. }
      destruct Hstep as (H1 & H2 & H3).
      destruct (IH _ H1 H3) as (H4 & H5 & H6).
      split; auto. split; auto.
      intros a. rewrite H5, H2. rewrite orb_true_iff. tauto. }
  destruct (H [] (NoDup_nil _)) as (H1 & H2 & H3).
  { intros a r Hf. discriminate. }
  split; auto. split; auto.
  intros a. unfold summary_agents. rewrite H2. simpl. tauto.
Qed.

(** Calls for an agent that was never started leave the tracker empty. *)
Lemma tracker_agents_are_those_started_witness :
  NoDup (summary_agents (tracker_calls [] analyst_calls))
  /\ ~ In "Analyst" (summary_agents (tracker_calls [] analyst_calls)).
Proof.
  destruct (tracker_agents_are_those_started analyst_calls) as (H1 & H2 & _).
  split; [exact H1|].
  intros Hin. apply H2 in Hin. discriminate Hin.
Defined.

(* ================================================================== *)
(** * The entry point *)
(* ================================================================== *)

Lemma init_database_healthy (w : world) :
  faults w = [] -> init_database w = (Ok tt, w).
Proof.
  intros H. unfold init_database. now rewrite (get_db_connection_healthy w H).
Qed.

Lemma get_all_startups_healthy (w : world) :
  faults w = [] ->
  get_all_startups w
  = (map row_to_dict (order_by_desc col_created_at Z.compare (startups (db w))), w).
Proof.
  intros H. unfold get_all_startups. now rewrite (get_db_connection_healthy w H).
Qed.

Lemma get_startups_by_tier_healthy (tier : string) (w : world) :
  faults w = [] ->
  snd (get_startups_by_tier tier w) = w
  /\ Z.of_nat (List.length (fst (get_startups_by_tier tier w)))
     = rows_in_tier tier (startups (db w)).
Proof.
  intros H. unfold get_startups_by_tier.
  rewrite (get_db_connection_healthy w H). simpl. split; auto.
  rewrite length_map.
  rewrite (Permutation_length (order_by_desc_perm _ _ _)). reflexivity.
Qed.

Lemma insert_run_metadata_healthy (rd : pydict) (w : world) :
  faults w = [] -> faults (snd (insert_run_metadata rd w)) = [].
Proof.
  intros H. unfold insert_run_metadata. rewrite (get_db_connection_healthy w H).
  destruct (insert_run_row rd w); simpl; auto.
Qed.

Lemma aggregate_healthy (ctx : run_context) (w : world) :
  faults w = [] ->
  faults (snd (aggregate ctx w)) = []
  /\ startups (db (snd (aggregate ctx w))) = startups (db w)
  /\ (run_metadata (db (snd (aggregate ctx w))) = run_metadata (db w)
      \/ exists row,
           run_metadata (db (snd (aggregate ctx w))) = run_metadata (db w) ++ [row]
           /\ run_col_total_startups_found row
              = SqlInt (Z.of_nat (List.length (startups (db w))))
           /\ run_col_tier_1_count row = SqlInt (rows_in_tier "Tier 1" (startups (db w)))
           /\ run_col_tier_2_count row = SqlInt (rows_in_tier "Tier 2" (startups (db w)))
           /\ run_col_tier_3_count row = SqlInt (rows_in_tier "Tier 3" (startups (db w)))).
Proof.
  intros H. unfold aggregate. rewrite (get_all_startups_healthy w H).
  set (sorted := order_by_desc col_created_at Z.compare (startups (db w))).
  assert (Hperm : Permutation sorted (startups (db w))) by apply order_by_desc_perm.
  split; [now apply insert_run_metadata_healthy|].
  destruct (insert_run_metadata (run_data_of ctx (map row_to_dict sorted)) w)
    as [b w'] eqn:E.
  destruct b.
  - apply insert_run_metadata_written in E.
    destruct E as (row & Hdb & _ & Htot & H1 & H2 & H3 & _).
    simpl. rewrite Hdb. simpl. split; auto. right. exists row.
    rewrite tier_count_rows in H1, H2, H3.
    rewrite (rows_in_tier_perm "Tier 1" _ _ Hperm) in H1.
    rewrite (rows_in_tier_perm "Tier 2" _ _ Hperm) in H2.
    rewrite (rows_in_tier_perm "Tier 3" _ _ Hperm) in H3.
    rewrite length_map, (Permutation_length Hperm) in Htot.
    repeat split; auto.
  - destruct (insert_run_metadata_db_cases (run_data_of ctx (map row_to_dict sorted)) w)
      as [[_ Hdb]|[Ht _]]; rewrite E in *; simpl in *; [|discriminate].
    rewrite Hdb. auto.
Qed.

Section MainFacts.
Variable builtin_hash : pyval -> Z.
Variable json_loads : string -> outcome pyval.
Variable dumps_for_log : list pyval -> outcome unit.

Lemma process_and_save_results_healthy (ctx : run_context) (text : string)
      (w : world) :
  faults w = [] ->
  faults (process_and_save_results builtin_hash json_loads dumps_for_log ctx text w) = []
  /\ at_most_one_matching_summary (db w)
       (db (process_and_save_results builtin_hash json_loads dumps_for_log ctx text w)).
Proof.
  intros H. unfold process_and_save_results, process_and_save_results_body.
  destruct (parse_startup_data json_loads text) as [parsed|e]; simpl;
    [|split; [auto | now left]].
  destruct (log_parsed dumps_for_log parsed) as [[]|e]; simpl;
    [|split; [auto | now left]].
  destruct (extract_tier_info json_loads text) as [ti|e]; simpl;
    [|split; [auto | now left]].
  destruct (extract_market_fit json_loads text) as [fi|e]; simpl;
    [|split; [auto | now left]].
  pose proof (insert_loop_healthy builtin_hash ti fi parsed 0 w H)
    as Hh.
  destruct (insert_loop_extends builtin_hash ti fi parsed 0 w)
    as (new & [_ Hruns] & _).
  rewrite app_nil_r in Hruns.
  destruct (insert_loop builtin_hash ti fi parsed 0 w)
    as [[n|e] w1]; simpl in *.
  - destruct (aggregate_healthy ctx w1 Hh) as (Hh2 & Hst & Hsum).
    destruct (aggregate ctx w1) as [b w2]. simpl in *.
    split; auto. unfold at_most_one_matching_summary. rewrite <- Hruns.
    destruct Hsum as [Hsame|(row & Hrow & Hc)]; [now left|].
    right. exists row. split; auto. unfold summary_matches. now rewrite Hst.
  - split; auto. left. exact Hruns.
Qed.

Lemma run_healthy (ctx : run_context) (env : collaborators) (w : world) :
  faults w = [] ->
  faults (snd (run builtin_hash json_loads dumps_for_log ctx env w)) = []
  /\ at_most_one_matching_summary (db w) (db (snd (run builtin_hash json_loads dumps_for_log ctx env w))).
Proof.
  intros H. unfold run. rewrite (init_database_healthy w H).
  destruct (setup_crew env); simpl; [|split; [auto | now left]].
  destruct (kickoff env) as [result|e]; simpl; [|split; [auto | now left]].
  destruct (process_and_save_results_healthy ctx result w H) as [Hh Hsum].
  assert (Hfin : snd (match save_all_reports env with
                      | Ok _ => (true, send_email_notification env
                                         (process_and_save_results builtin_hash json_loads dumps_for_log ctx result w))
                      | Raise _ => (false, process_and_save_results builtin_hash json_loads dumps_for_log ctx result w)
                      end)
                 = process_and_save_results builtin_hash json_loads dumps_for_log ctx result w).
  { destruct (save_all_reports env); simpl; auto.
    unfold send_email_notification. destruct (email_enabled env); auto.
    now rewrite (get_all_startups_healthy _ Hh). }
  rewrite Hfin. auto.
Qed.

(** X26.  When every connection opens and [main] gets to print its
    counts, what it prints is what the store holds at the end: the
    number of stored startups, and for each of the three tiers the
    number of rows with exactly that tier, whose sum is at most the
    total.  If the run wrote its summary row, the four counts of that
    row are the four numbers printed. *)
Theorem main_reports_the_store :
  forall (ctx : run_context) (env : collaborators) (create_crew : outcome unit)
         (w w' : world) (total tier_1 tier_2 tier_3 : Z),
    faults w = [] ->
    main builtin_hash json_loads dumps_for_log ctx env create_crew w
    = (Ok (Some (total, (tier_1, tier_2, tier_3))), w') ->
    total = Z.of_nat (List.length (startups (db w')))
    /\ tier_1 = rows_in_tier "Tier 1" (startups (db w'))
    /\ tier_2 = rows_in_tier "Tier 2" (startups (db w'))
    /\ tier_3 = rows_in_tier "Tier 3" (startups (db w'))
    /\ (tier_1 + tier_2 + tier_3 <= total)%Z
    /\ (forall row,
          run_metadata (db w') = run_metadata (db w) ++ [row] ->
          run_col_total_startups_found row = SqlInt total
          /\ run_col_tier_1_count row = SqlInt tier_1
          /\ run_col_tier_2_count row = SqlInt tier_2
          /\ run_col_tier_3_count row = SqlInt tier_3).
Proof.
  intros ctx env create w w' total t1 t2 t3 H Hmain.
  unfold main in Hmain. rewrite (init_database_healthy w H) in Hmain.
  destruct create; [|discriminate].
  destruct (run_healthy ctx env w H) as [Hh Hsum].
  destruct (run builtin_hash json_loads dumps_for_log ctx env w) as [success w2]. simpl in Hh, Hsum.
  destruct success; [|discriminate].
  rewrite (get_all_startups_healthy w2 Hh) in Hmain.
  destruct (get_startups_by_tier_healthy "Tier 1" w2 Hh) as [E1 C1].
  destruct (get_startups_by_tier "Tier 1" w2) as [l1 w4]. simpl in E1, C1. subst w4.
  destruct (get_startups_by_tier_healthy "Tier 2" w2 Hh) as [E2 C2].
  destruct (get_startups_by_tier "Tier 2" w2) as [l2 w5]. simpl in E2, C2. subst w5.
  destruct (get_startups_by_tier_healthy "Tier 3" w2 Hh) as [E3 C3].
  destruct (get_startups_by_tier "Tier 3" w2) as [l3 w6]. simpl in E3, C3. subst w6.
  injection Hmain as Ht H1 H2 H3 Hw. subst w'.
  rewrite length_map, (Permutation_length (order_by_desc_perm _ _ _)) in Ht.
  rewrite C1 in H1. rewrite C2 in H2. rewrite C3 in H3. subst total t1 t2 t3.
  split; auto. split; auto. split; auto. split; auto.
  split; [apply rows_in_tier_disjoint|].
  intros row Hrow.
  destruct Hsum as [Hsame|(row0 & Hrow0 & Hc)].
  - rewrite Hsame in Hrow.
    assert (Hlen : List.length (run_metadata (db w))
                   = List.length (run_metadata (db w) ++ [row])) by now rewrite <- Hrow.
    rewrite length_app in Hlen. simpl in Hlen. lia.
  - rewrite Hrow0 in Hrow. apply app_inv_head in Hrow.
    injection Hrow as <-. exact Hc.
Qed.

End MainFacts.

(** The run of the example: one startup, in no tier. *)
Lemma main_reports_the_store_witness :
  1%Z = Z.of_nat
          (List.length
             (startups
                (db (snd (main toy_hash cpython_loads dumps_returns acme_ctx acme_env (Ok tt)
                            (healthy empty_database 0)))))).
Proof.
  refine (proj1 (main_reports_the_store toy_hash cpython_loads dumps_returns acme_ctx acme_env (Ok tt)
                   (healthy empty_database 0)
                   (snd (main toy_hash cpython_loads dumps_returns acme_ctx acme_env (Ok tt)
                           (healthy empty_database 0)))
                   1 0 0 0 _ _)).
  - reflexivity.
  - vm_compute. reflexivity.
Defined.
